(** * zabbix_metrics: working-hours metric report

    A shallow embedding of [playbook/library/zabbix_metrics.py], the Ansible
    module that reads item history from a Zabbix server for the local
    09:00-18:00 window of each of the last days, reduces every item to
    min / avg / max and writes the table to a spreadsheet.

    Layout: the Python values the module computes with (binary64 floats,
    strings, the time-zone table of pytz), then the module's functions in
    source order, then the properties.

    External collaborators are modelled by their documented behaviour and
    marked as such: the Zabbix API client (a deterministic responder whose
    requests are logged), pytz, the wall clock, pandas' spreadsheet writer
    and the file system. *)

From Stdlib Require Import ZArith List String Ascii Bool Lia Permutation Sorted.
From Stdlib Require Import QArith Floats.SpecFloat DecimalString.
Import ListNotations.

Open Scope string_scope.
Open Scope Z_scope.

(* ================================================================== *)
(** * Python floats *)
(* ================================================================== *)

Module PyFloat.

(** A Python [float] is an IEEE-754 binary64 number: 53 bits of
    precision, infinities at exponent 1024. *)
Definition float := spec_float.
Definition prec : Z := 53.
Definition emax : Z := 1024.

Definition fadd : float -> float -> float := SFadd prec emax.
Definition fsub : float -> float -> float := SFsub prec emax.
Definition fdiv : float -> float -> float := SFdiv prec emax.
Definition flt : float -> float -> bool := SFltb.
Definition fle : float -> float -> bool := SFleb.
Definition fabs : float -> float := SFabs.

(** [float(n)] for a Python int. *)
Definition of_Z (z : Z) : float := binary_normalize prec emax z 0 false.
Definition of_nat (n : nat) : float := of_Z (Z.of_nat n).

Definition is_nan (x : float) : bool :=
  match x with S754_nan => true | _ => false end.

Definition is_finite (x : float) : bool :=
  match x with S754_zero _ | S754_finite _ _ _ => true | _ => false end.

Definition is_zero (x : float) : bool :=
  match x with S754_zero _ => true | _ => false end.

(** [min(values)] and [max(values)]: the builtin keeps the first item and
    replaces it by a later one only when that one compares strictly
    smaller (larger). *)
Definition min_step (acc v : float) : float := if flt v acc then v else acc.
Definition max_step (acc v : float) : float := if flt acc v then v else acc.

Definition py_min (x : float) (rest : list float) : float :=
  fold_left min_step rest x.
Definition py_max (x : float) (rest : list float) : float :=
  fold_left max_step rest x.

(** [sum(values)].  The builtin starts from the int 0, so the first
    addition is [0.0 + values[0]].  How the remaining floats are added
    depends on the interpreter: up to CPython 3.11 they are added left
    to right; from CPython 3.12 on the builtin carries Neumaier's
    compensation term and adds it at the end when it is finite and not
    zero. *)
Inductive sum_algorithm := LeftToRight | Compensated.

Definition sum_left_to_right (values : list float) : float :=
  fold_left fadd values (S754_zero false).

Definition neumaier_step (st : float * float) (x : float) : float * float :=
  let '(f_result, c) := st in
  let t := fadd f_result x in
  let c' := if fle (fabs x) (fabs f_result)
            then fadd c (fadd (fsub f_result t) x)
            else fadd c (fadd (fsub x t) f_result) in
  (t, c').

Definition sum_compensated (values : list float) : float :=
  match values with
  | [] => S754_zero false
  | x :: rest =>
      let '(f_result, c) :=
        fold_left neumaier_step rest (fadd (S754_zero false) x, S754_zero false) in
      if negb (is_zero c) && is_finite c then fadd f_result c else f_result
  end.

Definition py_sum (alg : sum_algorithm) (values : list float) : float :=
  match alg with
  | LeftToRight => sum_left_to_right values
  | Compensated => sum_compensated values
  end.

(** ** [f"{x:.1f}"] and [float(...)] of the result

    The format rounds the exact binary value to one decimal, ties to the
    even digit; the text is a sign, and the integer [tenths] printed with
    a point before its last digit.  [float] of that text is the binary64
    number nearest to [tenths / 10]. *)

(** [a / b] rounded to the nearest integer, ties to even ([0 <= a], [0 < b]). *)
Definition rne_div (a b : Z) : Z :=
  let q := a / b in
  let r := a mod b in
  match 2 * r ?= b with
  | Lt => q
  | Gt => q + 1
  | Eq => if Z.even q then q else q + 1
  end.

Inductive fmt1 :=
| FmtNan
| FmtInf (neg : bool)
| FmtDec (neg : bool) (tenths : Z).

Definition format_1f (x : float) : fmt1 :=
  match x with
  | S754_nan => FmtNan
  | S754_infinity s => FmtInf s
  | S754_zero s => FmtDec s 0
  | S754_finite s m e =>
      FmtDec s (if 0 <=? e then 10 * Zpos m * 2 ^ e
                else rne_div (10 * Zpos m) (2 ^ (- e)))
  end.

Definition ten : float := of_Z 10.

Definition float_of_fmt1 (t : fmt1) : float :=
  match t with
  | FmtNan => S754_nan
  | FmtInf s => S754_infinity s
  | FmtDec s q =>
      match q with
      | Zpos p => fdiv (S754_finite s p 0) ten
      | _ => S754_zero s
      end
  end.

(** [float(f"{x:.1f}")] *)
Definition round1 (x : float) : float := float_of_fmt1 (format_1f x).

(** ** Exact values, for comparison with the arithmetic above *)

(** The rational a finite float denotes (0 for the others). *)
Definition to_Q (x : float) : Q :=
  match x with
  | S754_finite s m e =>
      let n := if s then Zneg m else Zpos m in
      if 0 <=? e then inject_Z (n * 2 ^ e)
      else Qmake n (Z.to_pos (2 ^ (- e)))
  | _ => 0%Q
  end.

(** A rational rounded to one decimal place (ties to even), as the
    nearest binary64 number. *)
Definition round1_Q (v : Q) : float :=
  let n := Qnum v in
  let d := Zpos (Qden v) in
  float_of_fmt1 (FmtDec (n <? 0) (rne_div (10 * Z.abs n) d)).

Definition exact_mean (values : list float) : Q :=
  (fold_right Qplus 0%Q (map to_Q values) / inject_Z (Z.of_nat (List.length values)))%Q.

(** The binary64 number nearest to [n / 10^k], i.e. [float] of a decimal
    literal with [k] digits after the point ([n < 2^53], [k <= 22]). *)
Definition dec (n : Z) (k : Z) : float := fdiv (of_Z n) (of_Z (10 ^ k)).

(** [2^k] as a float, for [emin <= k]. *)
Definition pow2 (k : Z) : float := SFldexp prec emax (of_Z 1) k.

End PyFloat.
Import PyFloat.

(* ================================================================== *)
(** * Python strings and exceptions *)
(* ================================================================== *)

Module PyStr.

(** [needle in hay] for two [str]. *)
Fixpoint contains (needle hay : string) : bool :=
  if prefix needle hay then true
  else match hay with
       | EmptyString => false
       | String _ rest => contains needle rest
       end.

(** [str(n)] for a non-negative int. *)
Definition str_of_nat (n : nat) : string :=
  NilEmpty.string_of_uint (Nat.to_uint n).

Definition slash : ascii := "/"%char.

Definition is_slash (c : ascii) : bool := Ascii.eqb c slash.

Fixpoint drop_while {A} (p : A -> bool) (l : list A) : list A :=
  match l with
  | [] => []
  | x :: rest => if p x then drop_while p rest else l
  end.

(** [os.path.dirname] (posixpath): the text up to and including the last
    slash, with trailing slashes removed unless it consists of slashes
    only. *)
Definition dirname (p : string) : string :=
  let head_rev := drop_while (fun c => negb (is_slash c))
                             (rev (list_ascii_of_string p)) in
  if forallb is_slash head_rev then string_of_list_ascii (rev head_rev)
  else string_of_list_ascii (rev (drop_while is_slash head_rev)).

End PyStr.
Import PyStr.

(** The exceptions the run can meet; all derive from [Exception]. *)
Inductive exn :=
| Exception (msg : string)
| APIRequestError (msg : string)
| UnknownTimeZoneError (zone_name : string)
| RecursionError
| OSError (msg : string).

(** [str(e)] *)
Definition str (e : exn) : string :=
  match e with
  | Exception msg => msg
  | APIRequestError msg => msg
  | UnknownTimeZoneError zone_name => "'" ++ zone_name ++ "'"
  | RecursionError => "maximum recursion depth exceeded"
  | OSError msg => msg
  end.

(* ================================================================== *)
(** * Time zones (pytz) *)
(* ================================================================== *)

(** Instants are whole seconds since 1970-01-01T00:00:00Z; a naive
    (wall-clock) datetime is the same count read on the local clock; a date
    is a count of days since 1970-01-01.  Python's [date] and [datetime]
    stop at the years 1 and 9999 and raise [OverflowError] beyond; the
    counts here do not, so the embedding covers look-backs that stay
    inside that range (some 740,000 days from now). *)

Module Tz.

(** One entry of a zone's transition table. *)
Record tzinfo := { utcoffset : Z; dst : bool }.

(** A zone of the tz database, as pytz loads it: the entry in force
    before the first transition, and the transitions in ascending order
    of their UTC instant, each with the entry in force from then on. *)
Record zone := { first : tzinfo; transitions : list (Z * tzinfo) }.

Fixpoint entry_at (cur : tzinfo) (trs : list (Z * tzinfo)) (t : Z) : tzinfo :=
  match trs with
  | [] => cur
  | (t0, inf) :: rest => if t0 <=? t then entry_at inf rest t else cur
  end.

(** The entry found by bisecting the transition instants at [t]. *)
Definition info_at (z : zone) (t : Z) : tzinfo :=
  entry_at (first z) (transitions z) t.

(** [utc_dt.astimezone(z)] as a wall-clock reading. *)
Definition to_local (z : zone) (u : Z) : Z := u + utcoffset (info_at z u).

(** One of the two guesses of [localize]: take the entry in force a day
    away from the wall-clock time, read the time in it, normalize, and
    keep the result if it shows the wall-clock time asked for. *)
Definition probe (z : zone) (wall : Z) (delta : Z) : list (Z * tzinfo) :=
  let inf := info_at z (wall + delta) in
  let u := wall - utcoffset inf in
  if to_local z u =? wall then [(u, info_at z u)] else [].

(** The set of possible readings: the two probes, without repetition. *)
Definition possible (z : zone) (wall : Z) : list (Z * tzinfo) :=
  match probe z wall (-86400), probe z wall 86400 with
  | [c1], [c2] => if fst c1 =? fst c2 then [c1] else [c1; c2]
  | l1, l2 => l1 ++ l2
  end.

Definition latest (c1 c2 : Z * tzinfo) : Z * tzinfo :=
  if fst c1 <? fst c2 then c2 else c1.

(** The choice among the possible readings with [is_dst=False]. *)
Definition choose (cands : list (Z * tzinfo)) : option (Z * tzinfo) :=
  match cands with
  | [] => None
  | [c] => Some c
  | c :: rest =>
      match filter (fun p => negb (dst (snd p))) cands with
      | [p] => Some p
      | [] => Some (fold_left latest rest c)
      | p :: ps => Some (fold_left latest ps p)
      end
  end.

(** The interpreter's recursion limit. *)
Definition recursion_limit : nat := 1000.

(** [z.localize(wall)] with the default [is_dst=False]: the UTC instant
    and the entry attached.  A wall-clock time that no reading shows (the
    clocks jumped over it) is answered by localizing six hours earlier
    and moving the result six hours on. *)
Fixpoint localize_rec (depth : nat) (z : zone) (wall : Z) : exn + Z * tzinfo :=
  match choose (possible z wall) with
  | Some c => inr c
  | None =>
      match depth with
      | O => inl RecursionError
      | S depth' =>
          match localize_rec depth' z (wall - 21600) with
          | inr (u, inf) => inr (u + 21600, inf)
          | inl e => inl e
          end
      end
  end.

Definition localize (z : zone) (wall : Z) : exn + Z * tzinfo :=
  localize_rec recursion_limit z wall.

(** The wall-clock time is shown by one of the readings [localize] tries. *)
Definition resolves (z : zone) (wall : Z) : bool :=
  match possible z wall with [] => false | _ => true end.

(** Whole days and seconds of the day of a wall-clock reading. *)
Definition date_of (wall : Z) : Z := wall / 86400.
Definition time_of (wall : Z) : Z := wall mod 86400.

(** [datetime.combine(d, time(h, 0))] *)
Definition combine (d : Z) (h : Z) : Z := d * 86400 + h * 3600.

End Tz.
Import Tz.

(* ================================================================== *)
(** * The Zabbix API, the wall clock and the file system *)
(* ================================================================== *)

(** Records of the API, with the fields the module asks for. *)
Record api_host := { hostid : string; host : string }.

Record api_item := { itemid : string; name : string; key_ : string; units : string }.

(** A history sample; [value] is [float(h["value"])], the backend sends
    the numeric storage classes as decimal text. *)
Record sample := { clock : Z; value : float }.

(** The parameters of [history.get] that vary, and the constant ones. *)
Record history_query := {
  itemids : string;
  q_time_from : Z;
  q_time_till : Z;
  output : list string;
  history : Z;
  sortfield : string;
  sortorder : string
}.

Inductive request :=
| ReqLogin (url user : string)
| ReqHostGet (host_name : string)
| ReqItemGetEnabled (host_id : string)
| ReqItemSearch (host_id item_key : string)
| ReqHistoryGet (q : history_query).

(** The monitoring server as the run sees it: every request has one
    answer, a result or an exception raised by the client. *)
Record zabbix_server := {
  login : string -> string -> string -> exn + unit;
  host_get : string -> exn + list api_host;
  item_get_enabled : string -> exn + list api_item;
  item_search : string -> string -> exn + list api_item;
  history_get : history_query -> exn + list sample
}.

(** One line of the report: [Server, Type, unit measurements, Min, Avg, Max]. *)
Record report_row := {
  Server : string;
  Type_ : string;
  unit_measurements : string;
  Min : float;
  Avg : float;
  Max : float
}.

Record DataFrame := { rows : list report_row; columns : list string }.

(** Directories and spreadsheet files, by path. *)
Record filesystem := {
  dirs : list string;
  files : list (string * DataFrame)
}.

(** What the run is given ... *)
Record environment := {
  zabbix : zabbix_server;
  wall_clock : nat -> Z;              (* the n-th reading of [datetime.now] *)
  tz_database : string -> option zone; (* [pytz.timezone] *)
  HAS_ZABBIX : bool;
  sum_alg : sum_algorithm
}.

(** ... and what it changes. *)
Record world := {
  requests : list request;            (* API requests sent, oldest first *)
  clock_reads : nat;
  fs : filesystem
}.

(** ** The monad of the run: state and exceptions *)

Definition M (A : Type) : Type := world -> (exn + A) * world.

Definition ret {A} (a : A) : M A := fun w => (inr a, w).

Definition raise {A} (e : exn) : M A := fun w => (inl e, w).

Definition bind {A B} (m : M A) (k : A -> M B) : M B :=
  fun w => match m w with
           | (inr a, w') => k a w'
           | (inl e, w') => (inl e, w')
           end.

Declare Scope run_scope.
Delimit Scope run_scope with run.
Notation "x <- m ;; k" := (bind m (fun x => k))
  (at level 61, m at next level, right associativity) : run_scope.
Notation "' pat <- m ;; k" := (bind m (fun x => match x with pat => k end))
  (at level 61, pat pattern, m at next level, right associativity) : run_scope.
Notation "m ;; k" := (bind m (fun _ => k))
  (at level 61, right associativity) : run_scope.
Open Scope run_scope.

Definition lift {A} (r : exn + A) : M A :=
  match r with inl e => raise e | inr a => ret a end.

(** [for x in l: acc = f(acc, x)] *)
Fixpoint foldM {A S} (f : S -> A -> M S) (l : list A) (s : S) : M S :=
  match l with
  | [] => ret s
  | x :: rest => s' <- f s x ;; foldM f rest s'
  end.

(** [for x in l: f(x)], where [f] updates [x] in place. *)
Fixpoint mapM {A B} (f : A -> M B) (l : list A) : M (list B) :=
  match l with
  | [] => ret []
  | x :: rest => y <- f x ;; ys <- mapM f rest ;; ret (y :: ys)
  end.

Definition send {A} (r : request) (answer : exn + A) : M A :=
  fun w => (answer, {| requests := requests w ++ [r];
                       clock_reads := clock_reads w;
                       fs := fs w |}).

Definition datetime_now (env : environment) : M Z :=
  fun w => (inr (wall_clock env (clock_reads w)),
            {| requests := requests w;
               clock_reads := S (clock_reads w);
               fs := fs w |}).

Definition pytz_timezone (env : environment) (zone_name : string) : M zone :=
  match tz_database env zone_name with
  | Some z => ret z
  | None => raise (UnknownTimeZoneError zone_name)
  end.

(** ** File system calls *)

Definition mem (p : string) (l : list string) : bool := existsb (String.eqb p) l.

Definition os_path_exists (f : filesystem) (p : string) : bool :=
  mem p (dirs f) || mem p (map fst (files f)).

Definition path_exists (p : string) : M bool :=
  fun w => (inr (os_path_exists (fs w) p), w).

Definition os_mkdir (f : filesystem) (p : string) : exn + filesystem :=
  if os_path_exists f p then inl (OSError ("File exists: " ++ p))
  else if negb (dirname p =? "")%string && negb (mem (dirname p) (dirs f))
       then inl (OSError ("No such file or directory: " ++ p))
       else inr {| dirs := p :: dirs f; files := files f |}.

(** [os.makedirs]: the missing ancestors first, then the directory.  It is
    called on a [dirname], which does not end in a slash. *)
Fixpoint makedirs_rec (depth : nat) (f : filesystem) (p : string) : exn + filesystem :=
  let head := dirname p in
  match depth with
  | O => os_mkdir f p
  | S depth' =>
      if negb (head =? "")%string && negb (head =? p)%string
         && negb (os_path_exists f head)
      then match makedirs_rec depth' f head with
           | inr f' => os_mkdir f' p
           | inl e => inl e
           end
      else os_mkdir f p
  end.

Definition os_makedirs (p : string) : M unit :=
  fun w => match makedirs_rec (String.length p) (fs w) p with
           | inr f' => (inr tt, {| requests := requests w;
                                   clock_reads := clock_reads w;
                                   fs := f' |})
           | inl e => (inl e, w)
           end.

(** [df.to_excel(path, index=False)]: pandas writes the header line and
    the rows to [path], replacing what was there, and raises [OSError]
    when the directory of [path] does not exist. *)
Definition write_excel (f : filesystem) (df : DataFrame) (p : string) : exn + filesystem :=
  if negb (dirname p =? "")%string && negb (mem (dirname p) (dirs f))
  then inl (OSError ("Cannot save file into a non-existent directory: '"
                     ++ dirname p ++ "'"))
  else if mem p (dirs f) then inl (OSError ("Is a directory: '" ++ p ++ "'"))
  else inr {| dirs := dirs f;
              files := (p, df) :: filter (fun e => negb (fst e =? p)%string) (files f) |}.

Definition to_excel (df : DataFrame) (p : string) : M unit :=
  fun w => match write_excel (fs w) df p with
           | inr f' => (inr tt, {| requests := requests w;
                                   clock_reads := clock_reads w;
                                   fs := f' |})
           | inl e => (inl e, w)
           end.

Definition read_excel (f : filesystem) (p : string) : option DataFrame :=
  match find (fun e => (fst e =? p)%string) (files f) with
  | Some e => Some (snd e)
  | None => None
  end.

(* ================================================================== *)
(** * The module, in source order *)
(* ================================================================== *)

Definition dquote : string := String (ascii_of_nat 34) EmptyString.

Definition KEYS_TEMPLATE : list string :=
  [ "system.cpu.util";
    "vm.memory.util";
    "perf_counter_en[" ++ dquote ++ "\PhysicalDisk(0 C:)\% Idle Time" ++ dquote ++ ",60]";
    "net.if.in";
    "net.if.out" ].

Definition DATA_COLUMNS : list string :=
  [ "Server"; "Type"; "unit measurements"; "Min"; "Avg"; "Max" ].

Definition bps_to_mbps (bps : float) : float := fdiv bps (of_Z 1000000).

(** The datetime is an instant in whole seconds, so the difference to the
    epoch is that number of seconds; [int] of it is taken by the caller. *)
Definition change_utc2timestamp (utc_time : Z) : Z := utc_time - 0.

(** A working-hours window.  [date] is [target_date], which the source
    keeps as its ['%Y-%m-%d'] text; the text [readable_utc_start], which
    nothing reads, is left out. *)
Record day_range := { date : Z; time_from : Z; time_till : Z }.

Definition base_date (z : zone) (now : Z) : Z :=
  let now_ekb := to_local z now in
  if time_of now_ekb <? 9 * 3600 then date_of now_ekb - 1 else date_of now_ekb.

Definition day_window (z : zone) (base : Z) (i : Z) : exn + day_range :=
  let target_date := base - i in
  match localize z (combine target_date 9) with
  | inl e => inl e
  | inr (start_utc, _) =>
      match localize z (combine target_date 18) with
      | inl e => inl e
      | inr (end_utc, _) =>
          inr {| date := target_date;
                 time_from := change_utc2timestamp start_utc;
                 time_till := change_utc2timestamp end_utc |}
      end
  end.

(** [range(n)] *)
Definition range (n : Z) : list Z := map Z.of_nat (seq 0 (Z.to_nat n)).

Fixpoint day_windows (z : zone) (base : Z) (indices : list Z) : exn + list day_range :=
  match indices with
  | [] => inr []
  | i :: rest =>
      match day_window z base i with
      | inl e => inl e
      | inr w =>
          match day_windows z base rest with
          | inl e => inl e
          | inr ws => inr (w :: ws)
          end
      end
  end.

Definition get_timestamp_ekb2timestamp (env : environment)
    (timezone_str : string) (days_back : Z) : M (list day_range) :=
  ekb_tz <- pytz_timezone env timezone_str ;;
  now <- datetime_now env ;;
  lift (day_windows ekb_tz (base_date ekb_tz now) (range (days_back + 1))).

Definition connect_zabbix (env : environment) (server username password : string)
  : M unit :=
  send (ReqLogin server username) (login (zabbix env) server username password).

Definition get_host_id (env : environment) (host_name : string) : M (string * string) :=
  hosts <- send (ReqHostGet host_name) (host_get (zabbix env) host_name) ;;
  match hosts with
  | [] => raise (Exception ("Хост '" ++ host_name ++ "' не найден"))
  | h :: _ => ret (hostid h, host h)
  end.

Definition get_item (env : environment) (host_id item_key : string)
  : M (list api_item) :=
  send (ReqItemSearch host_id item_key) (item_search (zabbix env) host_id item_key).

(** ** [collect_host_metrics] *)

Record host_ref := { h_hostid : string; host_name : string; host_vname : string }.

Record day_total := {
  d_date : Z;
  d_itemid : string;
  d_avg : float;
  d_min : float;
  d_max : float;
  d_history_count : nat
}.

Record total := {
  t_itemid : string;
  t_avg : float;
  t_min : float;
  t_max : float;
  t_history_count : nat
}.

(** An item dict with the keys the function adds to it. *)
Record item_data := {
  item : api_item;
  item_host : host_ref;
  list_of_days : list day_total;
  list_of_history_for_total : list sample;
  list_of_total : list total
}.

(** The keys of the enabled items that contain a template, once per
    template contained. *)
Definition matching_keys (all_items : list api_item) : list string :=
  flat_map (fun it =>
    flat_map (fun key => if contains key (key_ it) then [key_ it] else [])
             KEYS_TEMPLATE)
    all_items.

Definition resolve_items (env : environment) (host_id : string) (keys : list string)
  : M (list api_item) :=
  foldM (fun items key =>
           item_result <- get_item env host_id key ;;
           match item_result with
           | [] => ret items
           | it :: _ => ret (items ++ [it])%list
           end)
        keys [].

Definition init_item (host_id host_real_name host_name : string) (it : api_item)
  : item_data :=
  {| item := it;
     item_host := {| h_hostid := host_id; host_name := host_real_name;
                     host_vname := host_name |};
     list_of_days := [];
     list_of_history_for_total := [];
     list_of_total := [] |}.

Definition history_class (key : string) : Z :=
  if contains "net.if." key then 3 else 0.

Definition history_request (it : api_item) (day : day_range) : history_query :=
  {| itemids := itemid it;
     q_time_from := time_from day;
     q_time_till := time_till day;
     output := ["clock"; "value"];
     history := history_class (key_ it);
     sortfield := "clock";
     sortorder := "DESC" |}.

(** avg, min and max of a list of more than one value, each through
    [float(f"{v:.1f}")]. *)
Definition statistics (alg : sum_algorithm) (values : list float)
  : option (float * float * float) :=
  match values with
  | x :: (_ :: _) as rest =>
      let avg := fdiv (py_sum alg values) (of_nat (List.length values)) in
      let max_value := py_max x rest in
      let min_value := py_min x rest in
      Some (round1 avg, round1 min_value, round1 max_value)
  | _ => None
  end.

Definition add_day (alg : sum_algorithm) (day : day_range) (d : item_data)
    (hist : list sample) : item_data :=
  match hist with
  | [] => d
  | _ :: _ =>
      let days :=
        match statistics alg (map value hist) with
        | Some (avg, mn, mx) =>
            (list_of_days d ++
             [ {| d_date := date day; d_itemid := name (item d);
                  d_avg := avg; d_min := mn; d_max := mx;
                  d_history_count := List.length hist |} ])%list
        | None => list_of_days d
        end in
      {| item := item d; item_host := item_host d;
         list_of_days := days;
         list_of_history_for_total := (list_of_history_for_total d ++ hist)%list;
         list_of_total := list_of_total d |}
  end.

Definition collect_day (env : environment) (day : day_range) (d : item_data)
  : M item_data :=
  hist <- send (ReqHistoryGet (history_request (item d) day))
               (history_get (zabbix env) (history_request (item d) day)) ;;
  ret (add_day (sum_alg env) day d hist).

Definition collect_history (env : environment) (day_ranges : list day_range)
    (items : list item_data) : M (list item_data) :=
  foldM (fun items day => mapM (collect_day env day) items) day_ranges items.

Definition add_total (alg : sum_algorithm) (d : item_data) : item_data :=
  match statistics alg (map value (list_of_history_for_total d)) with
  | Some (avg, mn, mx) =>
      {| item := item d; item_host := item_host d;
         list_of_days := list_of_days d;
         list_of_history_for_total := list_of_history_for_total d;
         list_of_total :=
           (list_of_total d ++
            [ {| t_itemid := name (item d);
                 t_avg := avg; t_min := mn; t_max := mx;
                 t_history_count := List.length (list_of_history_for_total d) |} ])%list |}
  | None => d
  end.

(** [re.search(r'Bits (received|sent)', s)] and
    [re.search(r'(Disk|CPU|Memory) utilization', s)] *)
Definition search_bits (s : string) : bool :=
  contains "Bits received" s || contains "Bits sent" s.

Definition search_utilization (s : string) : bool :=
  contains "Disk utilization" s || contains "CPU utilization" s
  || contains "Memory utilization" s.

Definition output_row (d : item_data) : list report_row :=
  match list_of_total d with
  | [] => []
  | t :: _ =>
      let min_ := t_min t in
      let avg_ := t_avg t in
      let max_ := t_max t in
      let unit_measurements :=
        if search_bits (name (item d)) then "Mbps"
        else if search_utilization (name (item d)) then "%"
        else "count" in
      let min_val := if negb (search_bits (name (item d))) then min_ else bps_to_mbps min_ in
      let avg_val := if negb (search_bits (name (item d))) then avg_ else bps_to_mbps avg_ in
      let max_val := if negb (search_bits (name (item d))) then max_ else bps_to_mbps max_ in
      [ {| Server := host_vname (item_host d);
           Type_ := name (item d);
           unit_measurements := unit_measurements;
           Min := min_val; Avg := avg_val; Max := max_val |} ]
  end.

Definition collect_host_metrics (env : environment)
    (host_name : string) (days_back : Z) (timezone_str : string)
  : M (list report_row) :=
  '(host_id, host_real_name) <- get_host_id env host_name ;;
  all_items <- send (ReqItemGetEnabled host_id) (item_get_enabled (zabbix env) host_id) ;;
  let keys := matching_keys all_items in
  day_ranges <- get_timestamp_ekb2timestamp env timezone_str days_back ;;
  items <- resolve_items env host_id keys ;;
  match items with
  | [] => ret []
  | _ :: _ =>
      let items := map (init_item host_id host_real_name host_name) items in
      items <- collect_history env day_ranges items ;;
      let items := map (add_total (sum_alg env)) items in
      ret (flat_map output_row items)
  end.

(** ** [main] *)

Record module_params := {
  zabbix_server_url : string;
  username : string;
  password : string;
  host_names : list string;
  days_back : Z;
  timezone : string;
  output_path : string
}.

Inductive module_result :=
| exit_json (changed : bool) (excel_file : string) (metrics : list report_row)
            (msg : string)
| fail_json (msg : string).

Definition collect_all (env : environment) (p : module_params)
  : M (list report_row) :=
  foldM (fun all_metrics h =>
           host_metrics <- collect_host_metrics env h (days_back p) (timezone p) ;;
           ret (all_metrics ++ host_metrics)%list)
        (host_names p) [].

Definition save_report (p : module_params) (all_metrics : list report_row) : M unit :=
  match all_metrics with
  | _ :: _ =>
      let df := {| rows := all_metrics; columns := DATA_COLUMNS |} in
      let output_dir := dirname (output_path p) in
      dir_exists <- path_exists output_dir ;;
      (if negb (output_dir =? "")%string && negb dir_exists
       then os_makedirs output_dir else ret tt) ;;
      to_excel df (output_path p)
  | [] =>
      let df := {| rows := []; columns := DATA_COLUMNS |} in
      to_excel df (output_path p)
  end.

Definition main_body (env : environment) (p : module_params) : M module_result :=
  connect_zabbix env (zabbix_server_url p) (username p) (password p) ;;
  all_metrics <- collect_all env p ;;
  save_report p all_metrics ;;
  ret (exit_json true (output_path p) all_metrics
         ("Successfully collected metrics for "
          ++ str_of_nat (List.length (host_names p)) ++ " hosts")).

Definition main (env : environment) (p : module_params) (w : world)
  : module_result * world :=
  if negb (HAS_ZABBIX env)
  then (fail_json "The zabbix-utils library is required for this module", w)
  else match main_body env p w with
       | (inr r, w') => (r, w')
       | (inl e, w') => (fail_json ("Error collecting metrics: " ++ str e), w')
       end.

(* ================================================================== *)
(** * Notions used in the statements *)
(* ================================================================== *)

(** Equal, or zeros that differ in sign only: [x == y] for floats that
    are not NaN. *)
Definition same_value (x y : float) : Prop :=
  x = y \/ (is_zero x = true /\ is_zero y = true).

Definition no_nan (values : list float) : Prop :=
  Forall (fun v => is_nan v = false) values.

Definition all_finite (values : list float) : Prop :=
  Forall (fun v => is_finite v = true) values.

(** The position of a float on the number line that is not NaN: class,
    then exponent, then mantissa, mirrored for negative numbers. *)
Definition key (x : float) : Z * Z * Z :=
  match x with
  | S754_infinity true => (-2, 0, 0)
  | S754_finite true m e => (-1, - e, Zneg m)
  | S754_zero _ => (0, 0, 0)
  | S754_finite false m e => (1, e, Zpos m)
  | S754_infinity false => (2, 0, 0)
  | S754_nan => (3, 0, 0)
  end.

Definition lex3 (a b : Z * Z * Z) : comparison :=
  let '(a1, a2, a3) := a in
  let '(b1, b2, b3) := b in
  match a1 ?= b1 with
  | Eq => match a2 ?= b2 with
          | Eq => a3 ?= b3
          | c => c
          end
  | c => c
  end.

Definition key_le (x y : float) : Prop := lex3 (key x) (key y) <> Gt.

(** What the server answers for an item and a window, and for an item
    over all windows. *)
Definition answered (env : environment) (it : api_item) (day : day_range)
  : list sample :=
  match history_get (zabbix env) (history_request it day) with
  | inr hist => hist
  | inl _ => []
  end.

Definition retrieved (env : environment) (it : api_item) (days : list day_range)
  : list sample :=
  flat_map (answered env it) days.

(** An item dict after the history loop over [days]. *)
Definition after_days (env : environment) (days : list day_range) (d : item_data)
  : item_data :=
  fold_left (fun d day => add_day (sum_alg env) day d (answered env (item d) day))
            days d.

(** The rows a resolved item ends with in the table of its host. *)
Definition contribution (env : environment) (host_id host_real_name host_name : string)
    (days : list day_range) (it : api_item) : list report_row :=
  output_row (add_total (sum_alg env)
    (after_days env days (init_item host_id host_real_name host_name it))).

(** The record [get_item] yields for a key: the first match, if any. *)
Definition first_match (env : environment) (host_id key : string) : list api_item :=
  match item_search (zabbix env) host_id key with
  | inr (it :: _) => [it]
  | _ => []
  end.

(** The number of templates a key contains. *)
Definition template_hits (key : string) : nat :=
  List.length (filter (fun t => contains t key) KEYS_TEMPLATE).

(** The first steps of [collect_host_metrics] went through: the host was
    found, its enabled items listed, the windows generated and the items
    behind the matching keys fetched, leaving the world [w4]. *)
Definition prepared (env : environment) (host_name : string) (days_back : Z)
    (timezone_str : string) (w : world)
    (host_id host_real_name : string) (all_items : list api_item)
    (day_ranges : list day_range) (items : list api_item) (w4 : world) : Prop :=
  exists w1 w2 w3,
    get_host_id env host_name w = (inr (host_id, host_real_name), w1)
    /\ send (ReqItemGetEnabled host_id) (item_get_enabled (zabbix env) host_id) w1
       = (inr all_items, w2)
    /\ get_timestamp_ekb2timestamp env timezone_str days_back w2
       = (inr day_ranges, w3)
    /\ resolve_items env host_id (matching_keys all_items) w3 = (inr items, w4).

(** The item is the record [get_item] yields for some key of some host. *)
Definition resolved_item (env : environment) (it : api_item) : Prop :=
  exists host_id key, first_match env host_id key = [it].

(** A history request is one that [history_request] builds for a resolved
    item and a window. *)
Definition built_request (env : environment) (r : request) : Prop :=
  match r with
  | ReqHistoryGet q =>
      exists it day, resolved_item env it /\ q = history_request it day
  | _ => True
  end.

(** The requests sent between two worlds all satisfy [P]. *)
Definition sent (P : request -> Prop) (w w' : world) : Prop :=
  exists new, requests w' = (requests w ++ new)%list /\ Forall P new.

Definition same_fs (w w' : world) : Prop := fs w' = fs w.

(** Every run of [m] relates the world before to the world after by [R]. *)
Definition respects (R : world -> world -> Prop) {A} (m : M A) : Prop :=
  forall w, R w (snd (m w)).

(** The transitions of a zone lie at least three days apart. *)
Fixpoint spaced (trs : list (Z * tzinfo)) : bool :=
  match trs with
  | (t1, _) :: (((t2, _) :: _) as rest) => (t1 + 259200 <=? t2) && spaced rest
  | _ => true
  end.

(** A zone as the tz database has them: every offset is within 18 hours
    of UTC and the transitions lie at least three days apart. *)
Definition regular (z : zone) : bool :=
  forallb (fun inf => Z.abs (utcoffset inf) <=? 64800)
          (first z :: map snd (transitions z))
  && spaced (transitions z).

(** The wall-clock time is shown by the zone at some instant. *)
Definition wall_clock_time (z : zone) (wall : Z) : Prop :=
  exists u, to_local z u = wall.

(** The wall-clock time falls in the hole that the transition at [tau]
    leaves when the clocks go from the offset of [before] to the larger
    offset of [after]; [before] is in force for three days up to [tau] and
    [after] for three days from [tau]. *)
Definition in_gap (z : zone) (tau : Z) (before after : tzinfo) (wall : Z) : Prop :=
  (forall x, tau - 259200 < x < tau -> info_at z x = before)
  /\ (forall x, tau <= x < tau + 259200 -> info_at z x = after)
  /\ Z.abs (utcoffset before) <= 64800
  /\ Z.abs (utcoffset after) <= 64800
  /\ tau + utcoffset before <= wall < tau + utcoffset after.


(** [avg], [mn] and [mx] are what the code stores for [values]: the least
    and the greatest value, each rounded to one decimal place, and the
    floating-point mean (the float sum divided by the count) rounded the
    same way. *)
Definition rounded_statistics (alg : sum_algorithm) (values : list float)
    (avg mn mx : float) : Prop :=
  (2 <= List.length values)%nat
  /\ (exists lo, In lo values /\ (forall v, In v values -> fle lo v = true)
                 /\ mn = round1 lo /\ same_value mn (round1_Q (to_Q lo)))
  /\ (exists hi, In hi values /\ (forall v, In v values -> fle v hi = true)
                 /\ mx = round1 hi /\ same_value mx (round1_Q (to_Q hi)))
  /\ avg = round1 (fdiv (py_sum alg values) (of_nat (List.length values))).

(** The history requests of the loop of [collect_host_metrics]: for each
    window in turn, one request per item. *)
Definition history_requests (days : list day_range) (items : list api_item)
  : list request :=
  flat_map (fun day => map (fun it => ReqHistoryGet (history_request it day)) items)
           days.

Definition is_history_request (r : request) : bool :=
  match r with ReqHistoryGet _ => true | _ => false end.


(** No transition of the zone falls after [lo] and up to [hi]. *)
Definition quiet (z : zone) (lo hi : Z) : bool :=
  forallb (fun tau => negb ((lo <? tau) && (tau <=? hi))) (map fst (transitions z)).

(* ================================================================== *)
(** * Sample data *)
(* ================================================================== *)

(** Asia/Yekaterinburg as it has been since 26 October 2014: five hours
    ahead of UTC, no transition. *)
Definition yekaterinburg : zone :=
  {| first := {| utcoffset := 18000; dst := false |}; transitions := [] |}.

Definition eet : tzinfo := {| utcoffset := 7200; dst := false |}.
Definition eest : tzinfo := {| utcoffset := 10800; dst := true |}.

Fixpoint alternate (a b : tzinfo) (instants : list Z) : list (Z * tzinfo) :=
  match instants with
  | [] => []
  | t :: rest => (t, a) :: alternate b a rest
  end.

(** Europe/Athens from 24 September 1978 to 2027, from the tz database:
    winter time, then the changes to summer time and back.  The first
    change is that of 1 April 1979, made at 09:00 local time. *)
Definition athens : zone :=
  {| first := eet;
     transitions := alternate eest eet [
    291798000; 307407600; 323388000; 338936400; 354675600; 370400400;
    386125200; 401850000; 417574800; 433299600; 449024400; 465354000;
    481078800; 496803600; 512528400; 528253200; 543978000; 559702800;
    575427600; 591152400; 606877200; 622602000; 638326800; 654656400;
    670381200; 686106000; 701830800; 717555600; 733280400; 749005200;
    764730000; 780454800; 796179600; 811904400; 828234000; 846378000;
    859683600; 877827600; 891133200; 909277200; 922582800; 941331600;
    954032400; 972781200; 985482000; 1004230800; 1017536400; 1035680400;
    1048986000; 1067130000; 1080435600; 1099184400; 1111885200; 1130634000;
    1143334800; 1162083600; 1174784400; 1193533200; 1206838800; 1224982800;
    1238288400; 1256432400; 1269738000; 1288486800; 1301187600; 1319936400;
    1332637200; 1351386000; 1364691600; 1382835600; 1396141200; 1414285200;
    1427590800; 1445734800; 1459040400; 1477789200; 1490490000; 1509238800;
    1521939600; 1540688400; 1553994000; 1572138000; 1585443600; 1603587600;
    1616893200; 1635642000; 1648342800; 1667091600; 1679792400; 1698541200;
    1711846800; 1729990800; 1743296400; 1761440400; 1774746000; 1792890000;
    1806195600; 1824944400 ] |}.

Definition sample_timezones (zone_name : string) : option zone :=
  if (zone_name =? "Asia/Yekaterinburg")%string then Some yekaterinburg
  else if (zone_name =? "Europe/Athens")%string then Some athens
  else None.

(** 3 November 2026, 07:00 UTC. *)
Definition sample_now : Z := 1793689200.

(** A server given by its hosts: display name, host record, and the
    enabled items with their storage class and their samples.
    [history.get] answers with the samples of the item inside the window
    when the storage class asked for is the item's, and with nothing
    otherwise; a search matches the keys that contain the text. *)
Record served_item := {
  si_item : api_item;
  si_value_type : Z;
  si_samples : list sample
}.

Record served_host := {
  sh_name : string;
  sh_host : api_host;
  sh_items : list served_item
}.

Definition items_of (hosts : list served_host) (host_id : string) : list served_item :=
  flat_map (fun h => if (hostid (sh_host h) =? host_id)%string then sh_items h else [])
           hosts.

Definition serve (hosts : list served_host) : zabbix_server :=
  {| login := fun _ _ _ => inr tt;
     host_get := fun host_name =>
       inr (map sh_host (filter (fun h => (sh_name h =? host_name)%string) hosts));
     item_get_enabled := fun host_id => inr (map si_item (items_of hosts host_id));
     item_search := fun host_id key =>
       inr (map si_item
              (filter (fun i => contains key (key_ (si_item i))) (items_of hosts host_id)));
     history_get := fun q =>
       inr (flat_map
              (fun i =>
                 if (itemid (si_item i) =? itemids q)%string
                    && (si_value_type i =? history q)
                 then filter (fun s => (q_time_from q <=? clock s)
                                       && (clock s <=? q_time_till q))
                             (si_samples i)
                 else [])
              (flat_map sh_items hosts)) |}.

Definition mk_item (id nm key : string) (value_type : Z) (samples : list (Z * float))
  : served_item :=
  {| si_item := {| itemid := id; name := nm; key_ := key; units := "" |};
     si_value_type := value_type;
     si_samples := map (fun p => {| clock := fst p; value := snd p |}) samples |}.

(** web01: a CPU item with three samples over two days, a traffic item,
    an item whose key contains two templates, an item whose name matches
    both patterns of the unit classification, a memory item with a single
    sample, and an item outside the templates. *)
Definition web01 : served_host :=
  {| sh_name := "web01";
     sh_host := {| hostid := "10084"; host := "web01.example.org" |};
     sh_items := [
       mk_item "101" "CPU utilization" "system.cpu.util" 0
         [ (1793678460, of_Z 10); (1793682060, of_Z 20); (1793595600, dec 165 1) ];
       mk_item "102" "Interface eth0: Bits received" "net.if.in[eth0]" 3
         [ (1793678460, of_Z 24100000); (1793682060, of_Z 26500000) ];
       mk_item "103" "Interface eth0: in and out" "total[net.if.in,net.if.out]" 3
         [ (1793678460, of_Z 7); (1793682060, of_Z 9) ];
       mk_item "104" "CPU utilization, Bits sent path" "system.cpu.util[,softirq]" 0
         [ (1793678460, of_Z 3); (1793682060, of_Z 5) ];
       mk_item "105" "Memory utilization" "vm.memory.util" 0
         [ (1793678460, of_Z 40) ];
       mk_item "106" "Uptime" "system.uptime" 3
         [ (1793678460, of_Z 86400); (1793682060, of_Z 90000) ] ] |}.

(** db01: a host without any item of the templates. *)
Definition db01 : served_host :=
  {| sh_name := "db01";
     sh_host := {| hostid := "10085"; host := "db01.example.org" |};
     sh_items := [ mk_item "201" "Uptime" "system.uptime" 3 [ (1793678460, of_Z 100) ] ] |}.

Definition sample_env (alg : sum_algorithm) : environment :=
  {| zabbix := serve [web01; db01];
     wall_clock := fun _ => sample_now;
     tz_database := sample_timezones;
     HAS_ZABBIX := true;
     sum_alg := alg |}.

Definition sample_world : world :=
  {| requests := []; clock_reads := 0;
     fs := {| dirs := ["/"; "/tmp"]; files := [] |} |}.

Definition sample_params (hosts : list string) (path : string) : module_params :=
  {| zabbix_server_url := "zbx.example.org/zabbix";
     username := "report";
     password := "secret";
     host_names := hosts;
     days_back := 1;
     timezone := "Asia/Yekaterinburg";
     output_path := path |}.

(** The run of [collect_host_metrics] on web01, one day back. *)
Definition sample_run (alg : sum_algorithm) : (exn + list report_row) * world :=
  collect_host_metrics (sample_env alg) "web01" 1 "Asia/Yekaterinburg" sample_world.

Definition sample_table (alg : sum_algorithm) : list report_row :=
  match fst (sample_run alg) with
  | inr table => table
  | inl _ => []
  end.

(** Two samples, 0.05 and 0.25. *)
Definition two_samples : list float := [dec 5 2; dec 25 2].

(** Four samples, 1, 2^-53, 2^-106 and 2^-106, and the same in reverse. *)
Definition four_samples : list float :=
  [pow2 0; pow2 (-53); pow2 (-106); pow2 (-106)].

Definition four_samples_reversed : list float :=
  [pow2 (-106); pow2 (-106); pow2 (-53); pow2 0].

(** The sample parameters with another look-back and time zone. *)
Definition sample_params_with (hosts : list string) (path : string)
    (back : Z) (tz : string) : module_params :=
  {| zabbix_server_url := "zbx.example.org/zabbix";
     username := "report";
     password := "secret";
     host_names := hosts;
     days_back := back;
     timezone := tz;
     output_path := path |}.

(** A server that refuses the login. *)
Definition locked_env : environment :=
  {| zabbix :=
       {| login := fun _ _ _ =>
            inl (APIRequestError "Login name or password is incorrect.");
          host_get := host_get (serve [web01; db01]);
          item_get_enabled := item_get_enabled (serve [web01; db01]);
          item_search := item_search (serve [web01; db01]);
          history_get := history_get (serve [web01; db01]) |};
     wall_clock := fun _ => sample_now;
     tz_database := sample_timezones;
     HAS_ZABBIX := true;
     sum_alg := LeftToRight |}.

(** A clock that shows 08:59:59 in Yekaterinburg at its first reading and
    09:00:01 from the second on (3 November 2026). *)
Definition clock_across_nine (n : nat) : Z :=
  match n with
  | O => 1793678399
  | S _ => 1793678401
  end.

(* ================================================================== *)
(** * The order of floats, [min] and [max] *)
(* ================================================================== *)

Lemma lex3_refl a : lex3 a a = Eq.
Proof.
  destruct a as [[a1 a2] a3]; simpl. now rewrite !Z.compare_refl.
Qed.

Lemma lex3_antisym a b : lex3 a b = CompOpp (lex3 b a).
Proof.
  destruct a as [[a1 a2] a3], b as [[b1 b2] b3]; simpl.
  rewrite (Z.compare_antisym b1 a1), (Z.compare_antisym b2 a2),
          (Z.compare_antisym b3 a3).
  destruct (b1 ?= a1), (b2 ?= a2), (b3 ?= a3); reflexivity.
Qed.

Lemma lex3_eq a b : lex3 a b = Eq -> a = b.
Proof.
  destruct a as [[a1 a2] a3], b as [[b1 b2] b3]; simpl.
  destruct (Z.compare_spec a1 b1); try discriminate.
  destruct (Z.compare_spec a2 b2); try discriminate.
  destruct (Z.compare_spec a3 b3); try discriminate.
  now subst.
Qed.

Lemma lex3_le_trans a b c :
  lex3 a b <> Gt -> lex3 b c <> Gt -> lex3 a c <> Gt.
Proof.
  destruct a as [[a1 a2] a3], b as [[b1 b2] b3], c as [[c1 c2] c3]; simpl.
  destruct (Z.compare_spec a1 b1), (Z.compare_spec b1 c1),
           (Z.compare_spec a1 c1); try lia; try congruence.
  all: destruct (Z.compare_spec a2 b2), (Z.compare_spec b2 c2),
                (Z.compare_spec a2 c2); try lia; try congruence.
  all: destruct (Z.compare_spec a3 b3), (Z.compare_spec b3 c3),
                (Z.compare_spec a3 c3); try lia; try congruence.
Qed.

(** On floats that are not NaN, the comparison of the interpreter is the
    comparison of the keys. *)
Lemma SFcompare_key x y :
  is_nan x = false -> is_nan y = false ->
  SFcompare x y = Some (lex3 (key x) (key y)).
Proof.
  destruct x as [sx | sx | | sx mx ex], y as [sy | sy | | sy my ey];
    try discriminate; intros _ _; simpl;
    try (destruct sx; reflexivity); try (destruct sy; reflexivity);
    try (destruct sx, sy; reflexivity).
  destruct sx, sy; simpl; try reflexivity.
  rewrite Z.compare_opp, (Z.compare_antisym ex ey).
  destruct (ex ?= ey); reflexivity.
Qed.

Lemma flt_key x y :
  is_nan x = false -> is_nan y = false ->
  flt x y = true <-> lex3 (key x) (key y) = Lt.
Proof.
  intros Hx Hy. unfold flt, SFltb. rewrite (SFcompare_key _ _ Hx Hy).
  destruct (lex3 (key x) (key y)); split; congruence.
Qed.

Lemma fle_key x y :
  is_nan x = false -> is_nan y = false ->
  fle x y = true <-> key_le x y.
Proof.
  intros Hx Hy. unfold fle, SFleb, key_le. rewrite (SFcompare_key _ _ Hx Hy).
  destruct (lex3 (key x) (key y)); split; congruence.
Qed.

Lemma key_same_value x y :
  is_nan x = false -> is_nan y = false -> key x = key y -> same_value x y.
Proof.
  unfold same_value.
  destruct x as [sx | sx | | sx mx ex], y as [sy | sy | | sy my ey];
    try discriminate; intros _ _; simpl;
    try (destruct sx; discriminate); try (destruct sy; discriminate);
    try (destruct sx, sy; discriminate).
  - right; split; reflexivity.
  - destruct sx, sy; try discriminate; now left.
  - destruct sx, sy; try discriminate; intros H; inversion H; subst; left.
    + f_equal. lia.
    + reflexivity.
Qed.

Lemma key_le_refl x : key_le x x.
Proof. unfold key_le. rewrite lex3_refl. discriminate. Qed.

Lemma key_le_trans x y z : key_le x y -> key_le y z -> key_le x z.
Proof. apply lex3_le_trans. Qed.

Lemma key_le_antisym x y : key_le x y -> key_le y x -> key x = key y.
Proof.
  unfold key_le. intros H1 H2. apply lex3_eq.
  rewrite lex3_antisym in H2.
  destruct (lex3 (key x) (key y)); simpl in *; congruence.
Qed.

Lemma min_step_spec acc v :
  is_nan acc = false -> is_nan v = false ->
  (min_step acc v = acc \/ min_step acc v = v)
  /\ key_le (min_step acc v) acc /\ key_le (min_step acc v) v.
Proof.
  intros Ha Hv. unfold min_step.
  destruct (flt v acc) eqn:E.
  - apply (flt_key _ _ Hv Ha) in E. repeat split.
    + now right.
    + unfold key_le. rewrite E. discriminate.
    + apply key_le_refl.
  - repeat split.
    + now left.
    + apply key_le_refl.
    + unfold key_le. rewrite lex3_antisym. intros H.
      assert (lex3 (key v) (key acc) = Lt) as L
        by (destruct (lex3 (key v) (key acc)); simpl in H; congruence).
      apply (flt_key _ _ Hv Ha) in L. congruence.
Qed.

Lemma max_step_spec acc v :
  is_nan acc = false -> is_nan v = false ->
  (max_step acc v = acc \/ max_step acc v = v)
  /\ key_le acc (max_step acc v) /\ key_le v (max_step acc v).
Proof.
  intros Ha Hv. unfold max_step.
  destruct (flt acc v) eqn:E.
  - apply (flt_key _ _ Ha Hv) in E. repeat split.
    + now right.
    + unfold key_le. rewrite E. discriminate.
    + apply key_le_refl.
  - repeat split.
    + now left.
    + apply key_le_refl.
    + unfold key_le. intros H.
      rewrite lex3_antisym in H.
      assert (lex3 (key acc) (key v) = Lt) as L
        by (destruct (lex3 (key acc) (key v)); simpl in H; congruence).
      apply (flt_key _ _ Ha Hv) in L. congruence.
Qed.

(** [min] returns a member of the list that is below every member. *)
Lemma py_min_least rest : forall x,
  no_nan (x :: rest) ->
  In (py_min x rest) (x :: rest)
  /\ forall v, In v (x :: rest) -> key_le (py_min x rest) v.
Proof.
  induction rest as [| y rest IH]; intros x Hn.
  - simpl. split; [now left |]. intros v [<- | []]. apply key_le_refl.
  - inversion Hn as [| ? ? Hx Hr]; subst.
    inversion Hr as [| ? ? Hy Hr']; subst.
    destruct (min_step_spec x y Hx Hy) as [Hc [Lx Ly]].
    assert (no_nan (min_step x y :: rest)) as Hn'.
    { constructor; [| assumption]. destruct Hc as [-> | ->]; assumption. }
    destruct (IH _ Hn') as [Hin Hle].
    change (py_min x (y :: rest)) with (py_min (min_step x y) rest).
    split.
    + destruct Hin as [E | Hin].
      * rewrite <- E. destruct Hc as [-> | ->]; simpl; auto.
      * right; now right.
    + intros v [<- | [<- | Hv]].
      * eapply key_le_trans; [apply Hle; now left | exact Lx].
      * eapply key_le_trans; [apply Hle; now left | exact Ly].
      * apply Hle. now right.
Qed.

Lemma py_max_greatest rest : forall x,
  no_nan (x :: rest) ->
  In (py_max x rest) (x :: rest)
  /\ forall v, In v (x :: rest) -> key_le v (py_max x rest).
Proof.
  induction rest as [| y rest IH]; intros x Hn.
  - simpl. split; [now left |]. intros v [<- | []]. apply key_le_refl.
  - inversion Hn as [| ? ? Hx Hr]; subst.
    inversion Hr as [| ? ? Hy Hr']; subst.
    destruct (max_step_spec x y Hx Hy) as [Hc [Lx Ly]].
    assert (no_nan (max_step x y :: rest)) as Hn'.
    { constructor; [| assumption]. destruct Hc as [-> | ->]; assumption. }
    destruct (IH _ Hn') as [Hin Hle].
    change (py_max x (y :: rest)) with (py_max (max_step x y) rest).
    split.
    + destruct Hin as [E | Hin].
      * rewrite <- E. destruct Hc as [-> | ->]; simpl; auto.
      * right; now right.
    + intros v [<- | [<- | Hv]].
      * eapply key_le_trans; [exact Lx | apply Hle; now left].
      * eapply key_le_trans; [exact Ly | apply Hle; now left].
      * apply Hle. now right.
Qed.

Lemma no_nan_In values v : no_nan values -> In v values -> is_nan v = false.
Proof. intros H Hin. unfold no_nan in H. rewrite Forall_forall in H. auto. Qed.

Lemma no_nan_perm l l' : Permutation l l' -> no_nan l -> no_nan l'.
Proof. intros P H. unfold no_nan. now rewrite <- P. Qed.

Lemma py_min_perm x rest x' rest' :
  Permutation (x :: rest) (x' :: rest') -> no_nan (x :: rest) ->
  same_value (py_min x rest) (py_min x' rest').
Proof.
  intros P Hn.
  pose proof (no_nan_perm _ _ P Hn) as Hn'.
  destruct (py_min_least rest x Hn) as [I1 L1].
  destruct (py_min_least rest' x' Hn') as [I2 L2].
  apply key_same_value.
  - exact (no_nan_In _ _ Hn I1).
  - exact (no_nan_In _ _ Hn' I2).
  - apply key_le_antisym.
    + apply L1. eapply Permutation_in; [symmetry; exact P | exact I2].
    + apply L2. eapply Permutation_in; [exact P | exact I1].
Qed.

Lemma py_max_perm x rest x' rest' :
  Permutation (x :: rest) (x' :: rest') -> no_nan (x :: rest) ->
  same_value (py_max x rest) (py_max x' rest').
Proof.
  intros P Hn.
  pose proof (no_nan_perm _ _ P Hn) as Hn'.
  destruct (py_max_greatest rest x Hn) as [I1 L1].
  destruct (py_max_greatest rest' x' Hn') as [I2 L2].
  apply key_same_value.
  - exact (no_nan_In _ _ Hn I1).
  - exact (no_nan_In _ _ Hn' I2).
  - apply key_le_antisym.
    + apply L2. eapply Permutation_in; [exact P | exact I1].
    + apply L1. eapply Permutation_in; [symmetry; exact P | exact I2].
Qed.

(** [float(f"{x:.1f}")] keeps zeros, with their sign. *)
Lemma round1_same_value x y : same_value x y -> same_value (round1 x) (round1 y).
Proof.
  intros [-> | [Hx Hy]]; [now left |].
  destruct x, y; try discriminate. right. split; reflexivity.
Qed.

(** On a finite float that is not zero, the text of [.1f] is the exact
    value rounded to one decimal place. *)
Lemma rne_div_1 a : rne_div a 1 = a.
Proof.
  unfold rne_div. rewrite Z.mod_1_r, Z.div_1_r.
  change (2 * 0 ?= 1) with Lt. reflexivity.
Qed.

Lemma round1_exact s m e :
  round1 (S754_finite s m e) = round1_Q (to_Q (S754_finite s m e)).
Proof.
  unfold round1, round1_Q, format_1f, to_Q.
  destruct (0 <=? e) eqn:E.
  - apply Z.leb_le in E.
    assert (0 < 2 ^ e) as P by (apply Z.pow_pos_nonneg; lia).
    unfold inject_Z. cbn [Qnum Qden].
    rewrite rne_div_1.
    f_equal. f_equal.
    + destruct s; symmetry.
      * apply Z.ltb_lt. nia.
      * apply Z.ltb_ge. nia.
    + destruct s.
      * replace (Z.abs (Z.neg m * 2 ^ e)) with (Z.pos m * 2 ^ e) by nia. lia.
      * replace (Z.abs (Z.pos m * 2 ^ e)) with (Z.pos m * 2 ^ e) by nia. lia.
  - apply Z.leb_gt in E. cbn [Qnum Qden].
    assert (0 < 2 ^ (- e)) as P by (apply Z.pow_pos_nonneg; lia).
    rewrite Z2Pos.id by exact P.
    f_equal. f_equal.
    + now destruct s.
    + now destruct s.
Qed.

Lemma round1_exact_finite x :
  is_finite x = true -> same_value (round1 x) (round1_Q (to_Q x)).
Proof.
  destruct x as [s | s | | s m e]; try discriminate; intros _.
  - right. split; reflexivity.
  - left. apply round1_exact.
Qed.

(** The integer [rne_div a b] is within one half of [a / b]. *)
Lemma rne_div_nearest a b :
  0 <= a -> 0 < b -> 2 * Z.abs (a - rne_div a b * b) <= b.
Proof.
  intros Ha Hb. unfold rne_div.
  pose proof (Z.div_mod a b ltac:(lia)) as D.
  pose proof (Z.mod_pos_bound a b Hb) as B.
  destruct (Z.compare_spec (2 * (a mod b)) b) as [E | L | G].
  - destruct (Z.even (a / b)); nia.
  - nia.
  - nia.
Qed.

(* ================================================================== *)
(** * Runs in the monad *)
(* ================================================================== *)

Lemma bind_inr {A B} (m : M A) (k : A -> M B) w b w' :
  bind m k w = (inr b, w') ->
  exists a w1, m w = (inr a, w1) /\ k a w1 = (inr b, w').
Proof.
  unfold bind. destruct (m w) as [[e | a] w1]; intros H.
  - discriminate.
  - eauto.
Qed.

Lemma ret_inr {A} (a b : A) w w' : ret a w = (inr b, w') -> a = b /\ w = w'.
Proof. unfold ret. intros H. inversion H. auto. Qed.

(** A relation between worlds that every step of a run respects is
    respected by the run. *)
Section Steps.
Variable R : world -> world -> Prop.
Hypothesis R_refl : forall w, R w w.
Hypothesis R_trans : forall w1 w2 w3, R w1 w2 -> R w2 w3 -> R w1 w3.

Lemma respects_ret {A} (a : A) : respects R (ret a).
Proof. intros w. apply R_refl. Qed.

Lemma respects_raise {A} e : respects R (@raise A e).
Proof. intros w. apply R_refl. Qed.

Lemma respects_bind {A B} (m : M A) (k : A -> M B) :
  respects R m -> (forall a, respects R (k a)) -> respects R (bind m k).
Proof.
  intros Hm Hk w. unfold bind. specialize (Hm w).
  destruct (m w) as [[e | a] w1]; simpl in *.
  - exact Hm.
  - eapply R_trans; [exact Hm | apply Hk].
Qed.

Lemma respects_lift {A} (r : exn + A) : respects R (lift r).
Proof. destruct r; [apply respects_raise | apply respects_ret]. Qed.

Lemma respects_foldM {A S} (f : S -> A -> M S) l :
  (forall s x, respects R (f s x)) -> forall s, respects R (foldM f l s).
Proof.
  intros Hf. induction l as [| x l IH]; intros s; simpl.
  - apply respects_ret.
  - apply respects_bind; [apply Hf | intros; apply IH].
Qed.

Lemma respects_mapM {A B} (f : A -> M B) l :
  (forall x, respects R (f x)) -> respects R (mapM f l).
Proof.
  intros Hf. induction l as [| x l IH]; simpl.
  - apply respects_ret.
  - apply respects_bind; [apply Hf |]. intros y.
    apply respects_bind; [apply IH |]. intros ys. apply respects_ret.
Qed.
End Steps.

Ltac run_step H :=
  let a := fresh "a" in let w := fresh "w" in
  let H1 := fresh "Hrun" in
  apply bind_inr in H; destruct H as (a & w & H1 & H); cbv beta in H.

Lemma send_inr {A} r (answer : exn + A) w a w' :
  send r answer w = (inr a, w') -> answer = inr a.
Proof. unfold send. intros H. now inversion H. Qed.

Lemma flat_map_map {A B C} (f : B -> list C) (g : A -> B) l :
  flat_map f (map g l) = flat_map (fun x => f (g x)) l.
Proof. induction l as [| x l IH]; simpl; [reflexivity | now rewrite IH]. Qed.

Lemma flat_map_flat_map {A B C} (f : B -> list C) (g : A -> list B) l :
  flat_map f (flat_map g l) = flat_map (fun x => flat_map f (g x)) l.
Proof.
  induction l as [| x l IH]; simpl; [reflexivity |].
  now rewrite flat_map_app, IH.
Qed.

(* ================================================================== *)
(** * The history loop *)
(* ================================================================== *)

Lemma statistics_none alg values :
  (List.length values <= 1)%nat -> statistics alg values = None.
Proof.
  destruct values as [| x [| y rest]]; simpl; intros H; try reflexivity; lia.
Qed.

Lemma statistics_some alg values :
  (2 <= List.length values)%nat ->
  exists avg mn mx, statistics alg values = Some (avg, mn, mx).
Proof.
  destruct values as [| x [| y rest]]; simpl; intros H; try lia.
  eauto.
Qed.

Lemma statistics_length alg values r :
  statistics alg values = Some r -> (2 <= List.length values)%nat.
Proof.
  destruct values as [| x [| y rest]]; simpl; intros H; try discriminate; lia.
Qed.

Lemma add_day_item alg day d hist : item (add_day alg day d hist) = item d.
Proof. destruct hist; reflexivity. Qed.

Lemma add_day_host alg day d hist : item_host (add_day alg day d hist) = item_host d.
Proof. destruct hist; reflexivity. Qed.

Lemma add_day_total alg day d hist :
  list_of_total (add_day alg day d hist) = list_of_total d.
Proof. destruct hist; reflexivity. Qed.

Lemma add_day_history alg day d hist :
  list_of_history_for_total (add_day alg day d hist)
  = (list_of_history_for_total d ++ hist)%list.
Proof. destruct hist; simpl; [now rewrite app_nil_r | reflexivity]. Qed.

Lemma after_days_cons env day days d :
  after_days env (day :: days) d
  = after_days env days (add_day (sum_alg env) day d (answered env (item d) day)).
Proof. reflexivity. Qed.

Lemma after_days_item env days : forall d, item (after_days env days d) = item d.
Proof.
  induction days as [| day days IH]; intros d; [reflexivity |].
  rewrite after_days_cons, IH. apply add_day_item.
Qed.

Lemma after_days_host env days : forall d,
  item_host (after_days env days d) = item_host d.
Proof.
  induction days as [| day days IH]; intros d; [reflexivity |].
  rewrite after_days_cons, IH. apply add_day_host.
Qed.

Lemma after_days_total env days : forall d,
  list_of_total (after_days env days d) = list_of_total d.
Proof.
  induction days as [| day days IH]; intros d; [reflexivity |].
  rewrite after_days_cons, IH. apply add_day_total.
Qed.

(** The running total is every sample of every window, in window order. *)
Lemma after_days_history env days : forall d,
  list_of_history_for_total (after_days env days d)
  = (list_of_history_for_total d ++ retrieved env (item d) days)%list.
Proof.
  induction days as [| day days IH]; intros d.
  - simpl. now rewrite app_nil_r.
  - rewrite after_days_cons, IH.
    rewrite add_day_history, add_day_item. unfold retrieved. simpl.
    now rewrite app_assoc.
Qed.

Lemma collect_day_run env day d w d' w' :
  collect_day env day d w = (inr d', w') ->
  d' = add_day (sum_alg env) day d (answered env (item d) day).
Proof.
  unfold collect_day. intros H. run_step H.
  apply send_inr in Hrun. apply ret_inr in H. destruct H as [<- _].
  unfold answered. now rewrite Hrun.
Qed.

Lemma mapM_collect_day env day items : forall w items' w',
  mapM (collect_day env day) items w = (inr items', w') ->
  items' = map (fun d => add_day (sum_alg env) day d (answered env (item d) day))
               items.
Proof.
  induction items as [| d items IH]; simpl; intros w items' w' H.
  - apply ret_inr in H. now destruct H.
  - run_step H. run_step H. apply ret_inr in H. destruct H as [<- _].
    apply collect_day_run in Hrun. apply IH in Hrun0. now subst.
Qed.

Lemma collect_history_run env days : forall items w items' w',
  collect_history env days items w = (inr items', w') ->
  items' = map (after_days env days) items.
Proof.
  unfold collect_history.
  induction days as [| day days IH]; simpl; intros items w items' w' H.
  - apply ret_inr in H. destruct H as [<- _]. symmetry. apply map_id.
  - run_step H. apply mapM_collect_day in Hrun. apply IH in H. subst.
    now rewrite map_map.
Qed.

(** What an item contributes is decided by the number of samples. *)
Lemma contribution_none env hid hreal hname days it :
  (List.length (retrieved env it days) <= 1)%nat ->
  contribution env hid hreal hname days it = [].
Proof.
  intros H. unfold contribution, add_total.
  rewrite after_days_history. simpl list_of_history_for_total. simpl app.
  rewrite after_days_item. simpl item.
  rewrite statistics_none by (now rewrite length_map).
  unfold output_row. now rewrite after_days_total.
Qed.

Lemma contribution_one env hid hreal hname days it :
  (2 <= List.length (retrieved env it days))%nat ->
  exists r, contribution env hid hreal hname days it = [r].
Proof.
  intros H. unfold contribution, add_total.
  rewrite after_days_history. simpl list_of_history_for_total. simpl app.
  rewrite after_days_item. simpl item.
  destruct (statistics_some (sum_alg env) (map value (retrieved env it days)))
    as (avg & mn & mx & E); [now rewrite length_map |].
  rewrite E. unfold output_row. cbn [list_of_total].
  rewrite after_days_total. simpl. eauto.
Qed.

Lemma contribution_length env hid hreal hname days it :
  (List.length (contribution env hid hreal hname days it) <= 1)%nat.
Proof.
  destruct (Nat.le_gt_cases (List.length (retrieved env it days)) 1) as [L | G].
  - rewrite contribution_none by exact L. simpl. lia.
  - destruct (contribution_one env hid hreal hname days it G) as [r ->].
    simpl. lia.
Qed.

(** A run of [collect_host_metrics] that returns went through the
    preparation, and its table is the contributions of the resolved items
    in order. *)
Lemma collect_host_metrics_run env host_name days_back tz w table w' :
  collect_host_metrics env host_name days_back tz w = (inr table, w') ->
  exists host_id host_real_name all_items day_ranges items w4,
    prepared env host_name days_back tz w
             host_id host_real_name all_items day_ranges items w4
    /\ table = flat_map (contribution env host_id host_real_name host_name day_ranges)
                        items.
Proof.
  unfold collect_host_metrics. intros H.
  run_step H. destruct a as [hid hreal].
  run_step H. run_step H. run_step H.
  exists hid, hreal, a, a0, a1, w3. split.
  { exists w0, w1, w2. auto. }
  destruct a1 as [| it items].
  - apply ret_inr in H. destruct H as [<- _]. reflexivity.
  - run_step H. apply ret_inr in H. destruct H as [<- _].
    apply collect_history_run in Hrun3. subst.
    rewrite !flat_map_map. reflexivity.
Qed.

(** The row of an item, from the statistics of all its samples. *)
Lemma contribution_statistics env hid hreal hname days it r :
  In r (contribution env hid hreal hname days it) ->
  exists avg mn mx,
    statistics (sum_alg env) (map value (retrieved env it days)) = Some (avg, mn, mx)
    /\ Server r = hname /\ Type_ r = name it
    /\ unit_measurements r
       = (if search_bits (name it) then "Mbps"
          else if search_utilization (name it) then "%" else "count")
    /\ Min r = (if search_bits (name it) then bps_to_mbps mn else mn)
    /\ Avg r = (if search_bits (name it) then bps_to_mbps avg else avg)
    /\ Max r = (if search_bits (name it) then bps_to_mbps mx else mx).
Proof.
  unfold contribution, add_total.
  rewrite after_days_history. simpl list_of_history_for_total. simpl app.
  rewrite after_days_item. simpl item.
  destruct (statistics (sum_alg env) (map value (retrieved env it days)))
    as [[[avg mn] mx] |] eqn:E.
  - unfold output_row. cbn [list_of_total item item_host].
    rewrite after_days_total, after_days_host. simpl.
    intros [<- | []]. exists avg, mn, mx. simpl.
    destruct (search_bits (name it)); simpl; repeat split; reflexivity.
  - unfold output_row. rewrite after_days_total. simpl. intros [].
Qed.

(* ================================================================== *)
(** * Resolving the items *)
(* ================================================================== *)

Lemma get_item_run env hid key w items w' :
  get_item env hid key w = (inr items, w') ->
  item_search (zabbix env) hid key = inr items.
Proof. unfold get_item. apply send_inr. Qed.

Lemma resolve_items_acc env hid keys : forall acc w items w',
  foldM (fun items key =>
           item_result <- get_item env hid key ;;
           match item_result with
           | [] => ret items
           | it :: _ => ret (items ++ [it])%list
           end) keys acc w = (inr items, w') ->
  items = (acc ++ flat_map (first_match env hid) keys)%list.
Proof.
  induction keys as [| key keys IH]; simpl; intros acc w items w' H.
  - apply ret_inr in H. destruct H as [<- _]. now rewrite app_nil_r.
  - run_step H. run_step Hrun. apply get_item_run in Hrun0.
    apply IH in H. subst items. unfold first_match at 2. rewrite Hrun0.
    destruct a0 as [| it rest]; apply ret_inr in Hrun; destruct Hrun as [<- _].
    + reflexivity.
    + now rewrite <- app_assoc.
Qed.

Lemma resolve_items_run env hid keys w items w' :
  resolve_items env hid keys w = (inr items, w') ->
  items = flat_map (first_match env hid) keys.
Proof. unfold resolve_items. intros H. now apply resolve_items_acc in H. Qed.

Lemma hits_repeat (k : string) templates :
  flat_map (fun key => if contains key k then [k] else []) templates
  = repeat k (List.length (filter (fun t => contains t k) templates)).
Proof.
  induction templates as [| t ts IH]; simpl; [reflexivity |].
  destruct (contains t k); simpl; now rewrite IH.
Qed.

Lemma matching_keys_app l1 l2 :
  matching_keys (l1 ++ l2) = (matching_keys l1 ++ matching_keys l2)%list.
Proof. unfold matching_keys. apply flat_map_app. Qed.

Lemma matching_keys_cons it l :
  matching_keys (it :: l)
  = (repeat (key_ it) (template_hits (key_ it)) ++ matching_keys l)%list.
Proof.
  unfold matching_keys, template_hits. rewrite <- hits_repeat. reflexivity.
Qed.

Lemma flat_map_repeat {A B} (f : A -> list B) x n :
  flat_map f (repeat x n) = List.concat (repeat (f x) n).
Proof. induction n as [| n IH]; simpl; [reflexivity | now rewrite IH]. Qed.

Lemma flat_map_concat_repeat {A B} (f : A -> list B) l n :
  flat_map f (List.concat (repeat l n)) = List.concat (repeat (flat_map f l) n).
Proof.
  induction n as [| n IH]; simpl; [reflexivity |].
  now rewrite flat_map_app, IH.
Qed.

Lemma concat_repeat_single {A} (x : A) n :
  List.concat (repeat [x] n) = repeat x n.
Proof. induction n as [| n IH]; simpl; [reflexivity | now rewrite IH]. Qed.

(* ================================================================== *)
(** * The table of a host *)
(* ================================================================== *)

(** C1, as the code has it: every row of the table of a host belongs to a
    resolved item and shows the statistics of all samples of that item.
    When the display name matches [Bits (received|sent)], the unit is Mbps
    and min, avg and max are those statistics divided by 1,000,000.
    When it does not, the values are the statistics themselves and the unit
    is % for a name that matches [(Disk|CPU|Memory) utilization] and
    count for any other name. *)
Theorem unit_classification env host_name days_back tz w table w' :
  collect_host_metrics env host_name days_back tz w = (inr table, w') ->
  forall r, In r table ->
  exists host_id host_real_name all_items day_ranges items w4 it avg mn mx,
    prepared env host_name days_back tz w
             host_id host_real_name all_items day_ranges items w4
    /\ In it items /\ Type_ r = name it
    /\ statistics (sum_alg env) (map value (retrieved env it day_ranges))
       = Some (avg, mn, mx)
    /\ if search_bits (Type_ r)
       then unit_measurements r = "Mbps"
            /\ Min r = fdiv mn (of_Z 1000000)
            /\ Avg r = fdiv avg (of_Z 1000000)
            /\ Max r = fdiv mx (of_Z 1000000)
       else unit_measurements r
            = (if search_utilization (Type_ r) then "%" else "count")
            /\ Min r = mn /\ Avg r = avg /\ Max r = mx.
Proof.
  intros H r Hr.
  apply collect_host_metrics_run in H.
  destruct H as (hid & hreal & all_items & days & items & w4 & Hp & ->).
  apply in_flat_map in Hr. destruct Hr as (it & Hit & Hr).
  apply contribution_statistics in Hr.
  destruct Hr as (avg & mn & mx & Hs & _ & Hn & Hu & Hmin & Havg & Hmax).
  exists hid, hreal, all_items, days, items, w4, it, avg, mn, mx.
  repeat split; try assumption.
  rewrite Hn, Hu, Hmin, Havg, Hmax. unfold bps_to_mbps.
  destruct (search_bits (name it)); repeat split; reflexivity.
Qed.

Lemma unit_classification_witness :
  sample_run LeftToRight = (inr (sample_table LeftToRight), snd (sample_run LeftToRight))
  /\ forall r, In r (sample_table LeftToRight) ->
     exists host_id host_real_name all_items day_ranges items w4 it avg mn mx,
       prepared (sample_env LeftToRight) "web01" 1 "Asia/Yekaterinburg" sample_world
                host_id host_real_name all_items day_ranges items w4
       /\ In it items /\ Type_ r = name it
       /\ statistics LeftToRight (map value (retrieved (sample_env LeftToRight) it day_ranges))
          = Some (avg, mn, mx)
       /\ if search_bits (Type_ r)
          then unit_measurements r = "Mbps"
               /\ Min r = fdiv mn (of_Z 1000000)
               /\ Avg r = fdiv avg (of_Z 1000000)
               /\ Max r = fdiv mx (of_Z 1000000)
          else unit_measurements r
               = (if search_utilization (Type_ r) then "%" else "count")
               /\ Min r = mn /\ Avg r = avg /\ Max r = mx.
Proof.
  split.
  - vm_compute. reflexivity.
  - apply (unit_classification (sample_env LeftToRight) "web01" 1
             "Asia/Yekaterinburg" sample_world
             (sample_table LeftToRight) (snd (sample_run LeftToRight))).
    vm_compute. reflexivity.
Defined.

(** C1 as stated fails: on web01 the item named
    "CPU utilization, Bits sent path" matches the utilization pattern, yet
    its row has the unit Mbps, because the Bits pattern is tried first. *)
Lemma utilization_name_with_bits_is_mbps :
  exists table w' r,
    collect_host_metrics (sample_env LeftToRight) "web01" 1 "Asia/Yekaterinburg"
                         sample_world = (inr table, w')
    /\ In r table
    /\ Type_ r = "CPU utilization, Bits sent path"
    /\ contains "CPU utilization" (Type_ r) = true
    /\ unit_measurements r = "Mbps"
    /\ unit_measurements r <> "%".
Proof.
  eexists. eexists. eexists. split.
  - vm_compute. reflexivity.
  - split.
    + right. right. right. right. left. reflexivity.
    + repeat split; try reflexivity. discriminate.
Qed.

(** C4: a resolved item whose windows hold 0 or 1 sample in total has no
    row in the table, and one with 2 or more samples has exactly one. *)
Theorem sample_count_gating env host_name days_back tz w table w' :
  collect_host_metrics env host_name days_back tz w = (inr table, w') ->
  exists host_id host_real_name all_items day_ranges items w4,
    prepared env host_name days_back tz w
             host_id host_real_name all_items day_ranges items w4
    /\ table = flat_map (contribution env host_id host_real_name host_name day_ranges)
                        items
    /\ forall it,
         let total := List.length (retrieved env it day_ranges) in
         ((total <= 1)%nat ->
          contribution env host_id host_real_name host_name day_ranges it = [])
         /\ ((2 <= total)%nat ->
             exists r,
               contribution env host_id host_real_name host_name day_ranges it = [r]).
Proof.
  intros H. apply collect_host_metrics_run in H.
  destruct H as (hid & hreal & all_items & days & items & w4 & Hp & ->).
  exists hid, hreal, all_items, days, items, w4.
  split; [exact Hp |]. split; [reflexivity |].
  intros it. split.
  - apply contribution_none.
  - apply contribution_one.
Qed.

Lemma sample_count_gating_witness :
  sample_run Compensated = (inr (sample_table Compensated), snd (sample_run Compensated))
  /\ exists host_id host_real_name all_items day_ranges items w4,
       prepared (sample_env Compensated) "web01" 1 "Asia/Yekaterinburg" sample_world
                host_id host_real_name all_items day_ranges items w4
       /\ sample_table Compensated
          = flat_map (contribution (sample_env Compensated) host_id host_real_name
                                   "web01" day_ranges) items
       /\ forall it,
            let total := List.length (retrieved (sample_env Compensated) it day_ranges) in
            ((total <= 1)%nat ->
             contribution (sample_env Compensated) host_id host_real_name
                          "web01" day_ranges it = [])
            /\ ((2 <= total)%nat ->
                exists r,
                  contribution (sample_env Compensated) host_id host_real_name
                               "web01" day_ranges it = [r]).
Proof.
  split.
  - vm_compute. reflexivity.
  - apply (sample_count_gating (sample_env Compensated) "web01" 1
             "Asia/Yekaterinburg" sample_world
             (sample_table Compensated) (snd (sample_run Compensated))).
    vm_compute. reflexivity.
Defined.

(** C10: the key of an enabled item stands in the key list once per
    template it contains; each copy is looked up and processed on its own,
    so an item whose key contains [k] templates and that has a total
    aggregate has [k] equal rows in a row in the table. *)
Theorem duplicated_item_rows env host_name days_back tz w table w' :
  collect_host_metrics env host_name days_back tz w = (inr table, w') ->
  exists host_id host_real_name all_items day_ranges items w4,
    prepared env host_name days_back tz w
             host_id host_real_name all_items day_ranges items w4
    /\ forall l1 it l2, all_items = (l1 ++ it :: l2)%list ->
       let k := template_hits (key_ it) in
       let rows_of_key :=
         flat_map (contribution env host_id host_real_name host_name day_ranges)
                  (first_match env host_id (key_ it)) in
       exists keys_before keys_after rows_before rows_after,
         matching_keys all_items
         = (keys_before ++ repeat (key_ it) k ++ keys_after)%list
         /\ items
            = (flat_map (first_match env host_id) keys_before
               ++ List.concat (repeat (first_match env host_id (key_ it)) k)
               ++ flat_map (first_match env host_id) keys_after)%list
         /\ table
            = (rows_before ++ List.concat (repeat rows_of_key k) ++ rows_after)%list
         /\ (rows_of_key = []
             \/ exists r, rows_of_key = [r]
                          /\ table = (rows_before ++ repeat r k ++ rows_after)%list).
Proof.
  intros H. apply collect_host_metrics_run in H.
  destruct H as (hid & hreal & all_items & days & items & w4 & Hp & ->).
  exists hid, hreal, all_items, days, items, w4.
  split; [exact Hp |].
  intros l1 it l2 E k rows_of_key.
  destruct Hp as (w1 & w2 & w3 & _ & _ & _ & Hres).
  apply resolve_items_run in Hres.
  set (f := contribution env hid hreal host_name days) in *.
  exists (matching_keys l1), (matching_keys l2),
         (flat_map f (flat_map (first_match env hid) (matching_keys l1))),
         (flat_map f (flat_map (first_match env hid) (matching_keys l2))).
  assert (matching_keys all_items
          = (matching_keys l1 ++ repeat (key_ it) k ++ matching_keys l2)%list) as K.
  { rewrite E, matching_keys_app, matching_keys_cons. reflexivity. }
  assert (items
          = (flat_map (first_match env hid) (matching_keys l1)
             ++ List.concat (repeat (first_match env hid (key_ it)) k)
             ++ flat_map (first_match env hid) (matching_keys l2))%list) as I.
  { rewrite Hres, K, !flat_map_app, flat_map_repeat. reflexivity. }
  assert (flat_map f items
          = (flat_map f (flat_map (first_match env hid) (matching_keys l1))
             ++ List.concat (repeat rows_of_key k)
             ++ flat_map f (flat_map (first_match env hid) (matching_keys l2)))%list)
    as T.
  { rewrite I, !flat_map_app, flat_map_concat_repeat. reflexivity. }
  repeat split; try assumption.
  assert (List.length rows_of_key <= 1)%nat as L.
  { unfold rows_of_key, first_match.
    destruct (item_search (zabbix env) hid (key_ it)) as [e | [| x rest]];
      simpl; try lia.
    rewrite app_nil_r. apply contribution_length. }
  destruct rows_of_key as [| r [| r' rest]] eqn:Er; simpl in L; try lia.
  - now left.
  - right. exists r. split; [reflexivity |].
    rewrite T. now rewrite concat_repeat_single.
Qed.

Lemma duplicated_item_rows_witness :
  sample_run LeftToRight = (inr (sample_table LeftToRight), snd (sample_run LeftToRight))
  /\ exists host_id host_real_name all_items day_ranges items w4,
       prepared (sample_env LeftToRight) "web01" 1 "Asia/Yekaterinburg" sample_world
                host_id host_real_name all_items day_ranges items w4
       /\ forall l1 it l2, all_items = (l1 ++ it :: l2)%list ->
          let k := template_hits (key_ it) in
          let rows_of_key :=
            flat_map (contribution (sample_env LeftToRight) host_id host_real_name
                                   "web01" day_ranges)
                     (first_match (sample_env LeftToRight) host_id (key_ it)) in
          exists keys_before keys_after rows_before rows_after,
            matching_keys all_items
            = (keys_before ++ repeat (key_ it) k ++ keys_after)%list
            /\ items
               = (flat_map (first_match (sample_env LeftToRight) host_id) keys_before
                  ++ List.concat
                       (repeat (first_match (sample_env LeftToRight) host_id (key_ it)) k)
                  ++ flat_map (first_match (sample_env LeftToRight) host_id) keys_after)%list
            /\ sample_table LeftToRight
               = (rows_before ++ List.concat (repeat rows_of_key k) ++ rows_after)%list
            /\ (rows_of_key = []
                \/ exists r, rows_of_key = [r]
                             /\ sample_table LeftToRight
                                = (rows_before ++ repeat r k ++ rows_after)%list).
Proof.
  split.
  - vm_compute. reflexivity.
  - apply (duplicated_item_rows (sample_env LeftToRight) "web01" 1
             "Asia/Yekaterinburg" sample_world
             (sample_table LeftToRight) (snd (sample_run LeftToRight))).
    vm_compute. reflexivity.
Defined.

(** On web01 the key [total[net.if.in,net.if.out]] contains two templates
    and its row stands twice in the table. *)
Example duplicated_row_on_web01 :
  template_hits "total[net.if.in,net.if.out]" = 2%nat
  /\ exists r before after,
       Type_ r = "Interface eth0: in and out"
       /\ sample_table LeftToRight = (before ++ [r; r] ++ after)%list.
Proof.
  split; [reflexivity |].
  eexists. exists (firstn 2 (sample_table LeftToRight)),
                  (skipn 4 (sample_table LeftToRight)).
  split; [| vm_compute; reflexivity]. reflexivity.
Qed.

(** The table of web01 in full.  Its first two rows are the examples of
    the specification: CPU utilization 10.0 / 15.5 / 20.0 in %, and
    traffic that averages 25,300,000 bits per second shown as 25.3 Mbps. *)
Example web01_table alg :
  map (fun r => (Type_ r, unit_measurements r, Min r, Avg r, Max r))
      (sample_table alg)
  = [ ("CPU utilization", "%", of_Z 10, dec 155 1, of_Z 20);
      ("Interface eth0: Bits received", "Mbps", dec 241 1, dec 253 1, dec 265 1);
      ("Interface eth0: in and out", "count", of_Z 7, of_Z 8, of_Z 9);
      ("Interface eth0: in and out", "count", of_Z 7, of_Z 8, of_Z 9);
      ("CPU utilization, Bits sent path", "Mbps",
       bps_to_mbps (of_Z 3), bps_to_mbps (of_Z 4), bps_to_mbps (of_Z 5)) ].
Proof. destruct alg; vm_compute; reflexivity. Qed.

Example dirname_examples :
  dirname "/tmp/server_metrics.xlsx" = "/tmp"
  /\ dirname "server_metrics.xlsx" = ""
  /\ dirname "/server_metrics.xlsx" = "/"
  /\ dirname "reports//november/" = "reports//november".
Proof. repeat split; reflexivity. Qed.

(* ================================================================== *)
(** * What a run sends and what it leaves alone *)
(* ================================================================== *)

Section StepsUnder.
Variable R : world -> world -> Prop.
Hypothesis R_refl : forall w, R w w.
Hypothesis R_trans : forall w1 w2 w3, R w1 w2 -> R w2 w3 -> R w1 w3.

Lemma respects_bind_run {A B} (m : M A) (k : A -> M B) :
  respects R m ->
  (forall w a w1, m w = (inr a, w1) -> R w1 (snd (k a w1))) ->
  respects R (bind m k).
Proof.
  intros Hm Hk w. unfold bind. specialize (Hm w).
  destruct (m w) as [[e | a] w1] eqn:E; simpl in *.
  - exact Hm.
  - eapply R_trans; [exact Hm | eapply Hk; exact E].
Qed.

Lemma respects_foldM_inv {A S} (I : S -> Prop) (f : S -> A -> M S) l :
  (forall s x, I s -> respects R (f s x)) ->
  (forall s x w s' w', I s -> f s x w = (inr s', w') -> I s') ->
  forall s, I s -> respects R (foldM f l s).
Proof.
  intros Hf Hpres. induction l as [| x l IH]; intros s Hs; simpl.
  - intros w. apply R_refl.
  - apply respects_bind_run; [now apply Hf |].
    intros w a w1 Hrun. apply IH. eapply Hpres; eauto.
Qed.

Lemma respects_mapM_on {A B} (f : A -> M B) l :
  (forall x, In x l -> respects R (f x)) -> respects R (mapM f l).
Proof.
  induction l as [| x l IH]; intros Hf; simpl.
  - intros w. apply R_refl.
  - apply respects_bind_run; [apply Hf; now left |].
    intros w y w1 _.
    assert (respects R (ys <- mapM f l ;; ret (y :: ys))) as H.
    { apply respects_bind_run; [apply IH; intros; apply Hf; now right |].
      intros w2 ys w3 _. apply R_refl. }
    apply H.
Qed.
End StepsUnder.

Lemma sent_refl P w : sent P w w.
Proof. exists []. split; [now rewrite app_nil_r | constructor]. Qed.

Lemma sent_same_requests P w w' : requests w' = requests w -> sent P w w'.
Proof. intros E. exists []. split; [now rewrite app_nil_r | constructor]. Qed.

Lemma sent_trans P w1 w2 w3 : sent P w1 w2 -> sent P w2 w3 -> sent P w1 w3.
Proof.
  intros (n1 & E1 & F1) (n2 & E2 & F2). exists (n1 ++ n2)%list. split.
  - now rewrite E2, E1, app_assoc.
  - apply Forall_app. now split.
Qed.

Lemma sent_send P {A} r (answer : exn + A) : P r -> respects (sent P) (send r answer).
Proof.
  intros Hr w. exists [r]. simpl. split; [reflexivity |]. now repeat constructor.
Qed.

Lemma sent_get_timestamp P env tz n :
  respects (sent P) (get_timestamp_ekb2timestamp env tz n).
Proof.
  unfold get_timestamp_ekb2timestamp, pytz_timezone.
  apply respects_bind; [apply sent_trans | |].
  - destruct (tz_database env tz); intros w; apply sent_refl.
  - intros z. apply respects_bind; [apply sent_trans | |].
    + intros w. now apply sent_same_requests.
    + intros now. apply respects_lift. apply sent_refl.
Qed.

Lemma sent_get_host_id env h : respects (sent (built_request env)) (get_host_id env h).
Proof.
  unfold get_host_id. apply respects_bind; [apply sent_trans | |].
  - apply sent_send. exact I.
  - intros [| x hosts]; intros w; apply sent_refl.
Qed.

Lemma sent_resolve_items env hid keys :
  respects (sent (built_request env)) (resolve_items env hid keys).
Proof.
  unfold resolve_items. apply respects_foldM; [apply sent_refl | apply sent_trans |].
  intros items key. apply respects_bind; [apply sent_trans | |].
  - apply sent_send. exact I.
  - intros [| x rest]; intros w; apply sent_refl.
Qed.

Lemma sent_collect_day env day d :
  resolved_item env (item d) ->
  respects (sent (built_request env)) (collect_day env day d).
Proof.
  intros Hd. unfold collect_day. apply respects_bind; [apply sent_trans | |].
  - apply sent_send. simpl. eauto.
  - intros hist w. apply sent_refl.
Qed.

Lemma sent_collect_history env days items :
  Forall (fun d => resolved_item env (item d)) items ->
  respects (sent (built_request env)) (collect_history env days items).
Proof.
  unfold collect_history.
  apply (respects_foldM_inv _ (sent_refl _) (sent_trans _)
           (Forall (fun d => resolved_item env (item d)))).
  - intros its day Hits.
    apply respects_mapM_on; [apply sent_refl | apply sent_trans |].
    intros d Hd. apply sent_collect_day.
    rewrite Forall_forall in Hits. now apply Hits.
  - intros its day w its' w' Hits Hrun.
    apply mapM_collect_day in Hrun. subst its'.
    rewrite Forall_forall in *. intros d' Hd'.
    apply in_map_iff in Hd'. destruct Hd' as (d & <- & Hd).
    rewrite add_day_item. now apply Hits.
Qed.

Lemma first_match_resolved env hid keys it :
  In it (flat_map (first_match env hid) keys) -> resolved_item env it.
Proof.
  intros H. apply in_flat_map in H. destruct H as (key & _ & Hin).
  exists hid, key. unfold first_match in *.
  destruct (item_search (zabbix env) hid key) as [e | [| x rest]];
    simpl in Hin; try contradiction.
  destruct Hin as [-> | []]. reflexivity.
Qed.

Lemma sent_collect_host_metrics env h n tz :
  respects (sent (built_request env)) (collect_host_metrics env h n tz).
Proof.
  unfold collect_host_metrics.
  apply respects_bind; [apply sent_trans | apply sent_get_host_id |].
  intros [hid hreal].
  apply respects_bind; [apply sent_trans | apply sent_send; exact I |].
  intros all_items.
  apply respects_bind; [apply sent_trans | apply sent_get_timestamp |].
  intros days.
  apply respects_bind_run; [apply sent_trans | apply sent_resolve_items |].
  intros w items w1 Hres. apply resolve_items_run in Hres.
  destruct items as [| it items].
  - apply sent_refl.
  - assert (respects (sent (built_request env))
              (items0 <- collect_history env days
                           (map (init_item hid hreal h) (it :: items)) ;;
               ret (flat_map output_row (map (add_total (sum_alg env)) items0))))
      as H.
    { apply respects_bind; [apply sent_trans | |].
      - apply sent_collect_history.
        rewrite Forall_forall. intros d Hd.
        apply in_map_iff in Hd. destruct Hd as (x & <- & Hx). simpl.
        apply (first_match_resolved env hid (matching_keys all_items)).
        now rewrite <- Hres.
      - intros its w2. apply sent_refl. }
    apply H.
Qed.

(** C7: whatever the outcome of [collect_host_metrics], each history
    request it sends is for a resolved item, and its storage class is read
    off the key of that item alone: 3 when the key contains "net.if.",
    and 0, a different class, when it does not. *)
Theorem history_class_by_key env host_name days_back tz w :
  exists new,
    requests (snd (collect_host_metrics env host_name days_back tz w))
    = (requests w ++ new)%list
    /\ (forall q, In (ReqHistoryGet q) new ->
        exists it day,
          resolved_item env it
          /\ q = history_request it day
          /\ history q = (if contains "net.if." (key_ it) then 3 else 0))
    /\ 3 <> 0.
Proof.
  destruct (sent_collect_host_metrics env host_name days_back tz w)
    as (new & E & F).
  exists new. split; [exact E |]. split; [| discriminate].
  intros q Hq. rewrite Forall_forall in F. specialize (F _ Hq). simpl in F.
  destruct F as (it & day & Hr & ->). exists it, day. auto.
Qed.

Lemma same_fs_refl w : same_fs w w.
Proof. reflexivity. Qed.

Lemma same_fs_trans w1 w2 w3 : same_fs w1 w2 -> same_fs w2 w3 -> same_fs w1 w3.
Proof. unfold same_fs. congruence. Qed.

Lemma fs_send {A} r (answer : exn + A) : respects same_fs (send r answer).
Proof. intros w. reflexivity. Qed.

Lemma fs_get_timestamp env tz n :
  respects same_fs (get_timestamp_ekb2timestamp env tz n).
Proof.
  unfold get_timestamp_ekb2timestamp, pytz_timezone.
  apply (respects_bind same_fs same_fs_trans).
  - destruct (tz_database env tz); intros w; reflexivity.
  - intros z. apply (respects_bind same_fs same_fs_trans).
    + intros w. reflexivity.
    + intros now. apply (respects_lift same_fs same_fs_refl).
Qed.

Ltac fs_steps :=
  repeat first
    [ apply fs_send
    | apply fs_get_timestamp
    | apply (respects_ret same_fs same_fs_refl)
    | apply (respects_raise same_fs same_fs_refl)
    | apply (respects_bind same_fs same_fs_trans)
    | apply (respects_foldM same_fs same_fs_refl same_fs_trans)
    | apply (respects_mapM same_fs same_fs_refl same_fs_trans)
    | match goal with
      | |- forall _, _ => intro
      | |- respects _ (match ?x with _ => _ end) => destruct x
      | |- respects _ (let _ := _ in _) => cbv zeta
      end ].

Lemma fs_collect_host_metrics env h n tz :
  respects same_fs (collect_host_metrics env h n tz).
Proof.
  unfold collect_host_metrics, get_host_id, resolve_items, get_item,
    collect_history, collect_day.
  fs_steps.
Qed.

Lemma fs_collect_all env p : respects same_fs (collect_all env p).
Proof.
  unfold collect_all.
  apply (respects_foldM same_fs same_fs_refl same_fs_trans). intros acc h.
  apply (respects_bind same_fs same_fs_trans).
  - apply fs_collect_host_metrics.
  - intros m. apply (respects_ret same_fs same_fs_refl).
Qed.

Lemma fs_connect env server user pass :
  respects same_fs (connect_zabbix env server user pass).
Proof. unfold connect_zabbix. apply fs_send. Qed.

(* ================================================================== *)
(** * Failing runs *)
(* ================================================================== *)

Lemma unknown_host_raises env h n tz w :
  host_get (zabbix env) h = inr [] ->
  exists w',
    collect_host_metrics env h n tz w
    = (inl (Exception ("Хост '" ++ h ++ "' не найден")), w').
Proof.
  intros E. unfold collect_host_metrics, get_host_id, bind, send.
  rewrite E. simpl. eauto.
Qed.

Lemma foldM_fails {A S} (f : S -> A -> M S) l x :
  In x l ->
  (forall s w, exists e w', f s x w = (inl e, w')) ->
  forall s w, exists e w', foldM f l s w = (inl e, w').
Proof.
  intros Hin Hx. induction l as [| y l IH]; [contradiction |].
  intros s w. simpl. unfold bind.
  destruct (f s y w) as [[e | s'] w1] eqn:E.
  - eauto.
  - destruct Hin as [-> | Hin].
    + destruct (Hx s w) as (e & w' & Hf). congruence.
    + apply IH. exact Hin.
Qed.

Lemma collect_all_fails env p h w :
  In h (host_names p) -> host_get (zabbix env) h = inr [] ->
  exists e w', collect_all env p w = (inl e, w').
Proof.
  intros Hin E. unfold collect_all. apply (foldM_fails _ _ h Hin).
  intros acc w0. unfold bind.
  destruct (unknown_host_raises env h (days_back p) (timezone p) w0 E) as (w' & ->).
  eauto.
Qed.

Lemma main_body_fails env p h w :
  In h (host_names p) -> host_get (zabbix env) h = inr [] ->
  exists e w', main_body env p w = (inl e, w') /\ fs w' = fs w.
Proof.
  intros Hin E. unfold main_body.
  pose proof (fs_connect env (zabbix_server_url p) (username p) (password p) w) as F1.
  unfold bind at 1.
  destruct (connect_zabbix env (zabbix_server_url p) (username p) (password p) w)
    as [[e | []] w1]; simpl in F1.
  - eauto.
  - unfold bind at 1.
    destruct (collect_all_fails env p h w1 Hin E) as (e & w2 & Hc).
    pose proof (fs_collect_all env p w1) as F2. rewrite Hc in *. simpl in F2.
    exists e, w2. split; [reflexivity |]. unfold same_fs in *. congruence.
Qed.

(** C9: when one of the requested hosts is not known to the server, the
    run ends in [fail_json], which carries a message and no rows, and the
    file system is as it was: nothing of the hosts handled before is
    reported or written. *)
Theorem unresolved_host_fails env p w h :
  In h (host_names p) -> host_get (zabbix env) h = inr [] ->
  exists msg,
    fst (main env p w) = fail_json msg
    /\ fs (snd (main env p w)) = fs w
    /\ (HAS_ZABBIX env = true ->
        exists e, msg = "Error collecting metrics: " ++ str e).
Proof.
  intros Hin E. unfold main.
  destruct (HAS_ZABBIX env).
  - destruct (main_body_fails env p h w Hin E) as (e & w' & -> & F).
    exists ("Error collecting metrics: " ++ str e). simpl.
    repeat split; eauto.
  - simpl. eexists. repeat split. discriminate.
Qed.

Lemma unresolved_host_fails_witness :
  In "ghost" (host_names (sample_params ["web01"; "ghost"] "/tmp/server_metrics.xlsx"))
  /\ host_get (zabbix (sample_env LeftToRight)) "ghost" = inr []
  /\ exists msg,
       fst (main (sample_env LeftToRight)
                 (sample_params ["web01"; "ghost"] "/tmp/server_metrics.xlsx")
                 sample_world) = fail_json msg
       /\ fs (snd (main (sample_env LeftToRight)
                        (sample_params ["web01"; "ghost"] "/tmp/server_metrics.xlsx")
                        sample_world)) = fs sample_world
       /\ (HAS_ZABBIX (sample_env LeftToRight) = true ->
           exists e, msg = "Error collecting metrics: " ++ str e).
Proof.
  assert (In "ghost" ["web01"; "ghost"]) as Hin by (simpl; auto).
  assert (host_get (zabbix (sample_env LeftToRight)) "ghost" = inr []) as E
    by reflexivity.
  split; [exact Hin |]. split; [exact E |].
  exact (unresolved_host_fails (sample_env LeftToRight)
           (sample_params ["web01"; "ghost"] "/tmp/server_metrics.xlsx")
           sample_world "ghost" Hin E).
Defined.

(** The message of that run, after web01 was collected in full. *)
Example ghost_host_message :
  fst (main (sample_env LeftToRight)
            (sample_params ["web01"; "ghost"] "/tmp/server_metrics.xlsx")
            sample_world)
  = fail_json "Error collecting metrics: Хост 'ghost' не найден".
Proof. vm_compute. reflexivity. Qed.

(* ================================================================== *)
(** * Writing the report *)
(* ================================================================== *)

Lemma read_after_write f df p f' :
  write_excel f df p = inr f' -> read_excel f' p = Some df.
Proof.
  unfold write_excel.
  destruct (negb (dirname p =? "")%string && negb (mem (dirname p) (dirs f)));
    [discriminate |].
  destruct (mem p (dirs f)); [discriminate |].
  intros H. inversion H; subst. unfold read_excel. simpl.
  now rewrite String.eqb_refl.
Qed.

(** With an empty table [save_report] goes straight to the writer. *)
Lemma save_report_empty p w :
  save_report p [] w = to_excel {| rows := []; columns := DATA_COLUMNS |} (output_path p) w.
Proof. reflexivity. Qed.

Lemma save_report_empty_dirs p w :
  dirs (fs (snd (save_report p [] w))) = dirs (fs w).
Proof.
  rewrite save_report_empty. unfold to_excel, write_excel.
  destruct (negb (dirname (output_path p) =? "")%string
            && negb (mem (dirname (output_path p)) (dirs (fs w))));
    [reflexivity |].
  destruct (mem (output_path p) (dirs (fs w))); reflexivity.
Qed.

(** C2 fails on the code.  With an empty table [save_report] never
    creates a directory.  For db01, which has no item of the templates,
    the table is empty; the directory /srv/reports of the output path does
    not exist, the writer raises and the run fails, leaving the file
    system as it was.  For web01, whose table has rows, the same path
    succeeds: that branch creates /srv and /srv/reports before it
    writes. *)
Theorem empty_table_skips_makedirs :
  let path := "/srv/reports/server_metrics.xlsx" in
  let empty_run := main (sample_env LeftToRight) (sample_params ["db01"] path)
                        sample_world in
  let full_run := main (sample_env LeftToRight) (sample_params ["web01"] path)
                       sample_world in
  (forall p w, dirs (fs (snd (save_report p [] w))) = dirs (fs w))
  /\ fst empty_run
     = fail_json ("Error collecting metrics: "
                  ++ "Cannot save file into a non-existent directory: '/srv/reports'")
  /\ fs (snd empty_run) = fs sample_world
  /\ mem "/srv/reports" (dirs (fs (snd empty_run))) = false
  /\ read_excel (fs (snd empty_run)) path = None
  /\ fst full_run
     = exit_json true path (sample_table LeftToRight)
                 "Successfully collected metrics for 1 hosts"
  /\ mem "/srv/reports" (dirs (fs (snd full_run))) = true
  /\ read_excel (fs (snd full_run)) path
     = Some {| rows := sample_table LeftToRight; columns := DATA_COLUMNS |}.
Proof.
  split; [exact save_report_empty_dirs |].
  vm_compute. repeat split; reflexivity.
Qed.

(** C5 on the code: when the login and the collection go through with an
    empty table, the run writes the header-only sheet and succeeds if the
    directory of the output path exists (or the path has none), and it
    fails without writing anything if that directory is missing. *)
Theorem header_only_report env p w w1 :
  HAS_ZABBIX env = true ->
  (connect_zabbix env (zabbix_server_url p) (username p) (password p) ;;
   collect_all env p) w = (inr [], w1) ->
  let dir := dirname (output_path p) in
  ((dir = "" \/ mem dir (dirs (fs w1)) = true) ->
   mem (output_path p) (dirs (fs w1)) = false ->
   exists w2,
     main env p w
     = (exit_json true (output_path p) []
          ("Successfully collected metrics for "
           ++ str_of_nat (List.length (host_names p)) ++ " hosts"), w2)
     /\ read_excel (fs w2) (output_path p)
        = Some {| rows := []; columns := DATA_COLUMNS |})
  /\ (dir <> "" -> mem dir (dirs (fs w1)) = false ->
      main env p w
      = (fail_json ("Error collecting metrics: "
                    ++ "Cannot save file into a non-existent directory: '"
                    ++ dir ++ "'"), w1)).
Proof.
  intros Hz Hrun dir. subst dir.
  apply bind_inr in Hrun. destruct Hrun as ([] & w0 & Hc & Hall).
  assert (main_body env p w
          = (save_report p [] ;;
             ret (exit_json true (output_path p) []
                    ("Successfully collected metrics for "
                     ++ str_of_nat (List.length (host_names p)) ++ " hosts"))) w1)
    as Hmb.
  { unfold main_body. unfold bind at 1. rewrite Hc.
    unfold bind at 1. rewrite Hall. reflexivity. }
  unfold main. rewrite Hz. simpl negb. cbv iota. rewrite Hmb.
  unfold bind. rewrite save_report_empty. unfold to_excel.
  split.
  - intros Hdir Hnodir.
    destruct (write_excel (fs w1) {| rows := []; columns := DATA_COLUMNS |}
                (output_path p)) as [e | f'] eqn:W.
    + exfalso. unfold write_excel in W. rewrite Hnodir in W.
      destruct Hdir as [Hd | Hd]; rewrite Hd in W.
      * simpl in W. discriminate.
      * rewrite andb_false_r in W. discriminate.
    + eexists. split; [reflexivity |]. simpl.
      eapply read_after_write. exact W.
  - intros Hne Hmiss. unfold write_excel. rewrite Hmiss.
    apply String.eqb_neq in Hne. rewrite Hne. simpl. reflexivity.
Qed.

Lemma header_only_report_witness :
  HAS_ZABBIX (sample_env LeftToRight) = true
  /\ (connect_zabbix (sample_env LeftToRight) "zbx.example.org/zabbix" "report" "secret" ;;
      collect_all (sample_env LeftToRight)
                  (sample_params ["db01"] "/srv/reports/server_metrics.xlsx"))
       sample_world
     = (inr [], snd (main (sample_env LeftToRight)
                          (sample_params ["db01"] "/srv/reports/server_metrics.xlsx")
                          sample_world))
  /\ main (sample_env LeftToRight)
          (sample_params ["db01"] "/srv/reports/server_metrics.xlsx") sample_world
     = (fail_json ("Error collecting metrics: "
                   ++ "Cannot save file into a non-existent directory: '"
                   ++ "/srv/reports" ++ "'"),
        snd (main (sample_env LeftToRight)
                  (sample_params ["db01"] "/srv/reports/server_metrics.xlsx")
                  sample_world)).
Proof.
  assert (HAS_ZABBIX (sample_env LeftToRight) = true) as Hz by reflexivity.
  assert ((connect_zabbix (sample_env LeftToRight) "zbx.example.org/zabbix"
             "report" "secret" ;;
           collect_all (sample_env LeftToRight)
             (sample_params ["db01"] "/srv/reports/server_metrics.xlsx"))
            sample_world
          = (inr [], snd (main (sample_env LeftToRight)
                               (sample_params ["db01"] "/srv/reports/server_metrics.xlsx")
                               sample_world))) as Hrun
    by (vm_compute; reflexivity).
  split; [exact Hz |]. split; [exact Hrun |].
  apply (proj2 (header_only_report (sample_env LeftToRight)
                  (sample_params ["db01"] "/srv/reports/server_metrics.xlsx")
                  sample_world _ Hz Hrun)).
  - vm_compute. discriminate.
  - vm_compute. reflexivity.
Defined.

(** The same table written where the directory exists. *)
Example header_only_report_in_tmp :
  exists w2,
    main (sample_env LeftToRight) (sample_params ["db01"] "/tmp/server_metrics.xlsx")
         sample_world
    = (exit_json true "/tmp/server_metrics.xlsx" []
                 "Successfully collected metrics for 1 hosts", w2)
    /\ read_excel (fs w2) "/tmp/server_metrics.xlsx"
       = Some {| rows := [];
                 columns := ["Server"; "Type"; "unit measurements";
                             "Min"; "Avg"; "Max"] |}.
Proof. eexists. split; vm_compute; reflexivity. Qed.

(* ================================================================== *)
(** * The working-hours windows *)
(* ================================================================== *)

Lemma probe_sound z wall delta c :
  In c (probe z wall delta) -> to_local z (fst c) = wall.
Proof.
  unfold probe.
  destruct (to_local z (wall - utcoffset (info_at z (wall + delta))) =? wall) eqn:E.
  - intros [<- | []]. simpl. now apply Z.eqb_eq.
  - intros [].
Qed.

Lemma possible_sound z wall c :
  In c (possible z wall) -> to_local z (fst c) = wall.
Proof.
  unfold possible. intros H.
  assert (In c (probe z wall (-86400) ++ probe z wall 86400)) as Hin.
  { destruct (probe z wall (-86400)) as [| c1 [| c1' l1]];
      destruct (probe z wall 86400) as [| c2 [| c2' l2]]; try exact H.
    destruct (fst c1 =? fst c2); simpl in *; tauto. }
  apply in_app_or in Hin. destruct Hin as [Hin | Hin];
    eapply probe_sound; exact Hin.
Qed.

Lemma fold_latest_In l : forall c, In (fold_left latest l c) (c :: l).
Proof.
  induction l as [| x l IH]; intros c; simpl.
  - now left.
  - destruct (IH (latest c x)) as [E | Hin].
    + rewrite <- E. unfold latest. destruct (fst c <? fst x); auto.
    + auto.
Qed.

Lemma choose_In cands c : choose cands = Some c -> In c cands.
Proof.
  unfold choose. destruct cands as [| c0 [| c1 rest]]; try discriminate.
  - intros H. inversion H. now left.
  - set (cands := c0 :: c1 :: rest).
    destruct (filter (fun p => negb (dst (snd p))) cands) as [| p [| p' ps]] eqn:F;
      intros H; inversion H; subst; clear H.
    + apply (fold_latest_In (c1 :: rest) c0).
    + assert (In c (filter (fun p => negb (dst (snd p))) cands)) as Hin
        by (rewrite F; now left).
      apply filter_In in Hin. tauto.
    + assert (In (fold_left latest (p' :: ps) p)
                 (filter (fun p => negb (dst (snd p))) cands)) as Hin
        by (rewrite F; apply fold_latest_In).
      apply filter_In in Hin. tauto.
Qed.

Lemma choose_some cands : cands <> [] -> exists c, choose cands = Some c.
Proof.
  unfold choose. destruct cands as [| c0 [| c1 rest]]; intros H.
  - congruence.
  - eauto.
  - destruct (filter (fun p => negb (dst (snd p))) (c0 :: c1 :: rest))
      as [| p [| p' ps]]; eauto.
Qed.

Lemma localize_rec_equation depth z wall :
  localize_rec depth z wall
  = match choose (possible z wall) with
    | Some c => inr c
    | None =>
        match depth with
        | O => inl RecursionError
        | S depth' =>
            match localize_rec depth' z (wall - 21600) with
            | inr (u, inf) => inr (u + 21600, inf)
            | inl e => inl e
            end
        end
    end.
Proof. destruct depth; reflexivity. Qed.

(** A wall-clock time that resolves is localized, at any depth, to an
    instant that shows it. *)
Lemma localize_rec_resolves depth z wall :
  resolves z wall = true ->
  exists u inf, localize_rec depth z wall = inr (u, inf) /\ to_local z u = wall.
Proof.
  unfold resolves. intros H.
  destruct (choose_some (possible z wall)) as [[u inf] Hc].
  { destruct (possible z wall); discriminate. }
  exists u, inf. split.
  - rewrite localize_rec_equation. now rewrite Hc.
  - apply choose_In in Hc. apply possible_sound in Hc. exact Hc.
Qed.

Lemma probe_hit z wall delta :
  info_at z (wall - utcoffset (info_at z (wall + delta))) = info_at z (wall + delta) ->
  probe z wall delta <> [].
Proof.
  intros H. unfold probe, to_local. rewrite H, Z.sub_add, Z.eqb_refl. discriminate.
Qed.

Lemma resolves_of_probe z wall :
  probe z wall (-86400) <> [] \/ probe z wall 86400 <> [] ->
  resolves z wall = true.
Proof.
  unfold resolves, possible.
  destruct (probe z wall (-86400)) as [| c1 [| c1' l1]];
    destruct (probe z wall 86400) as [| c2 [| c2' l2]]; simpl;
    try reflexivity.
  - intros [H | H]; congruence.
  - destruct (fst c1 =? fst c2); reflexivity.
Qed.

(** ** The transition table of a regular zone *)

Lemma entry_at_In trs : forall cur t, In (entry_at cur trs t) (cur :: map snd trs).
Proof.
  induction trs as [| [t0 inf] trs IH]; intros cur t; simpl.
  - now left.
  - destruct (t0 <=? t); [right; apply IH | now left].
Qed.

(** Between two instants with no transition in between, the same entry
    is in force. *)
Lemma entry_at_same trs : forall cur t t',
  t <= t' ->
  (forall tau, In tau (map fst trs) -> ~ (t < tau <= t')) ->
  entry_at cur trs t = entry_at cur trs t'.
Proof.
  induction trs as [| [t0 inf] trs IH]; intros cur t t' Hle Hno; simpl.
  - reflexivity.
  - destruct (Z.leb_spec t0 t), (Z.leb_spec t0 t').
    + apply IH; [exact Hle |]. intros tau Hin. apply Hno. now right.
    + lia.
    + exfalso. apply (Hno t0); [now left | lia].
    + reflexivity.
Qed.

Lemma spaced_tail a trs : spaced (a :: trs) = true -> spaced trs = true.
Proof.
  destruct a as [t1 i1]. destruct trs as [| [t2 i2] rest]; simpl; [reflexivity |].
  intros H. apply andb_true_iff in H. tauto.
Qed.

Lemma spaced_head trs : forall t1 i1 t2,
  spaced ((t1, i1) :: trs) = true -> In t2 (map fst trs) -> t1 + 259200 <= t2.
Proof.
  induction trs as [| [t i] rest IH]; intros t1 i1 t2 H Hin; [contradiction |].
  simpl in H. apply andb_true_iff in H. destruct H as [H1 H2].
  apply Z.leb_le in H1. destruct Hin as [<- | Hin].
  - exact H1.
  - specialize (IH t i t2 H2 Hin). lia.
Qed.

Lemma spaced_far trs : spaced trs = true -> forall t1 t2,
  In t1 (map fst trs) -> In t2 (map fst trs) ->
  t1 = t2 \/ t1 + 259200 <= t2 \/ t2 + 259200 <= t1.
Proof.
  induction trs as [| [t i] rest IH]; intros H t1 t2 H1 H2; [contradiction |].
  pose proof (spaced_tail _ _ H) as Ht.
  destruct H1 as [<- | H1], H2 as [<- | H2].
  - now left.
  - right. left. eapply spaced_head; eauto.
  - right. right. eapply spaced_head; eauto.
  - now apply IH.
Qed.

Lemma regular_spaced z : regular z = true -> spaced (transitions z) = true.
Proof. unfold regular. intros H. apply andb_true_iff in H. tauto. Qed.

Lemma regular_offsets z t :
  regular z = true -> Z.abs (utcoffset (info_at z t)) <= 64800.
Proof.
  unfold regular. intros H. apply andb_true_iff in H. destruct H as [H _].
  rewrite forallb_forall in H. apply Z.leb_le. apply H. apply entry_at_In.
Qed.

(** Around a transition of a regular zone, one entry is in force for the
    three days before and one for the three days from it. *)
Lemma around_transition z tau :
  regular z = true -> In tau (map fst (transitions z)) ->
  (forall x, tau - 259200 < x < tau -> info_at z x = info_at z (tau - 1))
  /\ (forall x, tau <= x < tau + 259200 -> info_at z x = info_at z tau).
Proof.
  intros R Hin. pose proof (spaced_far _ (regular_spaced _ R)) as Far.
  split; intros x Hx; unfold info_at.
  - apply entry_at_same; [lia |]. intros t Ht Hr.
    destruct (Far t tau Ht Hin) as [E | [E | E]]; lia.
  - symmetry. apply entry_at_same; [lia |]. intros t Ht Hr.
    destruct (Far t tau Ht Hin) as [E | [E | E]]; lia.
Qed.

(** In a regular zone a wall-clock time resolves, or falls in the hole
    of a transition. *)
Lemma gap_or_resolves z wall :
  regular z = true ->
  resolves z wall = true \/ exists tau before after, in_gap z tau before after wall.
Proof.
  intros R.
  destruct (existsb (fun tau => (wall - 86400 <? tau) && (tau <=? wall + 86400))
                    (map fst (transitions z))) eqn:E.
  - apply existsb_exists in E. destruct E as (tau & Hin & Hr).
    apply andb_true_iff in Hr. destruct Hr as [Hlo Hhi].
    apply Z.ltb_lt in Hlo. apply Z.leb_le in Hhi.
    destruct (around_transition z tau R Hin) as [Hb Ha].
    pose proof (regular_offsets z (tau - 1) R) as Ob.
    pose proof (regular_offsets z tau R) as Oa.
    assert (info_at z (wall + -86400) = info_at z (tau - 1)) as E1
      by (apply Hb; lia).
    assert (info_at z (wall + 86400) = info_at z tau) as E2
      by (apply Ha; lia).
    destruct (Z_lt_le_dec (wall - utcoffset (info_at z (tau - 1))) tau) as [L1 | G1].
    + left. apply resolves_of_probe. left. apply probe_hit.
      rewrite E1. apply Hb. lia.
    + destruct (Z_lt_le_dec (wall - utcoffset (info_at z tau)) tau) as [L2 | G2].
      * right. exists tau, (info_at z (tau - 1)), (info_at z tau).
        unfold in_gap. repeat split; try assumption; lia.
      * left. apply resolves_of_probe. right. apply probe_hit.
        rewrite E2. apply Ha. lia.
  - left. apply resolves_of_probe. left. apply probe_hit.
    pose proof (regular_offsets z (wall + -86400) R) as O.
    unfold info_at in *. symmetry. apply entry_at_same; [lia |].
    intros tau Hin Hr.
    assert (existsb (fun tau => (wall - 86400 <? tau) && (tau <=? wall + 86400))
                    (map fst (transitions z)) = true) as C.
    { apply existsb_exists. exists tau. split; [exact Hin |].
      apply andb_true_iff. split; [apply Z.ltb_lt | apply Z.leb_le]; lia. }
    congruence.
Qed.

(** No instant shows a wall-clock time that falls in a hole. *)
Lemma gap_not_wall_clock z tau before after wall :
  regular z = true -> in_gap z tau before after wall -> ~ wall_clock_time z wall.
Proof.
  intros R (Hb & Ha & Ob & Oa & Hw) [u Hu]. unfold to_local in Hu.
  pose proof (regular_offsets z u R) as O.
  destruct (Z_lt_le_dec u tau) as [L | G].
  - rewrite (Hb u) in Hu by lia. lia.
  - rewrite (Ha u) in Hu by lia. lia.
Qed.

Lemma wall_clock_resolves z wall :
  regular z = true -> wall_clock_time z wall -> resolves z wall = true.
Proof.
  intros R H. destruct (gap_or_resolves z wall R) as [Hr | (tau & b & a & G)].
  - exact Hr.
  - exfalso. exact (gap_not_wall_clock _ _ _ _ _ R G H).
Qed.




Lemma localize_shows z wall u inf :
  regular z = true -> localize z wall = inr (u, inf) ->
  wall_clock_time z wall -> to_local z u = wall.
Proof.
  intros R H Hw. apply (wall_clock_resolves z wall R) in Hw.
  destruct (localize_rec_resolves recursion_limit z wall Hw) as (u' & inf' & H' & E).
  unfold localize in H. rewrite H' in H. now inversion H; subst.
Qed.








(** The zone of the default time zone, too, is regular. *)
Example yekaterinburg_regular : regular yekaterinburg = true.
Proof. reflexivity. Qed.

(** Athens never showed 09:00 on 1 April 1979 (day 3377). *)
Example athens_nine_skipped : ~ wall_clock_time athens (combine 3377 9).
Proof.
  intros H. apply wall_clock_resolves in H; [| vm_compute; reflexivity].
  vm_compute in H. discriminate.
Qed.


(* ================================================================== *)
(** * The statistics *)
(* ================================================================== *)

Lemma finite_no_nan values : all_finite values -> no_nan values.
Proof.
  unfold all_finite, no_nan. apply Forall_impl. intros v H. now destruct v.
Qed.

Lemma statistics_rounded alg values avg mn mx :
  statistics alg values = Some (avg, mn, mx) ->
  all_finite values ->
  rounded_statistics alg values avg mn mx.
Proof.
  intros H Hf. pose proof (statistics_length _ _ _ H) as L.
  pose proof (finite_no_nan _ Hf) as Hn.
  destruct values as [| x [| y rest]]; try discriminate.
  set (tail := y :: rest) in *.
  unfold statistics in H. fold tail in H. inversion H; subst avg mn mx; clear H.
  destruct (py_min_least tail x Hn) as [Imin Lmin].
  destruct (py_max_greatest tail x Hn) as [Imax Lmax].
  unfold all_finite in Hf. rewrite Forall_forall in Hf.
  split; [exact L |]. split; [| split].
  - exists (py_min x tail). repeat split.
    + exact Imin.
    + intros v Hv. apply fle_key.
      * exact (no_nan_In _ _ Hn Imin).
      * exact (no_nan_In _ _ Hn Hv).
      * now apply Lmin.
    + apply round1_exact_finite. now apply Hf.
  - exists (py_max x tail). repeat split.
    + exact Imax.
    + intros v Hv. apply fle_key.
      * exact (no_nan_In _ _ Hn Hv).
      * exact (no_nan_In _ _ Hn Imax).
      * now apply Lmax.
    + apply round1_exact_finite. now apply Hf.
  - reflexivity.
Qed.

Lemma add_day_days alg day d hist a :
  In a (list_of_days (add_day alg day d hist)) ->
  In a (list_of_days d)
  \/ exists avg mn mx,
       statistics alg (map value hist) = Some (avg, mn, mx)
       /\ d_date a = date day
       /\ d_avg a = avg /\ d_min a = mn /\ d_max a = mx.
Proof.
  destruct hist as [| s hist]; [simpl; now left |].
  unfold add_day. cbn [list_of_days].
  destruct (statistics alg (map value (s :: hist))) as [[[avg mn] mx] |].
  - intros H. apply in_app_or in H. destruct H as [H | [<- | []]].
    + now left.
    + right. exists avg, mn, mx. simpl. auto.
  - now left.
Qed.

Lemma after_days_days env days : forall d a,
  In a (list_of_days (after_days env days d)) ->
  In a (list_of_days d)
  \/ exists day avg mn mx,
       In day days
       /\ statistics (sum_alg env) (map value (answered env (item d) day))
          = Some (avg, mn, mx)
       /\ d_date a = date day
       /\ d_avg a = avg /\ d_min a = mn /\ d_max a = mx.
Proof.
  induction days as [| day days IH]; intros d a H.
  - now left.
  - rewrite after_days_cons in H. apply IH in H.
    destruct H as [H | (day' & avg & mn & mx & Hin & Hs & Hrest)].
    + apply add_day_days in H. destruct H as [H | (avg & mn & mx & Hs & Hrest)].
      * now left.
      * right. exists day, avg, mn, mx. split; [now left | auto].
    + right. exists day', avg, mn, mx. rewrite add_day_item in Hs.
      split; [now right | auto].
Qed.

Lemma finite_answered env it days day :
  all_finite (map value (retrieved env it days)) -> In day days ->
  all_finite (map value (answered env it day)).
Proof.
  unfold all_finite, retrieved. rewrite !Forall_forall. intros H Hd v Hv.
  apply H. apply in_map_iff in Hv. destruct Hv as (s & <- & Hs).
  apply in_map. apply in_flat_map. eauto.
Qed.

(** C8, as the code has it: in the dict of a resolved item after the
    loops, every daily aggregate and the total aggregate come from at
    least 2 finite samples; the stored min is the least sample and the
    stored max the greatest sample, each rounded to one decimal place; the
    stored avg is the floating-point mean, the float sum divided by the
    count, rounded to one decimal place. *)
Theorem aggregates_rounded env host_id host_real_name host_name days it :
  all_finite (map value (retrieved env it days)) ->
  let d := add_total (sum_alg env)
             (after_days env days (init_item host_id host_real_name host_name it)) in
  (forall a, In a (list_of_days d) ->
     exists day, In day days /\ d_date a = date day
       /\ rounded_statistics (sum_alg env) (map value (answered env it day))
                             (d_avg a) (d_min a) (d_max a))
  /\ (forall t, In t (list_of_total d) ->
        rounded_statistics (sum_alg env) (map value (retrieved env it days))
                           (t_avg t) (t_min t) (t_max t)).
Proof.
  intros Hf d. subst d. unfold add_total.
  rewrite after_days_history, after_days_item. simpl list_of_history_for_total.
  simpl app. simpl item.
  assert (forall a,
            In a (list_of_days
                    (after_days env days (init_item host_id host_real_name host_name it))) ->
            exists day, In day days /\ d_date a = date day
              /\ rounded_statistics (sum_alg env) (map value (answered env it day))
                                    (d_avg a) (d_min a) (d_max a)) as Hdays.
  { intros a Ha. apply after_days_days in Ha.
    destruct Ha as [[] | (day & avg & mn & mx & Hin & Hs & Hd & <- & <- & <-)].
    exists day. split; [exact Hin |]. split; [exact Hd |].
    apply statistics_rounded; [exact Hs |].
    eapply finite_answered; eauto. }
  destruct (statistics (sum_alg env) (map value (retrieved env it days)))
    as [[[avg mn] mx] |] eqn:Hs.
  - split; [exact Hdays |]. cbn [list_of_total].
    rewrite after_days_total. simpl. intros t [<- | []]. simpl.
    now apply statistics_rounded.
  - split; [exact Hdays |]. rewrite after_days_total. simpl. intros t [].
Qed.

Lemma aggregates_rounded_witness :
  let env := sample_env Compensated in
  let it := {| itemid := "101"; name := "CPU utilization";
               key_ := "system.cpu.util"; units := "" |} in
  let days := [ {| date := 20760; time_from := 1793678400; time_till := 1793710800 |};
                {| date := 20759; time_from := 1793592000; time_till := 1793624400 |} ] in
  all_finite (map value (retrieved env it days))
  /\ let d := add_total (sum_alg env)
                (after_days env days (init_item "10084" "web01.example.org" "web01" it)) in
     (forall a, In a (list_of_days d) ->
        exists day, In day days /\ d_date a = date day
          /\ rounded_statistics (sum_alg env) (map value (answered env it day))
                                (d_avg a) (d_min a) (d_max a))
     /\ (forall t, In t (list_of_total d) ->
           rounded_statistics (sum_alg env) (map value (retrieved env it days))
                              (t_avg t) (t_min t) (t_max t)).
Proof.
  intros env it days.
  assert (all_finite (map value (retrieved env it days))) as Hf.
  { vm_compute. repeat constructor. }
  split; [exact Hf |].
  exact (aggregates_rounded env "10084" "web01.example.org" "web01" days it Hf).
Defined.

(** C8 as stated fails for the average.  For the samples 0.05 and 0.25
    the exact mean is just above 0.15 and rounds to 0.2; the float sum is
    the double below 0.3, its half prints as 0.1, and 0.1 is what the code
    stores, whichever way the interpreter sums. *)
Lemma average_is_not_the_exact_mean :
  round1_Q (exact_mean two_samples) = dec 2 1
  /\ (forall alg, exists mn mx,
        statistics alg two_samples = Some (dec 1 1, mn, mx))
  /\ dec 1 1 <> dec 2 1.
Proof.
  split; [vm_compute; reflexivity |]. split.
  - intros []; eexists; eexists; vm_compute; reflexivity.
  - vm_compute. discriminate.
Qed.

(** C6, as the code has it: for two orders of the same samples, none of
    them NaN, the stored min and the stored max are the same numbers (the
    sign of a zero apart).  Nothing is said of the stored avg. *)
Theorem min_max_order_independent alg values values' avg mn mx :
  Permutation values values' ->
  no_nan values ->
  statistics alg values = Some (avg, mn, mx) ->
  exists avg' mn' mx',
    statistics alg values' = Some (avg', mn', mx')
    /\ same_value mn mn' /\ same_value mx mx'.
Proof.
  intros P Hn H.
  pose proof (statistics_length _ _ _ H) as L.
  rewrite (Permutation_length P) in L.
  destruct values as [| x [| y rest]]; try discriminate.
  destruct values' as [| x' [| y' rest']]; simpl in L; try lia.
  set (tail := y :: rest) in *. set (tail' := y' :: rest') in *.
  unfold statistics in H. fold tail in H. inversion H; subst avg mn mx; clear H.
  eexists. eexists. eexists. split.
  - unfold statistics. fold tail'. reflexivity.
  - split; apply round1_same_value.
    + exact (py_min_perm x tail x' tail' P Hn).
    + exact (py_max_perm x tail x' tail' P Hn).
Qed.

Lemma min_max_order_independent_witness :
  Permutation four_samples four_samples_reversed
  /\ no_nan four_samples
  /\ statistics LeftToRight four_samples
     = Some (dec 2 1, S754_zero false, of_Z 1)
  /\ exists avg' mn' mx',
       statistics LeftToRight four_samples_reversed = Some (avg', mn', mx')
       /\ same_value (S754_zero false) mn' /\ same_value (of_Z 1) mx'.
Proof.
  assert (Permutation four_samples four_samples_reversed) as P
    by apply (Permutation_rev four_samples).
  assert (no_nan four_samples) as Hn by (vm_compute; repeat constructor).
  assert (statistics LeftToRight four_samples
          = Some (dec 2 1, S754_zero false, of_Z 1)) as H
    by (vm_compute; reflexivity).
  split; [exact P |]. split; [exact Hn |]. split; [exact H |].
  exact (min_max_order_independent LeftToRight four_samples four_samples_reversed
           _ _ _ P Hn H).
Defined.

(** C6 as stated fails for the average.  The samples 1, 2^-53, 2^-106,
    2^-106 give the stored avg 0.2 in that order and 0.3 in the reverse
    order, whichever way the interpreter sums: in the first order the small
    terms are lost one by one against 1 (or against the tie in the
    compensation), in the second they add up first. *)
Lemma order_changes_average :
  Permutation four_samples four_samples_reversed
  /\ (2 <= List.length four_samples)%nat
  /\ (forall alg, exists mn mx,
        statistics alg four_samples = Some (dec 2 1, mn, mx)
        /\ statistics alg four_samples_reversed = Some (dec 3 1, mn, mx))
  /\ dec 2 1 <> dec 3 1.
Proof.
  split; [apply (Permutation_rev four_samples) |].
  split; [simpl; lia |]. split.
  - intros []; eexists; eexists; split; vm_compute; reflexivity.
  - vm_compute. discriminate.
Qed.

(** With plain left-to-right summing, everyday values do it too:
    3.68, 15.9, 3.07 average to 7.6, and 3.68, 3.07, 15.9 to 7.5. *)
Example order_changes_average_left_to_right :
  exists mn mx,
    statistics LeftToRight [dec 368 2; dec 159 1; dec 307 2] = Some (dec 76 1, mn, mx)
    /\ statistics LeftToRight [dec 368 2; dec 307 2; dec 159 1] = Some (dec 75 1, mn, mx).
Proof. eexists. eexists. split; vm_compute; reflexivity. Qed.

(* ================================================================== *)
(** * The requests of a run, one by one *)
(* ================================================================== *)

Lemma send_trace {A} r (answer : exn + A) w x w' :
  send r answer w = (x, w') ->
  x = answer /\ requests w' = (requests w ++ [r])%list
  /\ clock_reads w' = clock_reads w /\ fs w' = fs w.
Proof. unfold send. intros H. inversion H; subst. simpl. auto. Qed.

Lemma get_host_id_trace env h w hid hreal w1 :
  get_host_id env h w = (inr (hid, hreal), w1) ->
  (exists hst rest, host_get (zabbix env) h = inr (hst :: rest)
                    /\ hid = hostid hst /\ hreal = host hst)
  /\ requests w1 = (requests w ++ [ReqHostGet h])%list
  /\ clock_reads w1 = clock_reads w.
Proof.
  unfold get_host_id. intros H. run_step H.
  apply send_trace in Hrun. destruct Hrun as (Ea & Er & Ec & _).
  destruct a as [| hst rest].
  - discriminate.
  - apply ret_inr in H. destruct H as [E <-]. inversion E; subst.
    split; [eauto |]. auto.
Qed.

Lemma get_timestamp_run env tz n w days w' :
  get_timestamp_ekb2timestamp env tz n w = (inr days, w') ->
  exists z,
    tz_database env tz = Some z
    /\ day_windows z (base_date z (wall_clock env (clock_reads w))) (range (n + 1))
       = inr days
    /\ requests w' = requests w
    /\ clock_reads w' = S (clock_reads w)
    /\ fs w' = fs w.
Proof.
  unfold get_timestamp_ekb2timestamp, pytz_timezone. intros H.
  destruct (tz_database env tz) as [z |].
  - exists z. split; [reflexivity |].
    unfold bind, ret, datetime_now in H. simpl in H.
    destruct (day_windows z (base_date z (wall_clock env (clock_reads w)))
                (range (n + 1))) as [e | ws]; simpl in H.
    + discriminate.
    + inversion H; subst. simpl. auto.
  - discriminate.
Qed.

Lemma day_windows_length z base indices : forall ws,
  day_windows z base indices = inr ws -> List.length ws = List.length indices.
Proof.
  induction indices as [| i indices IH]; simpl; intros ws H.
  - now inversion H.
  - destruct (day_window z base i) as [e | d]; [discriminate |].
    destruct (day_windows z base indices) as [e | ws']; [discriminate |].
    inversion H; subst. simpl. f_equal. now apply IH.
Qed.

Lemma range_length n : List.length (range n) = Z.to_nat n.
Proof. unfold range. now rewrite length_map, length_seq. Qed.

Lemma resolve_items_trace env hid keys : forall acc w items w',
  foldM (fun items key =>
           item_result <- get_item env hid key ;;
           match item_result with
           | [] => ret items
           | it :: _ => ret (items ++ [it])%list
           end) keys acc w = (inr items, w') ->
  requests w' = (requests w ++ map (ReqItemSearch hid) keys)%list
  /\ clock_reads w' = clock_reads w.
Proof.
  induction keys as [| key keys IH]; simpl; intros acc w items w' H.
  - apply ret_inr in H. destruct H as [_ <-]. now rewrite app_nil_r.
  - run_step H. run_step Hrun. unfold get_item in Hrun0.
    apply send_trace in Hrun0. destruct Hrun0 as (_ & Er & Ec & _).
    assert (w1 = w0) as ->.
    { destruct a0; apply ret_inr in Hrun; now destruct Hrun. }
    apply IH in H. destruct H as [Er' Ec'].
    rewrite Er', Er, Ec', Ec, <- app_assoc. auto.
Qed.

Lemma mapM_collect_day_trace env day items : forall w items' w',
  mapM (collect_day env day) items w = (inr items', w') ->
  requests w'
  = (requests w ++ map (fun d => ReqHistoryGet (history_request (item d) day)) items)%list
  /\ clock_reads w' = clock_reads w
  /\ forall d, In d items ->
       exists hist, history_get (zabbix env) (history_request (item d) day) = inr hist.
Proof.
  induction items as [| d items IH]; simpl; intros w items' w' H.
  - apply ret_inr in H. destruct H as [_ <-]. rewrite app_nil_r.
    repeat split. intros d [].
  - run_step H. run_step H. apply ret_inr in H. destruct H as [_ <-].
    unfold collect_day in Hrun. run_step Hrun.
    apply ret_inr in Hrun. destruct Hrun as [_ <-].
    apply send_trace in Hrun1. destruct Hrun1 as (Ea & Er & Ec & _).
    apply IH in Hrun0. destruct Hrun0 as (Er' & Ec' & Hall).
    rewrite Er', Er, Ec', Ec, <- app_assoc. repeat split.
    intros d' [<- | Hin]; [eauto | now apply Hall].
Qed.

Lemma history_requests_cons day days items :
  history_requests (day :: days) items
  = (map (fun it => ReqHistoryGet (history_request it day)) items
     ++ history_requests days items)%list.
Proof. reflexivity. Qed.

Lemma history_requests_none days : history_requests days [] = [].
Proof. induction days as [| day days IH]; [reflexivity | exact IH]. Qed.

Lemma history_requests_length days items :
  List.length (history_requests days items)
  = (List.length days * List.length items)%nat.
Proof.
  induction days as [| day days IH]; [reflexivity |].
  rewrite history_requests_cons, length_app, length_map, IH. reflexivity.
Qed.

Lemma collect_history_trace env days : forall items w items' w',
  collect_history env days items w = (inr items', w') ->
  requests w' = (requests w ++ history_requests days (map item items))%list
  /\ clock_reads w' = clock_reads w
  /\ forall day d, In day days -> In d items ->
       exists hist, history_get (zabbix env) (history_request (item d) day) = inr hist.
Proof.
  unfold collect_history.
  induction days as [| day days IH]; intros items w items' w' H; cbn [foldM] in H.
  - apply ret_inr in H. destruct H as [_ <-]. simpl. rewrite app_nil_r.
    repeat split. intros day d [].
  - run_step H. pose proof (mapM_collect_day _ _ _ _ _ _ Hrun) as Ea.
    apply mapM_collect_day_trace in Hrun. destruct Hrun as (Er & Ec & Hall).
    apply IH in H. destruct H as (Er' & Ec' & Hall').
    assert (map item a = map item items) as Ei.
    { subst a. rewrite map_map. apply map_ext. intros d. apply add_day_item. }
    rewrite Er', Er, Ec', Ec, Ei, history_requests_cons, map_map, <- app_assoc.
    repeat split.
    intros day' d [<- | Hin] Hd; [now apply Hall |].
    assert (In (item d) (map item a)) as Hi by (rewrite Ei; now apply in_map).
    apply in_map_iff in Hi. destruct Hi as (d' & Ed' & Hd').
    rewrite <- Ed'. now apply Hall'.
Qed.

(** What a run of [collect_host_metrics] that returns has sent and read,
    and what the server answered on the way. *)
Lemma collect_host_metrics_trace env host_name days_back tz w table w' :
  collect_host_metrics env host_name days_back tz w = (inr table, w') ->
  exists hst rest all_items z days,
    host_get (zabbix env) host_name = inr (hst :: rest)
    /\ item_get_enabled (zabbix env) (hostid hst) = inr all_items
    /\ tz_database env tz = Some z
    /\ day_windows z (base_date z (wall_clock env (clock_reads w)))
                   (range (days_back + 1)) = inr days
    /\ table = flat_map (contribution env (hostid hst) (host hst) host_name days)
                 (flat_map (first_match env (hostid hst)) (matching_keys all_items))
    /\ requests w'
       = (requests w
          ++ [ReqHostGet host_name; ReqItemGetEnabled (hostid hst)]
          ++ map (ReqItemSearch (hostid hst)) (matching_keys all_items)
          ++ history_requests days
               (flat_map (first_match env (hostid hst)) (matching_keys all_items)))%list
    /\ clock_reads w' = S (clock_reads w)
    /\ forall day it,
         In day days ->
         In it (flat_map (first_match env (hostid hst)) (matching_keys all_items)) ->
         exists hist, history_get (zabbix env) (history_request it day) = inr hist.
Proof.
  unfold collect_host_metrics. intros H.
  run_step H. destruct a as [hid hreal].
  run_step H. run_step H. run_step H.
  apply get_host_id_trace in Hrun.
  destruct Hrun as ((hst & rest & Eh & -> & ->) & Er0 & Ec0).
  apply send_trace in Hrun0. destruct Hrun0 as (Ea & Er1 & Ec1 & _).
  apply get_timestamp_run in Hrun1.
  destruct Hrun1 as (z & Ez & Ed & Er2 & Ec2 & _).
  pose proof (resolve_items_run _ _ _ _ _ _ Hrun2) as Ei.
  unfold resolve_items in Hrun2. apply resolve_items_trace in Hrun2.
  destruct Hrun2 as [Er3 Ec3].
  rewrite Ec1, Ec0 in Ed.
  exists hst, rest, a, z, a0.
  split; [exact Eh |]. split; [now symmetry |]. split; [exact Ez |].
  split; [exact Ed |]. rewrite <- Ei.
  destruct a1 as [| it items].
  - apply ret_inr in H. destruct H as [<- <-].
    rewrite history_requests_none, app_nil_r.
    split; [reflexivity |].
    split; [rewrite Er3, Er2, Er1, Er0, <- !app_assoc; reflexivity |].
    split; [rewrite Ec3, Ec2, Ec1, Ec0; reflexivity |].
    intros day it _ [].
  - run_step H. apply ret_inr in H. destruct H as [<- <-].
    pose proof (collect_history_run _ _ _ _ _ _ Hrun) as Ec.
    apply collect_history_trace in Hrun. destruct Hrun as (Er4 & Ec4 & Hall).
    rewrite map_map in Er4. cbn [item init_item] in Er4. rewrite map_id in Er4.
    split; [subst; rewrite !flat_map_map; reflexivity |].
    split; [rewrite Er4, Er3, Er2, Er1, Er0, <- !app_assoc; reflexivity |].
    split; [rewrite Ec4, Ec3, Ec2, Ec1, Ec0; reflexivity |].
    intros day it' Hday Hit.
    apply (Hall day (init_item (hostid hst) (host hst) host_name it') Hday).
    now apply in_map.
Qed.

(** Runs, forwards. *)
Lemma bind_ok {A B} (m : M A) (k : A -> M B) w a w1 :
  m w = (inr a, w1) -> bind m k w = k a w1.
Proof. unfold bind. now intros ->. Qed.

Lemma bind_err {A B} (m : M A) (k : A -> M B) w e w1 :
  m w = (inl e, w1) -> bind m k w = (inl e, w1).
Proof. unfold bind. now intros ->. Qed.

Lemma get_host_id_ok env h w hst rest :
  host_get (zabbix env) h = inr (hst :: rest) ->
  get_host_id env h w
  = (inr (hostid hst, host hst),
     {| requests := requests w ++ [ReqHostGet h];
        clock_reads := clock_reads w; fs := fs w |}).
Proof. intros E. unfold get_host_id, bind, send. now rewrite E. Qed.


Lemma get_timestamp_unknown env tz n w :
  tz_database env tz = None ->
  get_timestamp_ekb2timestamp env tz n w = (inl (UnknownTimeZoneError tz), w).
Proof.
  intros Ez. unfold get_timestamp_ekb2timestamp, pytz_timezone, bind.
  now rewrite Ez.
Qed.

Lemma filter_none {A} (p : A -> bool) l :
  forallb (fun x => negb (p x)) l = true -> filter p l = [].
Proof.
  induction l as [| x l IH]; simpl; [reflexivity |].
  intros H. apply andb_true_iff in H. destruct H as [Hx Hl].
  destruct (p x); [discriminate | now apply IH].
Qed.


Lemma no_history_requests (l : list request) :
  forallb (fun r => negb (is_history_request r)) l = true ->
  filter is_history_request l = [].
Proof. apply filter_none. Qed.

(* ================================================================== *)
(** * Further properties of [collect_host_metrics] *)
(* ================================================================== *)

(** X1: a run of [collect_host_metrics] that returns a table has sent, in
    this order: the host lookup, the listing of the enabled items, one item
    search per matching key, and then, window by window, one history
    request per resolved item.  It has read the clock once.  The history
    requests number (windows) x (resolved items), and there are
    [days_back + 1] windows (none for a negative look-back). *)
Theorem host_request_trace env host_name days_back tz w table w' :
  collect_host_metrics env host_name days_back tz w = (inr table, w') ->
  exists hst rest all_items z days,
    host_get (zabbix env) host_name = inr (hst :: rest)
    /\ item_get_enabled (zabbix env) (hostid hst) = inr all_items
    /\ tz_database env tz = Some z
    /\ day_windows z (base_date z (wall_clock env (clock_reads w)))
                   (range (days_back + 1)) = inr days
    /\ List.length days = Z.to_nat (days_back + 1)
    /\ let keys := matching_keys all_items in
       let items := flat_map (first_match env (hostid hst)) keys in
       requests w'
       = (requests w
          ++ [ReqHostGet host_name; ReqItemGetEnabled (hostid hst)]
          ++ map (ReqItemSearch (hostid hst)) keys
          ++ history_requests days items)%list
       /\ List.length (history_requests days items)
          = (Z.to_nat (days_back + 1) * List.length items)%nat
       /\ clock_reads w' = S (clock_reads w).
Proof.
  intros H. apply collect_host_metrics_trace in H.
  destruct H as (hst & rest & all_items & z & days
                 & Eh & Ei & Ez & Ed & _ & Er & Ec & _).
  exists hst, rest, all_items, z, days.
  pose proof (day_windows_length _ _ _ _ Ed) as L. rewrite range_length in L.
  split; [exact Eh |]. split; [exact Ei |]. split; [exact Ez |].
  split; [exact Ed |]. split; [exact L |]. cbv zeta.
  split; [exact Er |]. split; [| exact Ec].
  now rewrite history_requests_length, L.
Qed.

Lemma host_request_trace_witness :
  collect_host_metrics (sample_env LeftToRight) "web01" 1 "Asia/Yekaterinburg"
                       sample_world
  = (inr (sample_table LeftToRight), snd (sample_run LeftToRight))
  /\ exists hst rest all_items z days,
       host_get (zabbix (sample_env LeftToRight)) "web01" = inr (hst :: rest)
       /\ item_get_enabled (zabbix (sample_env LeftToRight)) (hostid hst)
          = inr all_items
       /\ tz_database (sample_env LeftToRight) "Asia/Yekaterinburg" = Some z
       /\ day_windows z (base_date z (wall_clock (sample_env LeftToRight)
                                                (clock_reads sample_world)))
                      (range (1 + 1)) = inr days
       /\ List.length days = Z.to_nat (1 + 1)
       /\ let keys := matching_keys all_items in
          let items := flat_map (first_match (sample_env LeftToRight) (hostid hst))
                                keys in
          requests (snd (sample_run LeftToRight))
          = (requests sample_world
             ++ [ReqHostGet "web01"; ReqItemGetEnabled (hostid hst)]
             ++ map (ReqItemSearch (hostid hst)) keys
             ++ history_requests days items)%list
          /\ List.length (history_requests days items)
             = (Z.to_nat (1 + 1) * List.length items)%nat
          /\ clock_reads (snd (sample_run LeftToRight))
             = S (clock_reads sample_world).
Proof.
  assert (collect_host_metrics (sample_env LeftToRight) "web01" 1
            "Asia/Yekaterinburg" sample_world
          = (inr (sample_table LeftToRight), snd (sample_run LeftToRight))) as Hrun
    by (vm_compute; reflexivity).
  split; [exact Hrun |].
  exact (host_request_trace (sample_env LeftToRight) "web01" 1 "Asia/Yekaterinburg"
           sample_world _ _ Hrun).
Defined.

(** The run on web01 sends 2 + 6 + 2 x 6 = 20 requests. *)
Example web01_requests :
  List.length (requests (snd (sample_run LeftToRight))) = 20%nat
  /\ List.length (filter is_history_request (requests (snd (sample_run LeftToRight))))
     = 12%nat.
Proof. vm_compute. split; reflexivity. Qed.

(** X2: a table is returned only when the server answered every history
    request of every resolved item and window with a result; the rows are
    then the contributions of the resolved items, computed from exactly
    those answers.  One history request that raises loses the table of
    the host. *)
Theorem every_query_answered env host_name days_back tz w table w' :
  collect_host_metrics env host_name days_back tz w = (inr table, w') ->
  exists hst rest all_items z days,
    host_get (zabbix env) host_name = inr (hst :: rest)
    /\ item_get_enabled (zabbix env) (hostid hst) = inr all_items
    /\ tz_database env tz = Some z
    /\ day_windows z (base_date z (wall_clock env (clock_reads w)))
                   (range (days_back + 1)) = inr days
    /\ let items := flat_map (first_match env (hostid hst)) (matching_keys all_items) in
       table = flat_map (contribution env (hostid hst) (host hst) host_name days) items
       /\ forall day it, In day days -> In it items ->
            exists hist,
              history_get (zabbix env) (history_request it day) = inr hist
              /\ answered env it day = hist.
Proof.
  intros H. apply collect_host_metrics_trace in H.
  destruct H as (hst & rest & all_items & z & days
                 & Eh & Ei & Ez & Ed & Et & _ & _ & Hall).
  exists hst, rest, all_items, z, days.
  split; [exact Eh |]. split; [exact Ei |]. split; [exact Ez |].
  split; [exact Ed |]. cbv zeta. split; [exact Et |].
  intros day it Hday Hit. destruct (Hall day it Hday Hit) as [hist E].
  exists hist. split; [exact E |]. unfold answered. now rewrite E.
Qed.

Lemma every_query_answered_witness :
  collect_host_metrics (sample_env Compensated) "web01" 1 "Asia/Yekaterinburg"
                       sample_world
  = (inr (sample_table Compensated), snd (sample_run Compensated))
  /\ exists hst rest all_items z days,
       host_get (zabbix (sample_env Compensated)) "web01" = inr (hst :: rest)
       /\ item_get_enabled (zabbix (sample_env Compensated)) (hostid hst)
          = inr all_items
       /\ tz_database (sample_env Compensated) "Asia/Yekaterinburg" = Some z
       /\ day_windows z (base_date z (wall_clock (sample_env Compensated)
                                                (clock_reads sample_world)))
                      (range (1 + 1)) = inr days
       /\ let items := flat_map (first_match (sample_env Compensated) (hostid hst))
                                (matching_keys all_items) in
          sample_table Compensated
          = flat_map (contribution (sample_env Compensated) (hostid hst)
                                   (host hst) "web01" days) items
          /\ forall day it, In day days -> In it items ->
               exists hist,
                 history_get (zabbix (sample_env Compensated)) (history_request it day)
                 = inr hist
                 /\ answered (sample_env Compensated) it day = hist.
Proof.
  assert (collect_host_metrics (sample_env Compensated) "web01" 1
            "Asia/Yekaterinburg" sample_world
          = (inr (sample_table Compensated), snd (sample_run Compensated))) as Hrun
    by (vm_compute; reflexivity).
  split; [exact Hrun |].
  exact (every_query_answered (sample_env Compensated) "web01" 1 "Asia/Yekaterinburg"
           sample_world _ _ Hrun).
Defined.

Lemma range_nonpositive n : n <= 0 -> range n = [].
Proof.
  intros H. unfold range.
  assert (Z.to_nat n = 0%nat) as -> by lia. reflexivity.
Qed.

Lemma filter_app_none {A} (p : A -> bool) l1 l2 :
  filter p l1 = [] -> filter p l2 = [] -> filter p (l1 ++ l2) = [].
Proof. intros H1 H2. now rewrite filter_app, H1, H2. Qed.

Lemma searches_no_history hid keys :
  filter is_history_request (map (ReqItemSearch hid) keys) = [].
Proof. induction keys as [| k keys IH]; [reflexivity | exact IH]. Qed.

Lemma flat_map_nil_all {A B} (f : A -> list B) l :
  (forall x, In x l -> f x = []) -> flat_map f l = [].
Proof.
  induction l as [| x l IH]; intros H; [reflexivity |].
  simpl. rewrite (H x) by now left. apply IH. intros y Hy. apply H. now right.
Qed.

(** X3: with a negative look-back the loop over [range(days_back + 1)]
    makes no window: a run that returns has sent no history request, and its
    table is empty, whatever the host has. *)
Theorem negative_look_back env host_name days_back tz w table w' :
  days_back < 0 ->
  collect_host_metrics env host_name days_back tz w = (inr table, w') ->
  table = []
  /\ exists new, requests w' = (requests w ++ new)%list
                 /\ filter is_history_request new = [].
Proof.
  intros Hn H. apply collect_host_metrics_trace in H.
  destruct H as (hst & rest & all_items & z & days
                 & _ & _ & _ & Ed & Et & Er & _ & _).
  rewrite range_nonpositive in Ed by lia. simpl in Ed. inversion Ed; subst days.
  split.
  - subst table. apply flat_map_nil_all. intros it _.
    apply contribution_none. simpl. lia.
  - eexists. split; [exact Er |]. cbn [history_requests flat_map].
    rewrite app_nil_r. cbn [app filter is_history_request].
    apply searches_no_history.
Qed.

Lemma negative_look_back_witness :
  -1 < 0
  /\ collect_host_metrics (sample_env LeftToRight) "web01" (-1) "Asia/Yekaterinburg"
                          sample_world
     = (inr [], snd (collect_host_metrics (sample_env LeftToRight) "web01" (-1)
                                          "Asia/Yekaterinburg" sample_world))
  /\ (@nil report_row = []
      /\ exists new,
           requests (snd (collect_host_metrics (sample_env LeftToRight) "web01" (-1)
                                               "Asia/Yekaterinburg" sample_world))
           = (requests sample_world ++ new)%list
           /\ filter is_history_request new = []).
Proof.
  assert (-1 < 0) as Hn by lia.
  assert (collect_host_metrics (sample_env LeftToRight) "web01" (-1)
            "Asia/Yekaterinburg" sample_world
          = (inr [], snd (collect_host_metrics (sample_env LeftToRight) "web01" (-1)
                                               "Asia/Yekaterinburg" sample_world)))
    as Hrun by (vm_compute; reflexivity).
  split; [exact Hn |]. split; [exact Hrun |].
  exact (negative_look_back (sample_env LeftToRight) "web01" (-1) "Asia/Yekaterinburg"
           sample_world _ _ Hn Hrun).
Defined.



(** X5: a time zone name the tz database does not have is met only when
    a host is collected, after the host lookup and the item listing: for a
    host the lookup finds, the run raises [UnknownTimeZoneError] with those
    two requests sent and the clock not read. *)
Theorem unknown_timezone_raises env h n tz w hst rest all_items :
  host_get (zabbix env) h = inr (hst :: rest) ->
  item_get_enabled (zabbix env) (hostid hst) = inr all_items ->
  tz_database env tz = None ->
  exists w',
    collect_host_metrics env h n tz w = (inl (UnknownTimeZoneError tz), w')
    /\ requests w' = (requests w ++ [ReqHostGet h; ReqItemGetEnabled (hostid hst)])%list
    /\ clock_reads w' = clock_reads w
    /\ fs w' = fs w.
Proof.
  intros Eh Ei Ez.
  eexists. split.
  - unfold collect_host_metrics.
    rewrite (bind_ok _ _ _ _ _ (get_host_id_ok env h w hst rest Eh)).
    unfold bind at 1, send at 1. rewrite Ei.
    erewrite bind_err by (apply get_timestamp_unknown; exact Ez).
    reflexivity.
  - simpl. rewrite <- app_assoc. auto.
Qed.

Lemma unknown_timezone_raises_witness :
  host_get (zabbix (sample_env LeftToRight)) "web01" = inr [sh_host web01]
  /\ item_get_enabled (zabbix (sample_env LeftToRight)) (hostid (sh_host web01))
     = inr (map si_item (sh_items web01))
  /\ tz_database (sample_env LeftToRight) "Asia/Ekaterinburg" = None
  /\ exists w',
       collect_host_metrics (sample_env LeftToRight) "web01" 31 "Asia/Ekaterinburg"
                            sample_world
       = (inl (UnknownTimeZoneError "Asia/Ekaterinburg"), w')
       /\ requests w'
          = (requests sample_world
             ++ [ReqHostGet "web01"; ReqItemGetEnabled (hostid (sh_host web01))])%list
       /\ clock_reads w' = clock_reads sample_world
       /\ fs w' = fs sample_world.
Proof.
  assert (host_get (zabbix (sample_env LeftToRight)) "web01" = inr [sh_host web01])
    as Eh by reflexivity.
  assert (item_get_enabled (zabbix (sample_env LeftToRight)) (hostid (sh_host web01))
          = inr (map si_item (sh_items web01))) as Ei by reflexivity.
  assert (tz_database (sample_env LeftToRight) "Asia/Ekaterinburg" = None)
    as Ez by reflexivity.
  split; [exact Eh |]. split; [exact Ei |]. split; [exact Ez |].
  exact (unknown_timezone_raises (sample_env LeftToRight) "web01" 31
           "Asia/Ekaterinburg" sample_world _ _ _ Eh Ei Ez).
Defined.


(* ================================================================== *)
(** * Further properties of [main] *)
(* ================================================================== *)

Lemma collect_all_acc env p hosts : forall acc w all w',
  foldM (fun all_metrics h =>
           host_metrics <- collect_host_metrics env h (days_back p) (timezone p) ;;
           ret (all_metrics ++ host_metrics)%list)
        hosts acc w = (inr all, w') ->
  exists tables,
    Forall2 (fun h t => exists w1 w2,
               collect_host_metrics env h (days_back p) (timezone p) w1 = (inr t, w2))
            hosts tables
    /\ all = (acc ++ List.concat tables)%list.
Proof.
  induction hosts as [| h hosts IH]; intros acc w all w' H; cbn [foldM] in H.
  - apply ret_inr in H. destruct H as [<- _]. exists []. split; [constructor |].
    simpl. now rewrite app_nil_r.
  - run_step H. run_step Hrun. apply ret_inr in Hrun. destruct Hrun as [<- <-].
    apply IH in H. destruct H as (tables & Hf & ->).
    exists (a0 :: tables). split.
    + constructor; [eauto | exact Hf].
    + simpl. now rewrite app_assoc.
Qed.

Lemma collect_all_run env p w all w' :
  collect_all env p w = (inr all, w') ->
  exists tables,
    Forall2 (fun h t => exists w1 w2,
               collect_host_metrics env h (days_back p) (timezone p) w1 = (inr t, w2))
            (host_names p) tables
    /\ all = List.concat tables.
Proof. unfold collect_all. intros H. now apply collect_all_acc in H. Qed.

(** Every row of the table of a host carries the name the host was asked
    for by. *)
Lemma table_server env h n tz w table w' :
  collect_host_metrics env h n tz w = (inr table, w') ->
  Forall (fun r => Server r = h) table.
Proof.
  intros H. apply collect_host_metrics_run in H.
  destruct H as (hid & hreal & all_items & days & items & w4 & _ & ->).
  apply Forall_forall. intros r Hr. apply in_flat_map in Hr.
  destruct Hr as (it & _ & Hr). apply contribution_statistics in Hr.
  destruct Hr as (avg & mn & mx & _ & Hs & _). exact Hs.
Qed.

(** The three ways [main_body] can go. *)
Lemma main_body_cases env p w :
  (exists e w1,
      connect_zabbix env (zabbix_server_url p) (username p) (password p) w = (inl e, w1)
      /\ main_body env p w = (inl e, w1))
  \/ (exists w1 e w2,
      connect_zabbix env (zabbix_server_url p) (username p) (password p) w = (inr tt, w1)
      /\ collect_all env p w1 = (inl e, w2)
      /\ main_body env p w = (inl e, w2))
  \/ (exists w1 m w2,
      connect_zabbix env (zabbix_server_url p) (username p) (password p) w = (inr tt, w1)
      /\ collect_all env p w1 = (inr m, w2)
      /\ main_body env p w
         = match save_report p m w2 with
           | (inr _, w3) =>
               (inr (exit_json true (output_path p) m
                       ("Successfully collected metrics for "
                        ++ str_of_nat (List.length (host_names p)) ++ " hosts")), w3)
           | (inl e, w3) => (inl e, w3)
           end).
Proof.
  unfold main_body.
  destruct (connect_zabbix env (zabbix_server_url p) (username p) (password p) w)
    as [[e | []] w1] eqn:E1.
  - left. exists e, w1. split; [reflexivity |]. now apply bind_err.
  - right. rewrite (bind_ok _ _ _ _ _ E1).
    destruct (collect_all env p w1) as [[e | m] w2] eqn:E2.
    + left. exists w1, e, w2. split; [reflexivity |]. split; [exact E2 |].
      now apply bind_err.
    + right. exists w1, m, w2. split; [reflexivity |]. split; [exact E2 |].
      rewrite (bind_ok _ _ _ _ _ E2).
      unfold bind. destruct (save_report p m w2) as [[e | u] w3]; reflexivity.
Qed.

Lemma main_exit env p w c f m msg w' :
  main env p w = (exit_json c f m msg, w') ->
  HAS_ZABBIX env = true
  /\ c = true /\ f = output_path p
  /\ msg = "Successfully collected metrics for "
           ++ str_of_nat (List.length (host_names p)) ++ " hosts"
  /\ exists w1 w2,
       connect_zabbix env (zabbix_server_url p) (username p) (password p) w = (inr tt, w1)
       /\ collect_all env p w1 = (inr m, w2)
       /\ save_report p m w2 = (inr tt, w').
Proof.
  unfold main. destruct (HAS_ZABBIX env); simpl; [| discriminate].
  destruct (main_body_cases env p w)
    as [(e & w1 & _ & ->) | [(w1 & e & w2 & _ & _ & ->) | (w1 & m' & w2 & E1 & E2 & ->)]];
    try discriminate.
  destruct (save_report p m' w2) as [[e | []] w3] eqn:E3; [discriminate |].
  intros H. inversion H; subst. repeat split. eauto.
Qed.

(** X6: the rows a successful run reports are the tables that
    [collect_host_metrics] returned for the hosts, one after the other in
    the order of [host_names]; every row carries in its Server column the
    name the host was requested by. *)
Theorem metrics_by_host env p w c f m msg w' :
  main env p w = (exit_json c f m msg, w') ->
  exists tables,
    m = List.concat tables
    /\ Forall2 (fun h t =>
                  (exists w1 w2,
                      collect_host_metrics env h (days_back p) (timezone p) w1
                      = (inr t, w2))
                  /\ Forall (fun r => Server r = h) t)
               (host_names p) tables.
Proof.
  intros H. apply main_exit in H.
  destruct H as (_ & _ & _ & _ & w1 & w2 & _ & Hc & _).
  apply collect_all_run in Hc. destruct Hc as (tables & Hf & ->).
  exists tables. split; [reflexivity |].
  induction Hf as [| h t hosts tables (wa & wb & Ht) Hf IH]; constructor.
  - split; [eauto |]. eapply table_server. exact Ht.
  - exact IH.
Qed.

Lemma metrics_by_host_witness :
  main (sample_env LeftToRight) (sample_params ["db01"; "web01"; "web01"]
                                   "/tmp/server_metrics.xlsx") sample_world
  = (exit_json true "/tmp/server_metrics.xlsx"
       (sample_table LeftToRight ++ sample_table LeftToRight)
       "Successfully collected metrics for 3 hosts",
     snd (main (sample_env LeftToRight)
               (sample_params ["db01"; "web01"; "web01"] "/tmp/server_metrics.xlsx")
               sample_world))
  /\ exists tables,
       (sample_table LeftToRight ++ sample_table LeftToRight)%list = List.concat tables
       /\ Forall2 (fun h t =>
                     (exists w1 w2,
                         collect_host_metrics (sample_env LeftToRight) h 1
                                              "Asia/Yekaterinburg" w1 = (inr t, w2))
                     /\ Forall (fun r => Server r = h) t)
                  ["db01"; "web01"; "web01"] tables.
Proof.
  assert (main (sample_env LeftToRight)
               (sample_params ["db01"; "web01"; "web01"] "/tmp/server_metrics.xlsx")
               sample_world
          = (exit_json true "/tmp/server_metrics.xlsx"
               (sample_table LeftToRight ++ sample_table LeftToRight)
               "Successfully collected metrics for 3 hosts",
             snd (main (sample_env LeftToRight)
                       (sample_params ["db01"; "web01"; "web01"]
                                      "/tmp/server_metrics.xlsx")
                       sample_world))) as Hrun
    by (vm_compute; reflexivity).
  split; [exact Hrun |].
  exact (metrics_by_host (sample_env LeftToRight)
           (sample_params ["db01"; "web01"; "web01"] "/tmp/server_metrics.xlsx")
           sample_world _ _ _ _ _ Hrun).
Defined.

(** ** What the report file holds afterwards *)

Lemma mem_cons p q l : mem p (q :: l) = (String.eqb p q || mem p l)%bool.
Proof. reflexivity. Qed.

Lemma os_mkdir_keeps f p f' :
  os_mkdir f p = inr f' ->
  files f' = files f
  /\ (forall d, mem d (dirs f) = true -> mem d (dirs f') = true).
Proof.
  unfold os_mkdir. destruct (os_path_exists f p); [discriminate |].
  destruct (negb (dirname p =? "")%string && negb (mem (dirname p) (dirs f)));
    [discriminate |].
  intros H. inversion H; subst. simpl. split; [reflexivity |].
  intros d Hd. now rewrite Hd, orb_true_r.
Qed.

Lemma makedirs_rec_keeps depth : forall f p f',
  makedirs_rec depth f p = inr f' ->
  files f' = files f
  /\ (forall d, mem d (dirs f) = true -> mem d (dirs f') = true).
Proof.
  induction depth as [| depth IH]; intros f p f'; cbn [makedirs_rec].
  - apply os_mkdir_keeps.
  - destruct (negb (dirname p =? "")%string && negb (dirname p =? p)%string
              && negb (os_path_exists f (dirname p))).
    + destruct (makedirs_rec depth f (dirname p)) as [e | f1] eqn:E; [discriminate |].
      intros H. apply IH in E. apply os_mkdir_keeps in H.
      destruct E as [E1 E2], H as [H1 H2]. split; [congruence | auto].
    + apply os_mkdir_keeps.
Qed.

Lemma write_excel_ok f df p f' :
  write_excel f df p = inr f' ->
  dirs f' = dirs f
  /\ files f' = (p, df) :: filter (fun e => negb (fst e =? p)%string) (files f)
  /\ (dirname p = "" \/ mem (dirname p) (dirs f) = true).
Proof.
  unfold write_excel.
  destruct (dirname p =? "")%string eqn:Ed; simpl.
  - apply String.eqb_eq in Ed.
    destruct (mem p (dirs f)); [discriminate |].
    intros H. inversion H; subst. simpl. auto.
  - destruct (mem (dirname p) (dirs f)); simpl; [| discriminate].
    destruct (mem p (dirs f)); [discriminate |].
    intros H. inversion H; subst. simpl. auto.
Qed.

Lemma find_filter_other (l : list (string * DataFrame)) p q :
  q <> p ->
  find (fun e => (fst e =? q)%string)
       (filter (fun e => negb (fst e =? p)%string) l)
  = find (fun e => (fst e =? q)%string) l.
Proof.
  intros Hne. induction l as [| [k v] l IH]; simpl; [reflexivity |].
  destruct (String.eqb_spec k p) as [-> | Hk]; simpl.
  - destruct (String.eqb_spec p q) as [E | _]; [congruence | exact IH].
  - destruct (k =? q)%string; [reflexivity | exact IH].
Qed.

Lemma read_other f df p f' q :
  write_excel f df p = inr f' -> q <> p -> read_excel f' q = read_excel f q.
Proof.
  intros H Hne. apply write_excel_ok in H. destruct H as (_ & Ef & _).
  unfold read_excel. rewrite Ef. simpl.
  destruct (String.eqb_spec p q) as [E | _]; [congruence |].
  now rewrite find_filter_other.
Qed.

Lemma to_excel_run df p w r w' :
  to_excel df p w = (r, w') ->
  match r with
  | inr _ => write_excel (fs w) df p = inr (fs w')
  | inl e => write_excel (fs w) df p = inl e /\ w' = w
  end
  /\ requests w' = requests w /\ clock_reads w' = clock_reads w.
Proof.
  unfold to_excel. destruct (write_excel (fs w) df p) as [e | f'];
    intros H; inversion H; subst; simpl; auto.
Qed.

(** The steps of [save_report] before the writer: they add directories
    at most. *)
Lemma save_report_steps p m w :
  exists w1,
    (save_report p m w = to_excel {| rows := m; columns := DATA_COLUMNS |}
                                  (output_path p) w1
     \/ exists e, save_report p m w = (inl e, w1))
    /\ files (fs w1) = files (fs w)
    /\ (forall d, mem d (dirs (fs w)) = true -> mem d (dirs (fs w1)) = true)
    /\ requests w1 = requests w /\ clock_reads w1 = clock_reads w.
Proof.
  destruct m as [| r m].
  - exists w. split; [left; reflexivity | auto].
  - assert (save_report p (r :: m) w
            = ((if negb (dirname (output_path p) =? "")%string
                   && negb (os_path_exists (fs w) (dirname (output_path p)))
                then os_makedirs (dirname (output_path p)) else ret tt) ;;
               to_excel {| rows := r :: m; columns := DATA_COLUMNS |} (output_path p)) w)
      as -> by reflexivity.
    destruct (negb (dirname (output_path p) =? "")%string
              && negb (os_path_exists (fs w) (dirname (output_path p)))).
    + unfold bind, os_makedirs.
      destruct (makedirs_rec (String.length (dirname (output_path p))) (fs w)
                  (dirname (output_path p))) as [e | f'] eqn:E.
      * exists w. split; [right; exists e; reflexivity | auto].
      * apply makedirs_rec_keeps in E. destruct E as [E1 E2].
        eexists. split; [left; reflexivity |]. simpl. auto.
    + exists w. split; [left; reflexivity | auto].
Qed.

Lemma save_report_ok p m w w' :
  save_report p m w = (inr tt, w') ->
  read_excel (fs w') (output_path p) = Some {| rows := m; columns := DATA_COLUMNS |}
  /\ (forall q, q <> output_path p -> read_excel (fs w') q = read_excel (fs w) q)
  /\ (forall d, mem d (dirs (fs w)) = true -> mem d (dirs (fs w')) = true)
  /\ (dirname (output_path p) = ""
      \/ mem (dirname (output_path p)) (dirs (fs w')) = true)
  /\ requests w' = requests w /\ clock_reads w' = clock_reads w.
Proof.
  intros H.
  destruct (save_report_steps p m w) as (w1 & [E | [e E]] & Ef & Ed & Er & Ec);
    rewrite E in H; [| discriminate].
  apply to_excel_run in H. destruct H as (W & Er' & Ec').
  pose proof (write_excel_ok _ _ _ _ W) as (Wd & Wf & Wdir).
  split; [eapply read_after_write; exact W |].
  split.
  { intros q Hq. rewrite (read_other _ _ _ _ q W Hq). unfold read_excel.
    now rewrite Ef. }
  split; [intros d Hd; rewrite Wd; now apply Ed |].
  split; [rewrite Wd; exact Wdir |].
  split; congruence.
Qed.

Lemma save_report_err p m w e w' :
  save_report p m w = (inl e, w') -> files (fs w') = files (fs w).
Proof.
  intros H.
  destruct (save_report_steps p m w) as (w1 & [E | [e' E]] & Ef & _);
    rewrite E in H.
  - apply to_excel_run in H. destruct H as ((_ & ->) & _). exact Ef.
  - inversion H; subst. exact Ef.
Qed.

(** X7: when the run ends in [exit_json], the result says [changed], names
    the output path and counts the hosts requested; the sheet at the
    output path holds exactly the rows reported, under the six headers,
    replacing what was there; every other sheet reads as before; no
    directory is gone, and the directory of the output path exists. *)
Theorem report_holds_metrics env p w c f m msg w' :
  main env p w = (exit_json c f m msg, w') ->
  c = true
  /\ f = output_path p
  /\ msg = "Successfully collected metrics for "
           ++ str_of_nat (List.length (host_names p)) ++ " hosts"
  /\ read_excel (fs w') (output_path p) = Some {| rows := m; columns := DATA_COLUMNS |}
  /\ (forall q, q <> output_path p -> read_excel (fs w') q = read_excel (fs w) q)
  /\ (forall d, mem d (dirs (fs w)) = true -> mem d (dirs (fs w')) = true)
  /\ (dirname (output_path p) = ""
      \/ mem (dirname (output_path p)) (dirs (fs w')) = true).
Proof.
  intros H. apply main_exit in H.
  destruct H as (_ & -> & -> & -> & w1 & w2 & E1 & E2 & E3).
  pose proof (fs_connect env (zabbix_server_url p) (username p) (password p) w) as F1.
  pose proof (fs_collect_all env p w1) as F2.
  rewrite E1 in F1. rewrite E2 in F2. unfold same_fs in *. simpl in F1, F2.
  apply save_report_ok in E3. destruct E3 as (R1 & R2 & R3 & R4 & _).
  rewrite F2, F1 in R2, R3. auto 10.
Qed.

Lemma report_holds_metrics_witness :
  main (sample_env LeftToRight)
       (sample_params ["web01"] "/srv/reports/server_metrics.xlsx") sample_world
  = (exit_json true "/srv/reports/server_metrics.xlsx" (sample_table LeftToRight)
       "Successfully collected metrics for 1 hosts",
     snd (main (sample_env LeftToRight)
               (sample_params ["web01"] "/srv/reports/server_metrics.xlsx")
               sample_world))
  /\ (true = true
      /\ "/srv/reports/server_metrics.xlsx"
         = output_path (sample_params ["web01"] "/srv/reports/server_metrics.xlsx")
      /\ "Successfully collected metrics for 1 hosts"
         = "Successfully collected metrics for "
           ++ str_of_nat (List.length
                (host_names (sample_params ["web01"] "/srv/reports/server_metrics.xlsx")))
           ++ " hosts"
      /\ read_excel
           (fs (snd (main (sample_env LeftToRight)
                          (sample_params ["web01"] "/srv/reports/server_metrics.xlsx")
                          sample_world)))
           (output_path (sample_params ["web01"] "/srv/reports/server_metrics.xlsx"))
         = Some {| rows := sample_table LeftToRight; columns := DATA_COLUMNS |}
      /\ (forall q,
             q <> output_path (sample_params ["web01"] "/srv/reports/server_metrics.xlsx") ->
             read_excel
               (fs (snd (main (sample_env LeftToRight)
                              (sample_params ["web01"] "/srv/reports/server_metrics.xlsx")
                              sample_world))) q
             = read_excel (fs sample_world) q)
      /\ (forall d, mem d (dirs (fs sample_world)) = true ->
                    mem d (dirs (fs (snd (main (sample_env LeftToRight)
                              (sample_params ["web01"] "/srv/reports/server_metrics.xlsx")
                              sample_world)))) = true)
      /\ (dirname (output_path
                     (sample_params ["web01"] "/srv/reports/server_metrics.xlsx")) = ""
          \/ mem (dirname (output_path
                     (sample_params ["web01"] "/srv/reports/server_metrics.xlsx")))
                 (dirs (fs (snd (main (sample_env LeftToRight)
                              (sample_params ["web01"] "/srv/reports/server_metrics.xlsx")
                              sample_world)))) = true)).
Proof.
  assert (main (sample_env LeftToRight)
               (sample_params ["web01"] "/srv/reports/server_metrics.xlsx") sample_world
          = (exit_json true "/srv/reports/server_metrics.xlsx" (sample_table LeftToRight)
               "Successfully collected metrics for 1 hosts",
             snd (main (sample_env LeftToRight)
                       (sample_params ["web01"] "/srv/reports/server_metrics.xlsx")
                       sample_world))) as Hrun
    by (vm_compute; reflexivity).
  split; [exact Hrun |].
  exact (report_holds_metrics (sample_env LeftToRight)
           (sample_params ["web01"] "/srv/reports/server_metrics.xlsx")
           sample_world _ _ _ _ _ Hrun).
Defined.

(** X8: when the run ends in [fail_json], whatever the cause, no sheet
    was written, replaced or removed: the files are those from before. *)
Theorem failure_writes_no_sheet env p w msg w' :
  main env p w = (fail_json msg, w') -> files (fs w') = files (fs w).
Proof.
  unfold main. destruct (HAS_ZABBIX env); simpl.
  - pose proof (fs_connect env (zabbix_server_url p) (username p) (password p) w) as F1.
    destruct (main_body_cases env p w)
      as [(e & w1 & E1 & ->)
         | [(w1 & e & w2 & E1 & E2 & ->) | (w1 & m & w2 & E1 & E2 & ->)]];
      rewrite E1 in F1; unfold same_fs in F1; simpl in F1.
    + intros H. inversion H; subst. now rewrite F1.
    + pose proof (fs_collect_all env p w1) as F2. rewrite E2 in F2.
      unfold same_fs in F2. simpl in F2.
      intros H. inversion H; subst. now rewrite F2, F1.
    + pose proof (fs_collect_all env p w1) as F2. rewrite E2 in F2.
      unfold same_fs in F2. simpl in F2.
      destruct (save_report p m w2) as [[e | u] w3] eqn:E3; [| discriminate].
      intros H. inversion H; subst.
      apply save_report_err in E3. now rewrite E3, F2, F1.
  - intros H. now inversion H.
Qed.

Lemma failure_writes_no_sheet_witness :
  main (sample_env LeftToRight)
       (sample_params ["db01"] "/srv/reports/server_metrics.xlsx") sample_world
  = (fail_json ("Error collecting metrics: "
                ++ "Cannot save file into a non-existent directory: '/srv/reports'"),
     snd (main (sample_env LeftToRight)
               (sample_params ["db01"] "/srv/reports/server_metrics.xlsx")
               sample_world))
  /\ files (fs (snd (main (sample_env LeftToRight)
                          (sample_params ["db01"] "/srv/reports/server_metrics.xlsx")
                          sample_world)))
     = files (fs sample_world).
Proof.
  assert (main (sample_env LeftToRight)
               (sample_params ["db01"] "/srv/reports/server_metrics.xlsx") sample_world
          = (fail_json ("Error collecting metrics: "
                        ++ "Cannot save file into a non-existent directory: '/srv/reports'"),
             snd (main (sample_env LeftToRight)
                       (sample_params ["db01"] "/srv/reports/server_metrics.xlsx")
                       sample_world))) as Hrun
    by (vm_compute; reflexivity).
  split; [exact Hrun |].
  exact (failure_writes_no_sheet (sample_env LeftToRight)
           (sample_params ["db01"] "/srv/reports/server_metrics.xlsx")
           sample_world _ _ Hrun).
Defined.

(** X9: an exception raised by the login or while the hosts are
    collected, whichever it is, ends the run in [fail_json] with the text
    of the exception after "Error collecting metrics: "; the file system
    is as it was. *)
Theorem collection_error_reported env p w e w1 :
  HAS_ZABBIX env = true ->
  (connect_zabbix env (zabbix_server_url p) (username p) (password p) ;;
   collect_all env p) w = (inl e, w1) ->
  main env p w = (fail_json ("Error collecting metrics: " ++ str e), w1)
  /\ fs w1 = fs w.
Proof.
  intros Hz H. unfold main. rewrite Hz. simpl.
  pose proof (fs_connect env (zabbix_server_url p) (username p) (password p) w) as F1.
  destruct (main_body_cases env p w)
    as [(e' & w1' & E1 & ->)
       | [(w1' & e' & w2 & E1 & E2 & ->) | (w1' & m & w2 & E1 & E2 & _)]];
    rewrite E1 in F1; unfold same_fs in F1; simpl in F1.
  - rewrite (bind_err _ _ _ _ _ E1) in H. inversion H; subst. auto.
  - rewrite (bind_ok _ _ _ _ _ E1), E2 in H. inversion H; subst.
    pose proof (fs_collect_all env p w1') as F2. rewrite E2 in F2.
    unfold same_fs in F2. simpl in F2. split; [reflexivity | congruence].
  - rewrite (bind_ok _ _ _ _ _ E1), E2 in H. discriminate.
Qed.

Lemma collection_error_reported_witness :
  HAS_ZABBIX (sample_env LeftToRight) = true
  /\ (connect_zabbix (sample_env LeftToRight) "zbx.example.org/zabbix" "report" "secret" ;;
      collect_all (sample_env LeftToRight)
        (sample_params_with ["web01"; "db01"] "/tmp/server_metrics.xlsx" 31
                            "Asia/Ekaterinburg")) sample_world
     = (inl (UnknownTimeZoneError "Asia/Ekaterinburg"),
        snd (main (sample_env LeftToRight)
               (sample_params_with ["web01"; "db01"] "/tmp/server_metrics.xlsx" 31
                                   "Asia/Ekaterinburg") sample_world))
  /\ main (sample_env LeftToRight)
          (sample_params_with ["web01"; "db01"] "/tmp/server_metrics.xlsx" 31
                              "Asia/Ekaterinburg") sample_world
     = (fail_json ("Error collecting metrics: "
                   ++ str (UnknownTimeZoneError "Asia/Ekaterinburg")),
        snd (main (sample_env LeftToRight)
               (sample_params_with ["web01"; "db01"] "/tmp/server_metrics.xlsx" 31
                                   "Asia/Ekaterinburg") sample_world))
  /\ fs (snd (main (sample_env LeftToRight)
               (sample_params_with ["web01"; "db01"] "/tmp/server_metrics.xlsx" 31
                                   "Asia/Ekaterinburg") sample_world))
     = fs sample_world.
Proof.
  assert (HAS_ZABBIX (sample_env LeftToRight) = true) as Hz by reflexivity.
  assert ((connect_zabbix (sample_env LeftToRight) "zbx.example.org/zabbix"
             "report" "secret" ;;
           collect_all (sample_env LeftToRight)
             (sample_params_with ["web01"; "db01"] "/tmp/server_metrics.xlsx" 31
                                 "Asia/Ekaterinburg")) sample_world
          = (inl (UnknownTimeZoneError "Asia/Ekaterinburg"),
             snd (main (sample_env LeftToRight)
                    (sample_params_with ["web01"; "db01"] "/tmp/server_metrics.xlsx" 31
                                        "Asia/Ekaterinburg") sample_world))) as Hrun
    by (vm_compute; reflexivity).
  split; [exact Hz |]. split; [exact Hrun |].
  exact (collection_error_reported (sample_env LeftToRight)
           (sample_params_with ["web01"; "db01"] "/tmp/server_metrics.xlsx" 31
                               "Asia/Ekaterinburg")
           sample_world _ _ Hz Hrun).
Defined.

(** The message of that run. *)
Example unknown_timezone_message :
  fst (main (sample_env LeftToRight)
            (sample_params_with ["web01"; "db01"] "/tmp/server_metrics.xlsx" 31
                                "Asia/Ekaterinburg") sample_world)
  = fail_json "Error collecting metrics: 'Asia/Ekaterinburg'".
Proof. vm_compute. reflexivity. Qed.

Lemma sent_collect_all env p : respects (sent (built_request env)) (collect_all env p).
Proof.
  unfold collect_all. apply respects_foldM; [apply sent_refl | apply sent_trans |].
  intros acc h. apply respects_bind; [apply sent_trans | |].
  - apply sent_collect_host_metrics.
  - intros m w. apply sent_refl.
Qed.

Lemma save_report_requests p m w : requests (snd (save_report p m w)) = requests w.
Proof.
  destruct (save_report_steps p m w) as (w1 & [E | [e E]] & _ & _ & Er & _);
    rewrite E; simpl; [| exact Er].
  destruct (to_excel {| rows := m; columns := DATA_COLUMNS |} (output_path p) w1)
    as [r w2] eqn:T.
  apply to_excel_run in T. destruct T as (_ & Er' & _). simpl. congruence.
Qed.

(** X10: when the library is there, the login is the first request of
    the run; if the server refuses it, it stays the only one, and the run
    ends in [fail_json] with the text of the refusal. *)
Theorem login_comes_first env p w :
  HAS_ZABBIX env = true ->
  exists rest,
    requests (snd (main env p w))
    = (requests w ++ ReqLogin (zabbix_server_url p) (username p) :: rest)%list
    /\ forall e,
         login (zabbix env) (zabbix_server_url p) (username p) (password p) = inl e ->
         rest = []
         /\ fst (main env p w) = fail_json ("Error collecting metrics: " ++ str e).
Proof.
  intros Hz. unfold main. rewrite Hz. simpl.
  destruct (main_body_cases env p w)
    as [(e & w1 & E1 & ->)
       | [(w1 & e & w2 & E1 & E2 & ->) | (w1 & m & w2 & E1 & E2 & ->)]];
    unfold connect_zabbix in E1; apply send_trace in E1;
    destruct E1 as (Ea & Er & _).
  - exists []. simpl. split; [exact Er |].
    intros e' He. split; [reflexivity |]. congruence.
  - destruct (sent_collect_all env p w1) as (new & En & _). rewrite E2 in En.
    simpl in En. exists new. simpl. split.
    + rewrite En, Er, <- app_assoc. reflexivity.
    + intros e' He. congruence.
  - destruct (sent_collect_all env p w1) as (new & En & _). rewrite E2 in En.
    simpl in En. exists new.
    pose proof (save_report_requests p m w2) as Es.
    destruct (save_report p m w2) as [[e | u] w3]; simpl in *; split;
      try (rewrite Es, En, Er, <- app_assoc; reflexivity);
      intros e' He; congruence.
Qed.

Lemma login_comes_first_witness :
  HAS_ZABBIX locked_env = true
  /\ exists rest,
       requests (snd (main locked_env
                           (sample_params ["web01"] "/tmp/server_metrics.xlsx")
                           sample_world))
       = (requests sample_world
          ++ ReqLogin (zabbix_server_url (sample_params ["web01"] "/tmp/server_metrics.xlsx"))
                      (username (sample_params ["web01"] "/tmp/server_metrics.xlsx"))
             :: rest)%list
       /\ forall e,
            login (zabbix locked_env)
                  (zabbix_server_url (sample_params ["web01"] "/tmp/server_metrics.xlsx"))
                  (username (sample_params ["web01"] "/tmp/server_metrics.xlsx"))
                  (password (sample_params ["web01"] "/tmp/server_metrics.xlsx"))
            = inl e ->
            rest = []
            /\ fst (main locked_env
                         (sample_params ["web01"] "/tmp/server_metrics.xlsx")
                         sample_world)
               = fail_json ("Error collecting metrics: " ++ str e).
Proof.
  assert (HAS_ZABBIX locked_env = true) as Hz by reflexivity.
  split; [exact Hz |].
  exact (login_comes_first locked_env
           (sample_params ["web01"] "/tmp/server_metrics.xlsx") sample_world Hz).
Defined.

(** The refused login, as the run reports it. *)
Example refused_login_message :
  main locked_env (sample_params ["web01"] "/tmp/server_metrics.xlsx") sample_world
  = (fail_json "Error collecting metrics: Login name or password is incorrect.",
     {| requests := [ReqLogin "zbx.example.org/zabbix" "report"];
        clock_reads := 0; fs := fs sample_world |}).
Proof. vm_compute. reflexivity. Qed.

(* ================================================================== *)
(** * Further properties of the windows *)
(* ================================================================== *)




(** At 07:00 UTC it is 09:00 in Athens and the anchor is the day itself;
    a second earlier it is the day before. *)
Example anchor_at_nine :
  base_date athens sample_now = 20760
  /\ base_date athens (sample_now - 1) = 20759.
Proof. vm_compute. split; reflexivity. Qed.

Lemma quiet_same z lo hi x :
  quiet z lo hi = true -> lo <= x <= hi -> info_at z x = info_at z lo.
Proof.
  unfold quiet, info_at. intros Q Hx. symmetry. apply entry_at_same; [lia |].
  intros tau Hin Hr. rewrite forallb_forall in Q. specialize (Q tau Hin).
  apply negb_true_iff, andb_false_iff in Q.
  destruct Q as [Q | Q]; [apply Z.ltb_ge in Q | apply Z.leb_gt in Q]; lia.
Qed.

Lemma day_windows_In z base indices : forall ws d,
  day_windows z base indices = inr ws -> In d ws ->
  exists i, In i indices /\ day_window z base i = inr d.
Proof.
  induction indices as [| i indices IH]; simpl; intros ws d H Hin.
  - inversion H; subst. contradiction.
  - destruct (day_window z base i) as [e | d0] eqn:E; [discriminate |].
    destruct (day_windows z base indices) as [e | ws'] eqn:E'; [discriminate |].
    inversion H; subst. destruct Hin as [<- | Hin].
    + exists i. auto.
    + destruct (IH ws' d eq_refl Hin) as (j & Hj & Ej). exists j. auto.
Qed.

Lemma day_window_inv z base i d :
  day_window z base i = inr d ->
  exists i9 i18,
    date d = base - i
    /\ localize z (combine (base - i) 9) = inr (time_from d, i9)
    /\ localize z (combine (base - i) 18) = inr (time_till d, i18).
Proof.
  unfold day_window, change_utc2timestamp.
  destruct (localize z (combine (base - i) 9)) as [e | [u9 i9]]; [discriminate |].
  destruct (localize z (combine (base - i) 18)) as [e | [u18 i18]]; [discriminate |].
  intros H. inversion H; subst. simpl. rewrite !Z.sub_0_r. eauto.
Qed.

(** Where the zone has no transition around a wall-clock time, the time
    exists and [localize] reads it in the entry in force there. *)
Lemma localize_quiet z lo hi wall u inf :
  regular z = true ->
  quiet z lo hi = true ->
  lo + 64800 <= wall <= hi - 64800 ->
  localize z wall = inr (u, inf) ->
  to_local z u = wall /\ u = wall - utcoffset (info_at z lo).
Proof.
  intros R Q Hw H.
  pose proof (regular_offsets z lo R) as O.
  assert (wall_clock_time z wall) as Hc.
  { exists (wall - utcoffset (info_at z lo)). unfold to_local.
    rewrite (quiet_same z lo hi (wall - utcoffset (info_at z lo)) Q) by lia. lia. }
  pose proof (localize_shows z wall u inf R H Hc) as E.
  split; [exact E |].
  pose proof (regular_offsets z u R) as Ou. unfold to_local in E.
  rewrite (quiet_same z lo hi u Q) in E by lia. lia.
Qed.

(** X12: in a regular zone, a window around whose day the zone has no
    transition (none from 18 hours before its local 09:00 to 18 hours
    after its local 18:00, both read as UTC) is exactly nine hours long:
    it runs from 09:00 to 18:00 local time of its date, in one and the
    same offset. *)
Theorem nine_hour_window env tz z days_back w ws w' d :
  tz_database env tz = Some z ->
  regular z = true ->
  get_timestamp_ekb2timestamp env tz days_back w = (inr ws, w') ->
  In d ws ->
  quiet z (combine (date d) 9 - 64800) (combine (date d) 18 + 64800) = true ->
  to_local z (time_from d) = combine (date d) 9
  /\ to_local z (time_till d) = combine (date d) 18
  /\ time_till d - time_from d = 32400
  /\ utcoffset (info_at z (time_till d)) = utcoffset (info_at z (time_from d)).
Proof.
  intros Ez R H Hin Q.
  apply get_timestamp_run in H. destruct H as (z' & Ez' & Hw & _).
  assert (z' = z) as -> by congruence.
  destruct (day_windows_In _ _ _ _ _ Hw Hin) as (i & _ & Hd).
  apply day_window_inv in Hd. destruct Hd as (i9 & i18 & Ed & H9 & H18).
  rewrite <- Ed in H9, H18.
  assert (combine (date d) 18 = combine (date d) 9 + 32400) as E18
    by (unfold combine; lia).
  assert (combine (date d) 9 - 64800 + 64800 <= combine (date d) 9
          <= combine (date d) 18 + 64800 - 64800) as B9 by lia.
  assert (combine (date d) 9 - 64800 + 64800 <= combine (date d) 18
          <= combine (date d) 18 + 64800 - 64800) as B18 by lia.
  destruct (localize_quiet z _ _ _ _ _ R Q B9 H9) as [S9 U9].
  destruct (localize_quiet z _ _ _ _ _ R Q B18 H18) as [S18 U18].
  split; [exact S9 |]. split; [exact S18 |]. split; [lia |].
  unfold to_local in S9, S18. lia.
Qed.

Lemma nine_hour_window_witness :
  tz_database (sample_env LeftToRight) "Europe/Athens" = Some athens
  /\ regular athens = true
  /\ get_timestamp_ekb2timestamp (sample_env LeftToRight) "Europe/Athens" 1 sample_world
     = (inr [ {| date := 20760; time_from := 1793689200; time_till := 1793721600 |};
              {| date := 20759; time_from := 1793602800; time_till := 1793635200 |} ],
        {| requests := []; clock_reads := 1; fs := fs sample_world |})
  /\ In {| date := 20759; time_from := 1793602800; time_till := 1793635200 |}
        [ {| date := 20760; time_from := 1793689200; time_till := 1793721600 |};
          {| date := 20759; time_from := 1793602800; time_till := 1793635200 |} ]
  /\ quiet athens (combine 20759 9 - 64800) (combine 20759 18 + 64800) = true
  /\ to_local athens 1793602800 = combine 20759 9
  /\ to_local athens 1793635200 = combine 20759 18
  /\ 1793635200 - 1793602800 = 32400
  /\ utcoffset (info_at athens 1793635200) = utcoffset (info_at athens 1793602800).
Proof.
  assert (tz_database (sample_env LeftToRight) "Europe/Athens" = Some athens)
    as Ez by reflexivity.
  assert (regular athens = true) as R by (vm_compute; reflexivity).
  assert (get_timestamp_ekb2timestamp (sample_env LeftToRight) "Europe/Athens" 1
            sample_world
          = (inr [ {| date := 20760; time_from := 1793689200; time_till := 1793721600 |};
                   {| date := 20759; time_from := 1793602800; time_till := 1793635200 |} ],
             {| requests := []; clock_reads := 1; fs := fs sample_world |})) as Hrun
    by (vm_compute; reflexivity).
  assert (In {| date := 20759; time_from := 1793602800; time_till := 1793635200 |}
             [ {| date := 20760; time_from := 1793689200; time_till := 1793721600 |};
               {| date := 20759; time_from := 1793602800; time_till := 1793635200 |} ])
    as Hin by (simpl; auto).
  assert (quiet athens (combine 20759 9 - 64800) (combine 20759 18 + 64800) = true)
    as Q by (vm_compute; reflexivity).
  split; [exact Ez |]. split; [exact R |]. split; [exact Hrun |].
  split; [exact Hin |]. split; [exact Q |].
  exact (nine_hour_window (sample_env LeftToRight) "Europe/Athens" athens 1
           sample_world _ _ _ Ez R Hrun Hin Q).
Defined.

(** The window of 25 October 2026 in Athens, the day the clocks go
    back, also runs from 09:00 to 18:00, and is nine hours long; that of
    1 April 1979 is eight hours long. *)
Example athens_windows_with_a_change :
  day_window athens 20760 9
  = inr {| date := 20751; time_from := 1792911600; time_till := 1792944000 |}
  /\ day_window athens 3377 0
     = inr {| date := 3377; time_from := 291798000; time_till := 291826800 |}
  /\ 291826800 - 291798000 = 28800.
Proof. vm_compute. repeat split; reflexivity. Qed.

(* ================================================================== *)
(** * Keys, templates and the storage class *)
(* ================================================================== *)

Lemma prefix_app a post : prefix a (a ++ post) = true.
Proof.
  induction a as [| c a IH]; simpl.
  - destruct post; reflexivity.
  - destruct (ascii_dec c c) as [_ | N]; [exact IH | congruence].
Qed.

Lemma prefix_split a : forall h, prefix a h = true -> exists post, h = a ++ post.
Proof.
  induction a as [| c a IH]; intros h H.
  - exists h. reflexivity.
  - destruct h as [| c' h]; simpl in H; [discriminate |].
    destruct (ascii_dec c c') as [<- | _]; [| discriminate].
    destruct (IH h H) as [post ->]. exists post. reflexivity.
Qed.

Lemma str_append_assoc (a b c : string) : (a ++ b) ++ c = a ++ (b ++ c).
Proof. induction a as [| x a IH]; simpl; [reflexivity | now rewrite IH]. Qed.

(** [contains] is the substring test: [needle in hay] holds exactly when
    [hay] is some text, [needle], and some text. *)
Lemma contains_spec needle hay :
  contains needle hay = true <-> exists pre post, hay = pre ++ needle ++ post.
Proof.
  split.
  - induction hay as [| c hay IH]; cbn [contains].
    + destruct (prefix needle "") eqn:P; intros H; [| discriminate H].
      destruct (prefix_split _ _ P) as [post E]. exists "", post. exact E.
    + destruct (prefix needle (String c hay)) eqn:P; intros H.
      * destruct (prefix_split _ _ P) as [post E]. exists "", post. exact E.
      * destruct (IH H) as (pre & post & ->).
        exists (String c pre), post. reflexivity.
  - intros (pre & post & ->). induction pre as [| c pre IH].
    + change ("" ++ needle ++ post) with (needle ++ post).
      pose proof (prefix_app needle post) as P.
      destruct (needle ++ post); cbn [contains]; now rewrite P.
    + change (String c pre ++ needle ++ post) with (String c (pre ++ needle ++ post)).
      cbn [contains]. rewrite IH.
      destruct (prefix needle (String c (pre ++ needle ++ post))); reflexivity.
Qed.

Lemma contains_part a b key : contains (a ++ b) key = true -> contains a key = true.
Proof.
  rewrite !contains_spec. intros (pre & post & ->).
  exists pre, (b ++ post). now rewrite str_append_assoc.
Qed.

(** X13: the two network templates and the test for the storage class
    agree: an item whose key contains [net.if.in] or [net.if.out], the
    keys the fourth and fifth template select, is always read from the
    history of class 3, whatever the window. *)
Theorem network_templates_read_class_3 (it : api_item) (day : day_range) :
  contains "net.if.in" (key_ it) = true \/ contains "net.if.out" (key_ it) = true ->
  In "net.if.in" KEYS_TEMPLATE /\ In "net.if.out" KEYS_TEMPLATE
  /\ history (history_request it day) = 3.
Proof.
  intros H.
  split; [unfold KEYS_TEMPLATE; simpl; auto 6 |].
  split; [unfold KEYS_TEMPLATE; simpl; auto 6 |].
  unfold history_request, history_class. cbn [history].
  assert (contains "net.if." (key_ it) = true) as ->; [| reflexivity].
  destruct H as [H | H].
  - apply (contains_part "net.if." "in"). exact H.
  - apply (contains_part "net.if." "out"). exact H.
Qed.

Lemma network_templates_read_class_3_witness :
  (contains "net.if.in" (key_ (si_item (mk_item "102" "Interface eth0: Bits received"
                                                "net.if.in[eth0]" 3 []))) = true
   \/ contains "net.if.out" (key_ (si_item (mk_item "102" "Interface eth0: Bits received"
                                                    "net.if.in[eth0]" 3 []))) = true)
  /\ In "net.if.in" KEYS_TEMPLATE /\ In "net.if.out" KEYS_TEMPLATE
  /\ history (history_request
                (si_item (mk_item "102" "Interface eth0: Bits received"
                                  "net.if.in[eth0]" 3 []))
                {| date := 20760; time_from := 1793678400; time_till := 1793710800 |})
     = 3.
Proof.
  assert (contains "net.if.in" (key_ (si_item (mk_item "102"
             "Interface eth0: Bits received" "net.if.in[eth0]" 3 []))) = true
          \/ contains "net.if.out" (key_ (si_item (mk_item "102"
             "Interface eth0: Bits received" "net.if.in[eth0]" 3 []))) = true) as H
    by (left; vm_compute; reflexivity).
  split; [exact H |].
  exact (network_templates_read_class_3 _ _ H).
Defined.

(** X14: the keys the template loop selects are exactly the keys of the
    enabled items that have one of the five templates as a substring,
    anywhere in the key. *)
Theorem matching_keys_spec all_items k :
  In k (matching_keys all_items)
  <-> exists it t pre post,
        In it all_items /\ In t KEYS_TEMPLATE
        /\ key_ it = k /\ k = pre ++ t ++ post.
Proof.
  unfold matching_keys. rewrite in_flat_map. split.
  - intros (it & Hit & Hk). apply in_flat_map in Hk. destruct Hk as (t & Ht & Hk).
    destruct (contains t (key_ it)) eqn:C; [| contradiction].
    destruct Hk as [<- | []].
    apply contains_spec in C. destruct C as (pre & post & E).
    exists it, t, pre, post. auto.
  - intros (it & t & pre & post & Hit & Ht & <- & E).
    exists it. split; [exact Hit |]. apply in_flat_map. exists t. split; [exact Ht |].
    assert (contains t (key_ it) = true) as ->
      by (apply contains_spec; eauto).
    now left.
Qed.

(* ================================================================== *)
(** * The directory of the report *)
(* ================================================================== *)

Lemma makedirs_one_level f dir :
  dir <> "" ->
  os_path_exists f dir = false ->
  dirname dir = "" \/ mem (dirname dir) (dirs f) = true ->
  makedirs_rec (String.length dir) f dir
  = inr {| dirs := dir :: dirs f; files := files f |}.
Proof.
  intros Hne Hmiss Hparent.
  assert (os_mkdir f dir = inr {| dirs := dir :: dirs f; files := files f |}) as Hmk.
  { unfold os_mkdir. rewrite Hmiss.
    destruct Hparent as [E | E]; rewrite E; [reflexivity |].
    now rewrite andb_false_r. }
  destruct dir as [| c dir']; [congruence |].
  cbn [String.length makedirs_rec].
  assert (negb (dirname (String c dir') =? "")%string
          && negb (dirname (String c dir') =? String c dir')%string
          && negb (os_path_exists f (dirname (String c dir'))) = false) as ->.
  { destruct Hparent as [E | E].
    - rewrite E. reflexivity.
    - unfold os_path_exists. rewrite E. simpl. now rewrite andb_false_r. }
  exact Hmk.
Qed.

(** X15: with rows to write, a missing directory of the output path is
    created before the sheet is written, when its own parent exists (or
    it has none): the run succeeds, the directory is there afterwards and
    the sheet holds the rows. *)
Theorem missing_directory_created env p w m w1 :
  HAS_ZABBIX env = true ->
  (connect_zabbix env (zabbix_server_url p) (username p) (password p) ;;
   collect_all env p) w = (inr m, w1) ->
  m <> [] ->
  dirname (output_path p) <> "" ->
  os_path_exists (fs w1) (dirname (output_path p)) = false ->
  dirname (dirname (output_path p)) = ""
  \/ mem (dirname (dirname (output_path p))) (dirs (fs w1)) = true ->
  mem (output_path p) (dirs (fs w1)) = false ->
  output_path p <> dirname (output_path p) ->
  exists w2,
    main env p w
    = (exit_json true (output_path p) m
         ("Successfully collected metrics for "
          ++ str_of_nat (List.length (host_names p)) ++ " hosts"), w2)
    /\ dirs (fs w2) = dirname (output_path p) :: dirs (fs w1)
    /\ read_excel (fs w2) (output_path p)
       = Some {| rows := m; columns := DATA_COLUMNS |}.
Proof.
  intros Hz Hrun Hm Hne Hmiss Hparent Hnodir Hneq.
  apply bind_inr in Hrun. destruct Hrun as ([] & w0 & Hc & Hall).
  pose proof (makedirs_one_level (fs w1) _ Hne Hmiss Hparent) as Hmk.
  apply String.eqb_neq in Hne. apply String.eqb_neq in Hneq.
  assert (save_report p m w1
          = (inr tt,
             {| requests := requests w1; clock_reads := clock_reads w1;
                fs := {| dirs := dirname (output_path p) :: dirs (fs w1);
                         files := (output_path p,
                                   {| rows := m; columns := DATA_COLUMNS |})
                                  :: filter (fun e => negb (fst e =? output_path p)%string)
                                            (files (fs w1)) |} |})) as Hs.
  { destruct m as [| r m]; [congruence |].
    unfold save_report, path_exists. unfold bind at 1. cbv beta iota zeta.
    rewrite Hne, Hmiss. cbn [negb andb].
    unfold bind, os_makedirs. rewrite Hmk.
    unfold to_excel, write_excel. cbn [fs dirs files].
    rewrite Hne, mem_cons, String.eqb_refl. cbn [negb andb orb].
    rewrite mem_cons, Hneq, Hnodir. reflexivity. }
  eexists. split.
  - unfold main. rewrite Hz. cbn [negb]. unfold main_body.
    rewrite (bind_ok _ _ _ _ _ Hc), (bind_ok _ _ _ _ _ Hall),
      (bind_ok _ _ _ _ _ Hs). reflexivity.
  - split; [reflexivity |]. unfold read_excel. cbn [fs files find fst snd].
    now rewrite String.eqb_refl.
Qed.

Lemma missing_directory_created_witness :
  HAS_ZABBIX (sample_env LeftToRight) = true
  /\ (connect_zabbix (sample_env LeftToRight) "zbx.example.org/zabbix" "report" "secret" ;;
      collect_all (sample_env LeftToRight)
        (sample_params ["web01"] "/tmp/reports/server_metrics.xlsx")) sample_world
     = (inr (sample_table LeftToRight),
        snd ((connect_zabbix (sample_env LeftToRight) "zbx.example.org/zabbix"
                             "report" "secret" ;;
              collect_all (sample_env LeftToRight)
                (sample_params ["web01"] "/tmp/reports/server_metrics.xlsx"))
               sample_world))
  /\ sample_table LeftToRight <> []
  /\ exists w2,
       main (sample_env LeftToRight)
            (sample_params ["web01"] "/tmp/reports/server_metrics.xlsx") sample_world
       = (exit_json true "/tmp/reports/server_metrics.xlsx" (sample_table LeftToRight)
            ("Successfully collected metrics for "
             ++ str_of_nat (List.length ["web01"]) ++ " hosts"), w2)
       /\ dirs (fs w2) = "/tmp/reports" :: dirs (fs sample_world)
       /\ read_excel (fs w2) "/tmp/reports/server_metrics.xlsx"
          = Some {| rows := sample_table LeftToRight; columns := DATA_COLUMNS |}.
Proof.
  assert (HAS_ZABBIX (sample_env LeftToRight) = true) as Hz by reflexivity.
  assert ((connect_zabbix (sample_env LeftToRight) "zbx.example.org/zabbix"
             "report" "secret" ;;
           collect_all (sample_env LeftToRight)
             (sample_params ["web01"] "/tmp/reports/server_metrics.xlsx")) sample_world
          = (inr (sample_table LeftToRight),
             snd ((connect_zabbix (sample_env LeftToRight) "zbx.example.org/zabbix"
                                  "report" "secret" ;;
                   collect_all (sample_env LeftToRight)
                     (sample_params ["web01"] "/tmp/reports/server_metrics.xlsx"))
                    sample_world))) as Hrun
    by (vm_compute; reflexivity).
  assert (sample_table LeftToRight <> []) as Hm by (vm_compute; discriminate).
  split; [exact Hz |]. split; [exact Hrun |]. split; [exact Hm |].
  apply (missing_directory_created (sample_env LeftToRight)
           (sample_params ["web01"] "/tmp/reports/server_metrics.xlsx")
           sample_world _ _ Hz Hrun Hm).
  - vm_compute. discriminate.
  - vm_compute. reflexivity.
  - right. vm_compute. reflexivity.
  - vm_compute. reflexivity.
  - vm_compute. discriminate.
Defined.

(* ================================================================== *)
(** * The clock *)
(* ================================================================== *)

Lemma collect_all_clock env p hosts : forall acc w all w',
  foldM (fun all_metrics h =>
           host_metrics <- collect_host_metrics env h (days_back p) (timezone p) ;;
           ret (all_metrics ++ host_metrics)%list)
        hosts acc w = (inr all, w') ->
  clock_reads w' = (clock_reads w + List.length hosts)%nat.
Proof.
  induction hosts as [| h hosts IH]; intros acc w all w' H; cbn [foldM] in H.
  - apply ret_inr in H. destruct H as [_ <-]. simpl. lia.
  - run_step H. run_step Hrun. apply ret_inr in Hrun. destruct Hrun as [_ <-].
    apply collect_host_metrics_trace in Hrun0.
    destruct Hrun0 as (hst & rest & all_items & z & days
                       & _ & _ & _ & _ & _ & _ & Ec & _).
    apply IH in H. rewrite H, Ec. simpl. lia.
Qed.

(** X16: the windows are made anew for every host: a run that ends in
    [exit_json] has read the clock once per entry of [host_names], so the
    anchor day of one host need not be that of the next. *)
Theorem clock_read_per_host env p w c f m msg w' :
  main env p w = (exit_json c f m msg, w') ->
  clock_reads w' = (clock_reads w + List.length (host_names p))%nat.
Proof.
  intros H. apply main_exit in H.
  destruct H as (_ & _ & _ & _ & w1 & w2 & E1 & E2 & E3).
  unfold connect_zabbix in E1. apply send_trace in E1. destruct E1 as (_ & _ & C1 & _).
  unfold collect_all in E2. apply collect_all_clock in E2.
  apply save_report_ok in E3. destruct E3 as (_ & _ & _ & _ & _ & C3).
  congruence.
Qed.

Lemma clock_read_per_host_witness :
  main (sample_env LeftToRight) (sample_params ["db01"; "web01"; "web01"]
                                   "/tmp/server_metrics.xlsx") sample_world
  = (exit_json true "/tmp/server_metrics.xlsx"
       (sample_table LeftToRight ++ sample_table LeftToRight)
       "Successfully collected metrics for 3 hosts",
     snd (main (sample_env LeftToRight)
               (sample_params ["db01"; "web01"; "web01"] "/tmp/server_metrics.xlsx")
               sample_world))
  /\ clock_reads (snd (main (sample_env LeftToRight)
                            (sample_params ["db01"; "web01"; "web01"]
                                           "/tmp/server_metrics.xlsx")
                            sample_world))
     = (clock_reads sample_world
        + List.length (host_names (sample_params ["db01"; "web01"; "web01"]
                                                 "/tmp/server_metrics.xlsx")))%nat.
Proof.
  assert (main (sample_env LeftToRight)
               (sample_params ["db01"; "web01"; "web01"] "/tmp/server_metrics.xlsx")
               sample_world
          = (exit_json true "/tmp/server_metrics.xlsx"
               (sample_table LeftToRight ++ sample_table LeftToRight)
               "Successfully collected metrics for 3 hosts",
             snd (main (sample_env LeftToRight)
                       (sample_params ["db01"; "web01"; "web01"]
                                      "/tmp/server_metrics.xlsx")
                       sample_world))) as Hrun
    by (vm_compute; reflexivity).
  split; [exact Hrun |].
  exact (clock_read_per_host (sample_env LeftToRight)
           (sample_params ["db01"; "web01"; "web01"] "/tmp/server_metrics.xlsx")
           sample_world _ _ _ _ _ Hrun).
Defined.

(** A run that starts a second before 09:00 local time: the first host
    is asked for the window of the day before, the second for today's. *)
Example windows_differ_between_hosts :
  let env := {| zabbix := serve [web01; db01];
                wall_clock := clock_across_nine;
                tz_database := sample_timezones;
                HAS_ZABBIX := true;
                sum_alg := LeftToRight |} in
  let w1 := snd (collect_host_metrics env "web01" 0 "Asia/Yekaterinburg" sample_world) in
  fst (get_timestamp_ekb2timestamp env "Asia/Yekaterinburg" 0 sample_world)
  = inr [ {| date := 20759; time_from := 1793592000; time_till := 1793624400 |} ]
  /\ fst (get_timestamp_ekb2timestamp env "Asia/Yekaterinburg" 0 w1)
     = inr [ {| date := 20760; time_from := 1793678400; time_till := 1793710800 |} ].
Proof. vm_compute. split; reflexivity. Qed.
